(** * SkyMemo: weather classification, mood resolution, prompt synthesis,
  journal store and statistics

  A shallow embedding of the reasoning core of the SkyMemo journaling
  application (config.py, weather_handler.py, prompt_generator.py,
  journal_manager.py, the data of the charts of visualizer.py and what
  the pages of app.py pass to the core), followed by the properties proved
  about it.

  Conventions of the embedding.
  - A Python [str] is a [string], with the case folding of ASCII letters.
    The text of an entry, which the code splits at white space, is the
    list of its Unicode code points, and the white space is that of
    [str.split()].
  - A Python [dict] literal is an association list in insertion order,
    because the code iterates over [items()] and breaks ties by
    first-encountered order; a key of a dictionary that may be absent is
    an [option].
  - A Python [set] is a [gset]; [sorted(set(..))] is a merge sort of its
    elements.
  - A temperature is a rational number: every finite float and every int
    is one, and Python compares floats with ints exactly.
  - A calendar day is its ordinal, so that days are compared and
    subtracted as integers; where the code adds days to a date, a result
    outside [date.min] to [date.max] is the [OverflowError] it raises.
  - [d[k]] and [str.format] can raise; such code returns an [option].
  - The clock and the random source are explicit arguments; the float
    average of the statistics is computed by a function given as an
    argument.
  - The answer of the weather service is an argument of the call; the
    cache file and the entries file are the dictionary and the list they
    hold. *)

From Stdlib Require Import ZArith QArith Lqa Ascii String List Lia.
From stdpp Require Import base list strings gmap sorting.

Close Scope Q_scope.
Open Scope Z_scope.

(** ** Python primitives *)

Module Py.

(** [str.lower()] on ASCII letters. *)
Definition lower_char (c : ascii) : ascii :=
  let n := N_of_ascii c in
  if ((65 <=? n) && (n <=? 90))%N then ascii_of_N (n + 32) else c.

Fixpoint lower (s : string) : string :=
  match s with
  | EmptyString => EmptyString
  | String c s' => String (lower_char c) (lower s')
  end.

(** [needle in hay] on strings: [needle] occurs as a substring. *)
Fixpoint contains (needle hay : string) : bool :=
  String.prefix needle hay ||
  match hay with
  | EmptyString => false
  | String _ hay' => contains needle hay'
  end.

(** [s.replace(old, new)] for one-character [old] and [new]. *)
Fixpoint replace_char (old new : ascii) (s : string) : string :=
  match s with
  | EmptyString => EmptyString
  | String c s' =>
      String (if Ascii.eqb c old then new else c) (replace_char old new s')
  end.

(** A text that the user types is the sequence of its Unicode code
    points: [str.split()] splits at every Unicode white space, and most of
    them are not ASCII. *)
Definition codepoints : Type := list N.

(** [c.isspace()], the white space of [str.split()]: U+0009 to U+000D,
    U+001C to U+0020, U+0085, U+00A0, U+1680, U+2000 to U+200A, U+2028,
    U+2029, U+202F, U+205F and U+3000. *)
Definition is_space (c : N) : bool :=
  ((9 <=? c) && (c <=? 13) || (28 <=? c) && (c <=? 32)
   || (c =? 133) || (c =? 160) || (c =? 5760)
   || (8192 <=? c) && (c <=? 8202)
   || (c =? 8232) || (c =? 8233) || (c =? 8239) || (c =? 8287) || (c =? 12288))%N.

(** [s.split()]: the maximal runs of code points that are not white
    space.  [cur] is the run being read, in reverse, if one is open. *)
Fixpoint split_go (cur : option codepoints) (s : codepoints) : list codepoints :=
  match s with
  | [] => option_list (reverse <$> cur)
  | c :: s' =>
      if is_space c
      then option_list (reverse <$> cur) ++ split_go None s'
      else split_go (Some (c :: default [] cur)) s'
  end.

Definition split (s : codepoints) : list codepoints := split_go None s.

(** [d.get(k, dflt)] and [d[k]] on an insertion-ordered dictionary. *)
Fixpoint lookup {V : Type} (k : string) (d : list (string * V)) : option V :=
  match d with
  | [] => None
  | (k', v) :: d' => if String.eqb k' k then Some v else lookup k d'
  end.

Definition get {V : Type} (d : list (string * V)) (k : string) (dflt : V) : V :=
  default dflt (lookup k d).

(** [d[k] = v]: the value is replaced in place, a new key goes last. *)
Fixpoint set {V : Type} (k : string) (v : V) (d : list (string * V))
  : list (string * V) :=
  match d with
  | [] => [(k, v)]
  | (k', v') :: d' =>
      if String.eqb k' k then (k', v) :: d' else (k', v') :: set k v d'
  end.

(** [d[k] = d.get(k, 0) + 1] *)
Definition incr (k : string) (d : list (string * Z)) : list (string * Z) :=
  set k (get d k 0 + 1) d.

(** [max(d.items(), key=lambda x: x[1])[0]]: the first key, in insertion
    order, whose value is maximal; the dictionary is not empty. *)
Fixpoint max_by_value (best : string * Z) (items : list (string * Z)) : string :=
  match items with
  | [] => best.1
  | kv :: items' =>
      max_by_value (if best.2 <? kv.2 then kv else best) items'
  end.

(** ** [str.format] with keyword arguments

    The fragment of the format mini-language that the templates use:
    literal text, the doubled braces, and replacement fields [{name}].
    A lone closing brace, an unterminated field, a brace inside a field
    name and a name that is not among the keyword arguments all raise. *)
Inductive piece :=
| Lit (c : ascii)
| Field (name : string).

Definition lbrace : ascii := "{"%char.
Definition rbrace : ascii := "}"%char.

(** [field] is the name of the replacement field being read, in reverse. *)
Fixpoint parse (field : option string) (s : string) : option (list piece) :=
  match s, field with
  | EmptyString, None => Some []
  | EmptyString, Some _ => None
  | String c s', Some name =>
      if Ascii.eqb c rbrace then cons (Field (String.rev name)) <$> parse None s'
      else if Ascii.eqb c lbrace then None
      else parse (Some (String c name)) s'
  | String c s', None =>
      if Ascii.eqb c lbrace then
        match s' with
        | String c' s'' =>
            if Ascii.eqb c' lbrace then cons (Lit lbrace) <$> parse None s''
            else parse (Some EmptyString) s'
        | EmptyString => None
        end
      else if Ascii.eqb c rbrace then
        match s' with
        | String c' s'' =>
            if Ascii.eqb c' rbrace then cons (Lit rbrace) <$> parse None s''
            else None
        | EmptyString => None
        end
      else cons (Lit c) <$> parse None s'
  end.

Fixpoint render (kwargs : list (string * string)) (ps : list piece)
  : option string :=
  match ps with
  | [] => Some EmptyString
  | Lit c :: ps' => String c <$> render kwargs ps'
  | Field name :: ps' =>
      v ← lookup name kwargs;
      r ← render kwargs ps';
      Some (v +:+ r)
  end.

Definition format (template : string) (kwargs : list (string * string))
  : option string :=
  parse None template ≫= render kwargs.

(** ** [random]

    The random source is the stream of its raw draws.  [randbelow n]
    reduces the next draw modulo [n], so every outcome of the real
    generator is the outcome of some stream. *)
Definition rng := nat → nat.

Definition randbelow (n : nat) (g : rng) : nat * rng :=
  ((g 0 `mod` n)%nat, λ k, g (S k)).

(** [random.choice(seq)] on a non-empty sequence. *)
Definition choice {A : Type} (dflt : A) (seq : list A) (g : rng) : A * rng :=
  let '(i, g') := randbelow (length seq) g in
  (nth i seq dflt, g').

(** [x[i], x[j] = x[j], x[i]] *)
Definition swap {A : Type} (i j : nat) (x : list A) : list A :=
  match x !! i, x !! j with
  | Some a, Some b => <[j := a]> (<[i := b]> x)
  | _, _ => x
  end.

(** [random.shuffle(x)]:
    [for i in reversed(range(1, len(x))): j = randbelow(i + 1); swap]. *)
Fixpoint shuffle_from {A : Type} (i : nat) (x : list A) (g : rng) : list A * rng :=
  match i with
  | O => (x, g)
  | S i' =>
      let '(j, g') := randbelow (S i) g in
      shuffle_from i' (swap i j x) g'
  end.

Definition shuffle {A : Type} (x : list A) (g : rng) : list A * rng :=
  shuffle_from (length x - 1) x g.

End Py.

(** ** config.py *)

Module Config.

Record mood_info := {
  primary_mood : string;
  secondary_moods : list string;
  description : string
}.

Record temp_info := {
  threshold : Z;
  moods : list string
}.

Definition WEATHER_MOOD_MAP : list (string * mood_info) :=
  [ ("sunny", {| primary_mood := "energetic";
        secondary_moods := ["hopeful"; "calm"];
        description := "bright and uplifting" |});
    ("partly_cloudy", {| primary_mood := "calm";
        secondary_moods := ["reflective"; "balanced"];
        description := "mixed and transitional" |});
    ("cloudy", {| primary_mood := "reflective";
        secondary_moods := ["calm"; "introspective"];
        description := "contemplative and soft" |});
    ("rainy", {| primary_mood := "reflective";
        secondary_moods := ["melancholic"; "cozy"];
        description := "introspective and cozy" |});
    ("stormy", {| primary_mood := "intense";
        secondary_moods := ["energetic"; "dramatic"];
        description := "powerful and dramatic" |});
    ("snowy", {| primary_mood := "calm";
        secondary_moods := ["peaceful"; "quiet"];
        description := "serene and hushed" |});
    ("foggy", {| primary_mood := "mysterious";
        secondary_moods := ["reflective"; "uncertain"];
        description := "unclear and mysterious" |});
    ("windy", {| primary_mood := "energetic";
        secondary_moods := ["restless"; "dynamic"];
        description := "dynamic and changeable" |}) ].

Definition TEMP_MODIFIERS : list (string * temp_info) :=
  [ ("very_cold", {| threshold := 0; moods := ["cozy"; "introspective"] |});
    ("cold", {| threshold := 10; moods := ["crisp"; "alert"] |});
    ("cool", {| threshold := 15; moods := ["comfortable"; "balanced"] |});
    ("mild", {| threshold := 20; moods := ["pleasant"; "calm"] |});
    ("warm", {| threshold := 25; moods := ["energetic"; "vibrant"] |});
    ("hot", {| threshold := 30; moods := ["lazy"; "relaxed"] |});
    ("very_hot", {| threshold := 35; moods := ["sluggish"; "seeking_rest"] |}) ].

Definition PROMPT_TEMPLATES : list (string * list string) :=
  [ ("reflective",
     [ "Today's {weather_desc} weather invites reflection. What emotions are sitting with you right now?";
       "The {weather_condition} outside mirrors inner contemplation. What thoughts have been recurring lately?";
       "In this {weather_desc} moment, what aspects of your life deserve deeper attention?";
       "How does today's {weather_condition} weather influence your perspective on recent events?";
       "What would you tell your past self about handling days like this {weather_desc} one?" ]);
    ("energetic",
     [ "The {weather_desc} weather sparks energy! What goals are you excited to pursue?";
       "This {weather_condition} day feels full of possibility. What would you do if you couldn't fail?";
       "With {weather_desc} conditions outside, what adventure or project calls to you?";
       "The vibrant {weather_condition} weather energizes action. What's one thing you'll accomplish today?";
       "This {weather_desc} energy is contagious. What brings you alive right now?" ]);
    ("calm",
     [ "The {weather_desc} atmosphere invites peace. What are you grateful for today?";
       "In this {weather_condition} stillness, what simple pleasures brought you joy?";
       "Today's {weather_desc} weather suggests rest. How can you be kinder to yourself?";
       "The gentle {weather_condition} conditions create space for calm. What does your body need right now?";
       "This {weather_desc} moment is perfect for appreciation. What went well today?" ]);
    ("melancholic",
     [ "The {weather_desc} weather holds space for sadness. What loss or change are you processing?";
       "This {weather_condition} day allows for gentle grief. What do you need to let go of?";
       "In {weather_desc} weather like this, what memories surface for you?";
       "The {weather_condition} atmosphere validates difficult feelings. What hurts right now?";
       "This {weather_desc} backdrop supports healing. What wisdom has pain taught you?" ]);
    ("hopeful",
     [ "Today's {weather_desc} weather whispers possibility. What new beginning excites you?";
       "The {weather_condition} conditions feel like a fresh start. What are you hopeful about?";
       "This {weather_desc} day suggests transformation. What positive change do you sense coming?";
       "With {weather_condition} weather like this, what dream feels closer to reality?";
       "The {weather_desc} atmosphere nurtures hope. What future version of yourself can you envision?" ]);
    ("intense",
     [ "Today's {weather_desc} weather matches inner intensity. What strong emotions need expression?";
       "The {weather_condition} conditions mirror passion. What are you fired up about?";
       "This {weather_desc} energy demands attention. What truth needs to be spoken?";
       "The powerful {weather_condition} weather reflects big feelings. What's demanding to be felt?";
       "In this {weather_desc} intensity, what bold action is calling you?" ]);
    ("cozy",
     [ "The {weather_desc} weather invites coziness. What comforts are you savoring today?";
       "This {weather_condition} day is perfect for nesting. What makes you feel safe and warm?";
       "Today's {weather_desc} conditions suggest hygge. What small pleasures warmed your heart?";
       "The {weather_condition} weather creates a cocoon. What are you protecting or nurturing?";
       "This {weather_desc} atmosphere invites softness. How can you pamper yourself today?" ]);
    ("balanced",
     [ "Today's {weather_desc} weather suggests equilibrium. What feels in harmony right now?";
       "The {weather_condition} conditions mirror balance. Where are you finding your center?";
       "This {weather_desc} day invites moderation. What needs right-sizing in your life?";
       "The steady {weather_condition} weather reflects stability. What foundations are you building?";
       "In this {weather_desc} balance, what opposing forces are you integrating?" ]) ].

Definition WEATHER_KEYWORDS : list (string * list string) :=
  [ ("sunny", ["sun"; "sunny"; "clear"; "bright"]);
    ("partly_cloudy", ["partly cloudy"; "partly sunny"; "scattered clouds"]);
    ("cloudy", ["cloudy"; "overcast"; "grey"; "gray"]);
    ("rainy", ["rain"; "rainy"; "drizzle"; "shower"; "precipitation"]);
    ("stormy", ["storm"; "thunder"; "lightning"; "severe"]);
    ("snowy", ["snow"; "snowy"; "flurries"; "blizzard"]);
    ("foggy", ["fog"; "foggy"; "mist"; "misty"; "haze"]);
    ("windy", ["wind"; "windy"; "breezy"; "gusty"]) ].

Definition MOOD_COLORS : list (string * string) :=
  [ ("reflective", "#6B7FD7");
    ("energetic", "#F59E42");
    ("calm", "#7BC8A4");
    ("melancholic", "#8E9AAF");
    ("hopeful", "#FFD93D");
    ("intense", "#E63946");
    ("cozy", "#D4A574");
    ("balanced", "#4ECDC4");
    ("peaceful", "#A8DADC");
    ("mysterious", "#52489C") ].

End Config.

(** ** weather_handler.py *)

Module WeatherHandler.
Import Config.

(** The dictionary built by [get_weather_manual] and read by the prompt
    generator.  The generator reads [condition], [condition_raw] and
    [temperature_category] with [dict.get], so these keys may be absent. *)
Record weather_data := {
  temperature : Q;
  temperature_category : option string;
  condition : option string;
  condition_raw : option string;
  precipitation : bool;
  timestamp : string;
  source : string
}.

(** The nested loops return at the first category, in the order of the
    table, one of whose keywords occurs in the description. *)
Fixpoint first_keyword_match (description : string)
    (items : list (string * list string)) : option string :=
  match items with
  | [] => None
  | (condition, keywords) :: items' =>
      if existsb (λ keyword, Py.contains keyword description) keywords
      then Some condition
      else first_keyword_match description items'
  end.

Definition classify_weather_condition (description : string) : string :=
  let description := Py.lower description in
  default "partly_cloudy" (first_keyword_match description WEATHER_KEYWORDS).

(** [sorted(items, key=lambda x: x[1]['threshold'], reverse=True)]: a
    stable sort, items of equal threshold keep their order. *)
Fixpoint insert_by_threshold (x : string * temp_info)
    (l : list (string * temp_info)) : list (string * temp_info) :=
  match l with
  | [] => [x]
  | y :: l' =>
      if threshold x.2 <=? threshold y.2
      then y :: insert_by_threshold x l'
      else x :: l
  end.

Definition sorted_by_threshold_desc (items : list (string * temp_info))
  : list (string * temp_info) :=
  foldl (λ acc x, insert_by_threshold x acc) [] items.

(** The loop of [classify_temperature] over the sorted items. *)
Fixpoint first_reached (temp_celsius : Q) (items : list (string * temp_info))
  : option string :=
  match items with
  | [] => None
  | (category, info) :: items' =>
      if Qle_bool (inject_Z (threshold info)) temp_celsius
      then Some category
      else first_reached temp_celsius items'
  end.

Definition classify_temperature (temp_celsius : Q) : string :=
  default "very_cold"
    (first_reached temp_celsius (sorted_by_threshold_desc TEMP_MODIFIERS)).

(** [if precipitation and classified_condition == 'cloudy': ... = 'rainy'] *)
Definition adjust_condition (precipitation : bool) (classified_condition : string)
  : string :=
  if precipitation && bool_decide (classified_condition = "cloudy")
  then "rainy"
  else classified_condition.

Definition get_weather_manual (now : string) (temperature : Q)
    (condition : string) (precipitation : bool) : weather_data :=
  let classified_condition := classify_weather_condition condition in
  let temp_category := classify_temperature temperature in
  let classified_condition := adjust_condition precipitation classified_condition in
  {| temperature := temperature;
     temperature_category := Some temp_category;
     condition := Some classified_condition;
     condition_raw := Some condition;
     precipitation := precipitation;
     timestamp := now;
     source := "manual" |}.

(** The fields that [get_weather_api] reads from the answer of the
    service: [data['main']['temp']], [data['weather'][0]['description']],
    [data['main']['humidity']] and [data['wind']['speed']]. *)
Record api_data := {
  main_temp : Q;
  weather_description : string;
  main_humidity : Q;
  wind_speed_of : Q
}.

(** The keys that a sample of the service has beside those of a manual
    sample. *)
Record api_extra := {
  humidity : Q;
  wind_speed : Q;
  city : string
}.

Definition api_weather : Type := weather_data * api_extra.

(** The dictionary literal of [get_weather_api]. *)
Definition api_sample (now city : string) (data : api_data) : api_weather :=
  ({| temperature := main_temp data;
      temperature_category := Some (classify_temperature (main_temp data));
      condition := Some (classify_weather_condition (weather_description data));
      condition_raw := Some (weather_description data);
      precipitation :=
        Py.contains "rain" (Py.lower (weather_description data))
        || Py.contains "snow" (Py.lower (weather_description data));
      timestamp := now;
      source := "api" |},
   {| humidity := main_humidity data;
      wind_speed := wind_speed_of data;
      city := city |}).

(** The cache file holds a JSON object from city names to samples; the
    file is taken to be readable and writable, as [_ensure_cache_file]
    leaves it. *)
Definition cache : Type := list (string * api_weather).

Definition _cache_weather (city : string) (weather_data : api_weather) (c : cache)
  : cache :=
  Py.set city weather_data c.

Definition _get_cached_weather (city : string) (c : cache) : option api_weather :=
  Py.lookup city c.

(** [if not self.api_key]: no key, or the empty key. *)
Definition no_key (api_key : option string) : bool :=
  match api_key with
  | Some k => bool_decide (k = "")
  | None => true
  end.

(** [get_weather_api]: the sample returned and the cache afterwards.
    [response] is the answer of the service, [None] when the request, its
    status check or the reading of the answer raises. *)
Definition get_weather_api (api_key : option string) (now city : string)
    (response : option api_data) (c : cache) : option api_weather * cache :=
  if no_key api_key then (None, c)
  else
    match response with
    | Some data =>
        let weather_data := api_sample now city data in
        (Some weather_data, _cache_weather city weather_data c)
    | None => (_get_cached_weather city c, c)
    end.

End WeatherHandler.

(** ** prompt_generator.py *)

Module PromptGenerator.
Import Config.

(** The loop that merges the temperature moods into the secondary moods. *)
Definition merge_mood (primary_mood : string) (secondary_moods : list string)
    (mood : string) : list string :=
  if bool_decide (mood ∉ secondary_moods) && bool_decide (mood ≠ primary_mood)
  then secondary_moods ++ [mood]
  else secondary_moods.

Definition determine_moods (weather_data : WeatherHandler.weather_data)
  : option (string * list string) :=
  let condition := default "partly_cloudy" (WeatherHandler.condition weather_data) in
  let temp_category :=
    default "mild" (WeatherHandler.temperature_category weather_data) in
  fallback ← Py.lookup "partly_cloudy" WEATHER_MOOD_MAP;
  let mood_info := Py.get WEATHER_MOOD_MAP condition fallback in
  let primary_mood := primary_mood mood_info in
  let secondary_moods := secondary_moods mood_info in
  let temp_moods :=
    match Py.lookup temp_category TEMP_MODIFIERS with
    | Some temp_info => moods temp_info
    | None => []
    end in
  Some (primary_mood, foldl (merge_mood primary_mood) secondary_moods temp_moods).

Record prompt := {
  mood : string;
  text : string;
  is_primary : bool
}.

(** [template.format(weather_desc=.., weather_condition=condition.replace('_', ' '))] *)
Definition fill (weather_desc condition template : string) : option string :=
  Py.format template
    [ ("weather_desc", weather_desc);
      ("weather_condition", Py.replace_char "_" " " condition) ].

(** The local state of one call: the prompts, the used templates and the
    random source. *)
Definition state : Type := list prompt * gset string * Py.rng.

Definition available_templates (used_templates : gset string)
    (mood_templates : list string) : list string :=
  filter (λ t, t ∉ used_templates) mood_templates.

(** One prompt from a non-empty list of available templates. *)
Definition draw (weather_desc condition : string) (mood : string)
    (primary : bool) (t0 : string) (available : list string) (st : state)
  : option state :=
  let '(prompts, used_templates, g) := st in
  let '(template, g') := Py.choice t0 available g in
  prompt_text ← fill weather_desc condition template;
  Some (prompts ++ [ {| mood := mood; text := prompt_text; is_primary := primary |} ],
        {[ template ]} ∪ used_templates, g').

(** [for mood in all_moods: ...] *)
Fixpoint mood_loop (num_prompts : Z) (weather_desc condition primary_mood : string)
    (all_moods : list string) (st : state) : option state :=
  match all_moods with
  | [] => Some st
  | mood :: all_moods' =>
      if Z.of_nat (length st.1.1) >=? num_prompts then Some st
      else
        match Py.lookup mood PROMPT_TEMPLATES with
        | None => mood_loop num_prompts weather_desc condition primary_mood all_moods' st
        | Some mood_templates =>
            match available_templates st.1.2 mood_templates with
            | [] => mood_loop num_prompts weather_desc condition primary_mood all_moods' st
            | t0 :: rest =>
                st' ← draw weather_desc condition mood
                        (bool_decide (mood = primary_mood)) t0 (t0 :: rest) st;
                mood_loop num_prompts weather_desc condition primary_mood all_moods' st'
            end
        end
  end.

(** [while len(prompts) < num_prompts and primary_mood in self.templates: ...]
    Every round that does not leave the loop appends one prompt, so the
    test on the length holds for [num_prompts - len(prompts)] rounds and
    fails after them: the loop runs on that number, [missing]. *)
Fixpoint top_up (missing : nat) (weather_desc condition primary_mood : string)
    (st : state) : option state :=
  match missing with
  | O => Some st
  | S missing' =>
      match Py.lookup primary_mood PROMPT_TEMPLATES with
      | None => Some st
      | Some primary_templates =>
          match available_templates st.1.2 primary_templates with
          | [] => Some st
          | t0 :: rest =>
              st' ← draw weather_desc condition primary_mood true t0 (t0 :: rest) st;
              top_up missing' weather_desc condition primary_mood st'
          end
      end
  end.

Definition generate_prompts (weather_data : WeatherHandler.weather_data)
    (num_prompts : Z) (g : Py.rng) : option (list prompt) :=
  let condition := default "partly_cloudy" (WeatherHandler.condition weather_data) in
  fallback ← Py.lookup "partly_cloudy" WEATHER_MOOD_MAP;
  let mood_info := Py.get WEATHER_MOOD_MAP condition fallback in
  let weather_desc := description mood_info in
  '(primary_mood, secondary_moods) ← determine_moods weather_data;
  let all_moods := primary_mood :: secondary_moods in
  st ← mood_loop num_prompts weather_desc condition primary_mood all_moods ([], ∅, g);
  st ← top_up (Z.to_nat (num_prompts - Z.of_nat (length st.1.1)))
         weather_desc condition primary_mood st;
  Some (Py.shuffle st.1.1 st.2).1.

(** The dictionary of [suggest_writing_style]. *)
Definition styles : list (string * string) :=
  [ ("reflective", "Take your time. Write slowly and thoughtfully.");
    ("energetic", "Let your thoughts flow freely. Write with excitement!");
    ("calm", "Breathe and write gently. No rush.");
    ("melancholic", "Be kind to yourself. Write without judgment.");
    ("hopeful", "Dream on paper. Write about possibilities.");
    ("intense", "Don't hold back. Express what you truly feel.");
    ("cozy", "Get comfortable. Write as if talking to a friend.");
    ("balanced", "Find your rhythm. Write with steady awareness.") ].

Definition suggest_writing_style (mood : string) : string :=
  Py.get styles mood "Write authentically from your current state.".

End PromptGenerator.

(** ** journal_manager.py *)

Module JournalManager.

(** The value found under a key of a stored entry that the code reads
    with [dict.get]: the key is absent, holds [null], or holds a string. *)
Inductive json_str :=
| Absent
| Null
| Str (s : string).

(** [if v:] on such a value. *)
Definition truthy (v : json_str) : option string :=
  match v with
  | Str s => if bool_decide (s = "") then None else Some s
  | _ => None
  end.

Record weather_rec := {
  temperature : option Q;
  condition : json_str;
  condition_raw : json_str;
  precipitation : bool
}.

(** A stored entry.  A calendar day is its proleptic Gregorian ordinal
    ([date.toordinal()]): the strings ['YYYY-MM-DD'] are ordered as their
    ordinals, and [(d2 - d1).days] is the difference of the ordinals.
    [date] is [None] when the key is absent or empty; [updated_at] is
    [None] until the entry is updated. *)
Record entry := {
  id : string;
  timestamp : string;
  date : option Z;
  weather : weather_rec;
  mood_tags : list string;
  prompt : string;
  text : Py.codepoints;
  word_count : Z;
  updated_at : option string
}.

Definition of_option (o : option string) : json_str :=
  match o with
  | Some s => Str s
  | None => Null
  end.

(** [create_entry]: the new entry and the stored list, newest first.
    The clock is read three times: [now] is the [datetime.now().isoformat()]
    of the id, [now_timestamp] the one of the time stamp, and [today] the
    day of [datetime.now().strftime('%Y-%m-%d')]. *)
Definition create_entry (now now_timestamp : string) (today : Z)
    (weather_data : WeatherHandler.weather_data) (mood_tags : list string)
    (prompt : string) (journal_text : Py.codepoints) (entries : list entry)
  : entry * list entry :=
  let entry :=
    {| id := now;
       timestamp := now_timestamp;
       date := Some today;
       weather :=
         {| temperature := Some (WeatherHandler.temperature weather_data);
            condition := of_option (WeatherHandler.condition weather_data);
            condition_raw := of_option (WeatherHandler.condition_raw weather_data);
            precipitation := WeatherHandler.precipitation weather_data |};
       mood_tags := mood_tags;
       prompt := prompt;
       text := journal_text;
       word_count := Z.of_nat (length (Py.split journal_text));
       updated_at := None |} in
  (entry, entry :: entries).

(** [entries[:n]] *)
Definition slice_to (n : Z) (entries : list entry) : list entry :=
  if 0 <=? n then take (Z.to_nat n) entries
  else take (length entries - Z.to_nat (- n)) entries.

Definition get_all_entries (limit : option Z) (entries : list entry) : list entry :=
  match limit with
  | Some n => if bool_decide (n ≠ 0) then slice_to n entries else entries
  | None => entries
  end.

Definition get_entry_by_id (entry_id : string) (entries : list entry) : option entry :=
  find (λ entry, String.eqb (id entry) entry_id) entries.

(** The three assignments of [update_entry] to the entry found. *)
Definition with_text (now : string) (updated_text : Py.codepoints) (e : entry) : entry :=
  {| id := id e;
     timestamp := timestamp e;
     date := date e;
     weather := weather e;
     mood_tags := mood_tags e;
     prompt := prompt e;
     text := updated_text;
     word_count := Z.of_nat (length (Py.split updated_text));
     updated_at := Some now |}.

(** The loop of [update_entry]: the list with the first entry of that id
    updated, or [None] when the loop ends without finding one. *)
Fixpoint update_first (now entry_id : string) (updated_text : Py.codepoints)
    (entries : list entry) : option (list entry) :=
  match entries with
  | [] => None
  | entry :: entries' =>
      if String.eqb (id entry) entry_id
      then Some (with_text now updated_text entry :: entries')
      else cons entry <$> update_first now entry_id updated_text entries'
  end.

(** [update_entry]: the success flag and the stored list afterwards. *)
Definition update_entry (now entry_id : string) (updated_text : Py.codepoints)
    (stored : list entry) : bool * list entry :=
  match update_first now entry_id updated_text stored with
  | Some entries => (true, entries)
  | None => (false, stored)
  end.

Definition delete_entry (entry_id : string) (stored : list entry) : bool * list entry :=
  let entries := filter (λ e, id e ≠ entry_id) stored in
  if bool_decide (length entries < length stored)%nat
  then (true, entries)
  else (false, stored).

(** [get_entries_by_date_range], for two calendar days.  The date of an
    entry without one is read as the empty string, which no day is below. *)
Definition in_date_range (start_date end_date : Z) (entry : entry) : bool :=
  match date entry with
  | Some entry_date => bool_decide (start_date ≤ entry_date ≤ end_date)
  | None => false
  end.

Definition get_entries_by_date_range (start_date end_date : Z) (entries : list entry)
  : list entry :=
  filter (λ entry, in_date_range start_date end_date entry) entries.

Definition get_entries_by_mood (mood : string) (entries : list entry) : list entry :=
  filter (λ e, mood ∈ mood_tags e) entries.

Fixpoint longest_loop (prev : Z) (dates : list Z) (max_streak current_streak : Z) : Z :=
  match dates with
  | [] => max_streak
  | curr :: dates' =>
      if curr - prev =? 1
      then longest_loop curr dates' (Z.max max_streak (current_streak + 1))
             (current_streak + 1)
      else longest_loop curr dates' max_streak 1
  end.

Definition _calculate_longest_streak (dates : list Z) : Z :=
  match dates with
  | [] => 0
  | first :: dates' => longest_loop first dates' 1 1
  end.

(** [for i, date_str in enumerate(reversed(dates))], from index [i]. *)
Fixpoint current_loop (today : Z) (i : Z) (reversed_dates : list Z) (streak : Z) : Z :=
  match reversed_dates with
  | [] => streak
  | date :: reversed_dates' =>
      if date =? today - i
      then current_loop today (i + 1) reversed_dates' (streak + 1)
      else streak
  end.

Definition _calculate_current_streak (today : Z) (dates : list Z) : Z :=
  match dates with
  | [] => 0
  | _ => current_loop today 0 (reverse dates) 0
  end.

(** The values of the statistics dictionary. *)
Inductive value :=
| VNone
| VInt (n : Z)
| VFloat (q : Q)
| VStr (s : string)
| VCounts (d : list (string * Z)).

Definition most_common (counts : list (string * Z)) : value :=
  match counts with
  | [] => VNone
  | kv :: items => VStr (Py.max_by_value kv items)
  end.

Definition count_moods (entries : list entry) : list (string * Z) :=
  foldl (λ mood_counts entry, foldl (λ d mood, Py.incr mood d) mood_counts (mood_tags entry))
    [] entries.

Definition count_weather (entries : list entry) : list (string * Z) :=
  foldl (λ weather_counts entry,
           match truthy (condition (weather entry)) with
           | Some c => Py.incr c weather_counts
           | None => weather_counts
           end)
    [] entries.

(** [set(e.get('date') for e in entries if e.get('date'))] *)
Definition date_set (entries : list entry) : gset Z :=
  list_to_set (omap date entries).

(** [sorted(set(..))] of the dates. *)
Definition sorted_dates (entries : list entry) : list Z :=
  merge_sort Z.le (elements (date_set entries)).

Section Statistics.

(** [round(a / b, 1)] for ints [a] and [b > 0]: float division and
    float rounding are left to the caller. *)
Variable round1_div : Z → Z → Q.

(** [datetime.now().date()] *)
Variable today : Z.

Definition get_statistics (entries : list entry) : list (string * value) :=
  match entries with
  | [] =>
      [ ("total_entries", VInt 0);
        ("total_words", VInt 0);
        ("avg_words_per_entry", VInt 0);
        ("most_common_mood", VNone);
        ("most_common_weather", VNone);
        ("longest_streak", VInt 0);
        ("current_streak", VInt 0) ]
  | _ =>
      let total_entries := Z.of_nat (length entries) in
      let total_words := foldr Z.add 0 (word_count <$> entries) in
      let mood_counts := count_moods entries in
      let weather_counts := count_weather entries in
      let dates := sorted_dates entries in
      [ ("total_entries", VInt total_entries);
        ("total_words", VInt total_words);
        ("avg_words_per_entry", VFloat (round1_div total_words total_entries));
        ("most_common_mood", most_common mood_counts);
        ("most_common_weather", most_common weather_counts);
        ("longest_streak", VInt (_calculate_longest_streak dates));
        ("current_streak", VInt (_calculate_current_streak today dates));
        ("mood_distribution", VCounts mood_counts);
        ("weather_distribution", VCounts weather_counts) ]
  end.

End Statistics.

End JournalManager.

(** ** visualizer.py: the weather and mood correlation *)

Module Visualizer.
Import JournalManager.

(** [entry.get('weather', {}).get('condition', 'unknown')] inside the
    f-string of the key: [None] is printed as ["None"]. *)
Definition weather_of (e : entry) : string :=
  match condition (weather e) with
  | Absent => "unknown"
  | Null => "None"
  | Str s => s
  end.

(** [f"{weather}_{mood}"] *)
Definition pair_key (weather mood : string) : string :=
  weather +:+ "_" +:+ mood.

Definition weather_mood_pairs (entries : list entry) : list (string * Z) :=
  foldl (λ pairs entry,
           foldl (λ d mood, Py.incr (pair_key (weather_of entry) mood) d)
             pairs (mood_tags entry))
    [] entries.

Definition weathers (entries : list entry) : list string :=
  merge_sort String.le
    (elements (list_to_set (omap (λ e, truthy (condition (weather e))) entries)
               : gset string)).

Definition moods (entries : list entry) : list string :=
  merge_sort String.le
    (elements (list_to_set (mjoin (mood_tags <$> entries)) : gset string)).

Definition matrix (entries : list entry) : list (list Z) :=
  let pairs := weather_mood_pairs entries in
  (λ weather, (λ mood, Py.get pairs (pair_key weather mood) 0) <$> moods entries)
    <$> weathers entries.

Definition is_lower (c : ascii) : bool :=
  let n := N_of_ascii c in ((97 <=? n) && (n <=? 122))%N.

Definition is_upper (c : ascii) : bool :=
  let n := N_of_ascii c in ((65 <=? n) && (n <=? 90))%N.

Definition upper_char (c : ascii) : ascii :=
  if is_lower c then ascii_of_N (N_of_ascii c - 32) else c.

(** [str.title()] on ASCII letters; [cased] tells whether the previous
    character is a letter. *)
Fixpoint title_go (cased : bool) (s : string) : string :=
  match s with
  | EmptyString => EmptyString
  | String c s' =>
      if is_lower c || is_upper c
      then String (if cased then Py.lower_char c else upper_char c) (title_go true s')
      else String c (title_go false s')
  end.

Definition title (s : string) : string := title_go false s.

(** The figure: the annotation shown for no entries, or the heat map with
    its [x] labels, [y] labels and [z] values. *)
Inductive figure :=
| NoEntries
| Heatmap (x y : list string) (z : list (list Z)).

Definition create_weather_mood_correlation (entries : list entry) : figure :=
  match entries with
  | [] => NoEntries
  | _ =>
      Heatmap (moods entries)
        ((λ w, title (Py.replace_char "_" " " w)) <$> weathers entries)
        (matrix entries)
  end.

(** The pie chart of the mood tags: the annotation shown when no mood was
    counted, or the pie with its labels, values and colours. *)
Inductive pie_figure :=
| NoMoods
| Pie (labels : list string) (values : list Z) (colors : list string).

Definition create_mood_distribution_chart (entries : list entry) : pie_figure :=
  let mood_counts :=
    foldl (λ mood_counts entry,
             foldl (λ d mood, Py.incr mood d) mood_counts (mood_tags entry))
      [] entries in
  match mood_counts with
  | [] => NoMoods
  | _ =>
      let moods := fst <$> mood_counts in
      let counts := snd <$> mood_counts in
      let colors := (λ m, Py.get Config.MOOD_COLORS m "#CCCCCC") <$> moods in
      Pie moods counts colors
  end.

(** [date_counts[entry_date] = date_counts.get(entry_date, 0) + 1] for the
    entries that have a date; the dictionary is only read by key. *)
Definition date_counts (entries : list entry) : gmap Z Z :=
  foldl (λ (date_counts : gmap Z Z) entry,
           match date entry with
           | Some entry_date =>
               <[ entry_date := default 0 (date_counts !! entry_date) + 1 ]> date_counts
           | None => date_counts
           end)
    ∅ entries.

(** The heat map of the writing activity: its [x] days, [y] label and [z]
    counts. *)
Inductive activity_figure :=
| Activity (x : list Z) (y : list string) (z : list (list Z)).

(** The ordinals of [date.min] and [date.max]. *)
Definition date_min : Z := 1.
Definition date_max : Z := 3652059.

(** [timedelta(days=n)]: the number of days, or [None] for the
    [OverflowError] raised beyond 999999999 days. *)
Definition timedelta (n : Z) : option Z :=
  if bool_decide (-999999999 ≤ n ≤ 999999999) then Some n else None.

(** [d + timedelta(days=n)] and [d - timedelta(days=n)] on a date: [None]
    for the [OverflowError] raised when the result is not a date. *)
Definition date_add (d n : Z) : option Z :=
  if bool_decide (date_min ≤ d + n ≤ date_max) then Some (d + n) else None.

Definition date_sub (d n : Z) : option Z := date_add d (- n).

(** [while current_date <= end_date: ...; current_date += timedelta(days=1)].
    The test holds for the days from [start_date] to [end_date] and fails
    after them: the loop runs on their number, [rounds].  Every round ends
    by adding a day, which raises after [date.max]. *)
Fixpoint activity_loop (rounds : nat) (date_counts : gmap Z Z) (current_date : Z)
  : option (list Z * list Z) :=
  match rounds with
  | O => Some ([], [])
  | S rounds' =>
      let count := default 0 (date_counts !! current_date) in
      one_day ← timedelta 1;
      next_date ← date_add current_date one_day;
      '(dates, counts) ← activity_loop rounds' date_counts next_date;
      Some (current_date :: dates, count :: counts)
  end.

(** [create_writing_activity_heatmap]; [today] is [datetime.now().date()].
    [None] is the [OverflowError] of the arithmetic on dates. *)
Definition create_writing_activity_heatmap (today : Z) (entries : list entry)
    (days : Z) : option activity_figure :=
  let end_date := today in
  delta ← timedelta (days - 1);
  start_date ← date_sub end_date delta;
  let date_counts := date_counts entries in
  '(dates, counts) ←
    activity_loop (Z.to_nat (end_date - start_date + 1)) date_counts start_date;
  Some (Activity dates ["Entries"] [counts]).

End Visualizer.

(** ** app.py: what the pages pass to the core *)

Module App.

(** The options of the select box for the weather condition. *)
Definition condition_options : list string :=
  [ "Sunny"; "Partly Cloudy"; "Cloudy"; "Rainy"; "Stormy"; "Snowy"; "Foggy"; "Windy" ].

(** [condition.lower().replace(' ', '_')], the text passed to
    [get_weather_manual]. *)
Definition condition_text (condition : string) : string :=
  Py.replace_char " " "_" (Py.lower condition).

(** [mood_tags = [primary_mood] + secondary_moods[:2]] *)
Definition mood_tags (weather_data : WeatherHandler.weather_data) : option (list string) :=
  '(primary_mood, secondary_moods) ← PromptGenerator.determine_moods weather_data;
  Some (primary_mood :: take 2 secondary_moods).

(** The save button: the mood tags are determined from the current
    weather and the entry is created with them. *)
Definition save_entry (now now_timestamp : string) (today : Z)
    (current_weather : WeatherHandler.weather_data) (selected_prompt : string)
    (journal_text : Py.codepoints) (entries : list JournalManager.entry)
  : option (JournalManager.entry * list JournalManager.entry) :=
  mood_tags ← mood_tags current_weather;
  Some (JournalManager.create_entry now now_timestamp today current_weather mood_tags
          selected_prompt journal_text entries).

End App.

(** * The vocabulary of the properties *)

(** ** Thresholds of the temperature categories *)

Module WeatherHandlerSpec.
Import Config WeatherHandler.

(** [TEMP_MODIFIERS[category]['threshold']] *)
Definition category_threshold (category : string) : option Z :=
  threshold <$> Py.lookup category TEMP_MODIFIERS.

(** [t] is below every configured threshold. *)
Definition below_every_threshold (t : Q) : Prop :=
  Forall (λ kv, (t < inject_Z (threshold kv.2))%Q) TEMP_MODIFIERS.

End WeatherHandlerSpec.

(** ** Characters of strings and of rendered templates *)

Module PySpec.

(** The characters of a string. *)
Fixpoint chars (s : string) : list ascii :=
  match s with
  | EmptyString => []
  | String c s' => c :: chars s'
  end.

(** What a piece may bring into the rendered text, for a property [P] of
    characters. *)
Definition piece_brings (P : ascii → Prop) (kwargs : list (string * string))
    (p : Py.piece) : Prop :=
  match p with
  | Py.Lit c => P c
  | Py.Field name => ∃ v, Py.lookup name kwargs = Some v ∧ Forall P (chars v)
  end.

(** The literals that open a list of pieces. *)
Fixpoint lits_prefix (ps : list Py.piece) : list ascii :=
  match ps with
  | Py.Lit c :: ps' => c :: lits_prefix ps'
  | _ => []
  end.

(** The literals that close a template, last character first. *)
Definition closing (ps : list Py.piece) : list ascii := lits_prefix (reverse ps).

(** Two lists differ at a position that both have. *)
Fixpoint diverge (a b : list ascii) : bool :=
  match a, b with
  | x :: a', y :: b' => negb (Ascii.eqb x y) || diverge a' b'
  | _, _ => false
  end.

End PySpec.

(** ** Well-formed mood assignments *)

Module DetermineMoodsSpec.
Import Config WeatherHandler PromptGenerator.

(** The sample with its condition replaced. *)
Definition with_condition (c : string) (wd : weather_data) : weather_data :=
  {| temperature := temperature wd;
     temperature_category := temperature_category wd;
     condition := Some c;
     condition_raw := condition_raw wd;
     precipitation := precipitation wd;
     timestamp := timestamp wd;
     source := source wd |}.

(** A primary mood and secondary moods that are well formed. *)
Definition well_formed (primary : string) (secondary : list string) : Prop :=
  NoDup secondary ∧ primary ∉ secondary.

End DetermineMoodsSpec.

(** ** Templates and the state of one call *)

Module GeneratePromptsSpec.
Import Config WeatherHandler PromptGenerator PySpec.

(** All the templates of the table. *)
Definition all_templates : list string := mjoin (snd <$> PROMPT_TEMPLATES).

(** A character that is neither an underscore nor a brace. *)
Definition plain (c : ascii) : bool :=
  negb (Ascii.eqb c "_") && negb (Ascii.eqb c Py.lbrace) && negb (Ascii.eqb c Py.rbrace).

(** The pieces of a template: plain literals and the two fields that
    [generate_prompts] fills. *)
Definition piece_ok (p : Py.piece) : bool :=
  match p with
  | Py.Lit c => plain c
  | Py.Field name => bool_decide (name ∈ ["weather_desc"; "weather_condition"])
  end.

Definition template_pieces (t : string) : list Py.piece :=
  default [] (Py.parse None t).

Definition template_ok (t : string) : bool :=
  match Py.parse None t with
  | Some ps => forallb piece_ok ps
  | None => false
  end.

(** No two templates of the table end alike. *)
Definition closings_diverge : bool :=
  forallb (λ t1,
    forallb (λ t2,
      String.eqb t1 t2 ||
      diverge (closing (template_pieces t1)) (closing (template_pieces t2)))
      all_templates)
    all_templates.

(** What a character of a rendered prompt may be, for the condition of the
    sample: never an underscore, and a brace only if the condition holds it. *)
Definition allowed (condition : string) (c : ascii) : Prop :=
  c ≠ "_"%char ∧ (c = Py.lbrace ∨ c = Py.rbrace → c ∈ chars condition).

(** The local state keeps, for the prompts made so far, the distinct
    templates of the table they were rendered from, all marked as used. *)
Definition inv (weather_desc condition : string) (st : state) : Prop :=
  ∃ ts,
    Forall2 (λ p t, fill weather_desc condition t = Some (text p)) st.1.1 ts ∧
    NoDup ts ∧
    Forall (λ t, t ∈ st.1.2 ∧ t ∈ all_templates) ts.

End GeneratePromptsSpec.

(** ** Tokens of a text *)

Module JournalStoreSpec.
Import JournalManager PySpec.

(** The number of white-space delimited tokens of a text: the number of
    characters that are not white space and stand first or after white
    space. [prev_space] tells whether the previous character allows a token
    to start. *)
Fixpoint token_starts (prev_space : bool) (s : Py.codepoints) : nat :=
  match s with
  | [] => 0
  | c :: s' =>
      (if prev_space && negb (Py.is_space c) then 1 else 0)
      + token_starts (Py.is_space c) s'
  end.

Definition token_count (s : Py.codepoints) : nat := token_starts true s.

(** The code points of a text written in ASCII. *)
Fixpoint of_ascii (s : string) : Py.codepoints :=
  match s with
  | EmptyString => []
  | String c s' => N_of_ascii c :: of_ascii s'
  end.

End JournalStoreSpec.

(** ** Counting keys *)

Module CountSpec.


(** The number of times a key occurs in a list of keys. *)
Definition occurrences (k : string) (keys : list string) : nat :=
  length (filter (λ x, x = k) keys).

(** Counting the keys of a list one by one. *)
Definition count_all (d : list (string * Z)) (keys : list string) : list (string * Z) :=
  foldl (λ d k, Py.incr k d) d keys.

End CountSpec.

(** ** Runs of consecutive days *)

Module StatisticsSpec.
Import JournalManager PySpec CountSpec.

(** The days [d], [d + 1], ..., [d + k - 1] all belong to [S]. *)
Definition run (S : Z → Prop) (d k : Z) : Prop :=
  ∀ j, 0 ≤ j < k → S (d + j).

(** [L] is the length of the longest run of consecutive days in [S]. *)
Definition longest_run (S : Z → Prop) (L : Z) : Prop :=
  (∃ d, run S d L) ∧ (∀ d k, run S d k → k ≤ L).

(** The state of the loop of [_calculate_longest_streak] after the dates
    [seen], the last of which is [prev]: the run that ends at [prev] has
    length [current_streak], and [max_streak] is the longest run so far. *)
Definition streak_inv (seen : list Z) (prev max_streak current_streak : Z) : Prop :=
  1 ≤ current_streak ≤ max_streak ∧
  run (λ d, d ∈ seen) (prev - current_streak + 1) current_streak ∧
  (prev - current_streak ∉ seen) ∧
  longest_run (λ d, d ∈ seen) max_streak.

(** An entry of no text dated [d]. *)
Definition entry_on (d : Z) : entry :=
  {| id := ""; timestamp := ""; date := Some d;
     weather := {| temperature := None; condition := Absent;
                   condition_raw := Absent; precipitation := false |};
     mood_tags := []; prompt := ""; text := []; word_count := 0;
     updated_at := None |}.

End StatisticsSpec.

(** ** The correlation grid *)

Module CorrelationSpec.
Import JournalManager Visualizer PySpec CountSpec.

(** The eight conditions that the classifier knows. *)
Definition CONDITIONS : list string := fst <$> Config.WEATHER_KEYWORDS.

(** What [weather_of] gives for an entry without a condition to show. *)
Definition PLACEHOLDERS : list string := ["unknown"; "None"; ""].

(** The condition under which an entry is counted in the statistics and
    shown as a row. *)
Definition observed (e : entry) : option string := truthy (condition (weather e)).

(** The conditions of the entries are among the eight. *)
Definition known_conditions (entries : list entry) : Prop :=
  Forall (λ e, ∀ c, observed e = Some c → c ∈ CONDITIONS) entries.

(** No entry repeats a mood tag. *)
Definition distinct_tags (entries : list entry) : Prop :=
  Forall (λ e, NoDup (mood_tags e)) entries.

(** The number of entries that have condition [w] and carry mood [m]. *)
Definition co_occurrences (entries : list entry) (w m : string) : nat :=
  length (filter (λ e, observed e = Some w ∧ m ∈ mood_tags e) entries).

(** The condition of an entry is a row of the grid. *)
Definition in_rows (entries : list entry) (e : entry) : bool :=
  match observed e with
  | Some w => bool_decide (w ∈ weathers entries)
  | None => false
  end.

(** The pairs of an entry and one of its mood tags, for the entries whose
    condition is a row of the grid. *)
Definition pairs_in_rows (entries : list entry) : list (entry * string) :=
  e ← filter (λ e, in_rows entries e) entries;
  (λ m, (e, m)) <$> mood_tags e.

Definition sumZ (l : list Z) : Z := foldr Z.add 0 l.

(** The keys that the loop over the entries counts. *)
Definition counted_keys (entries : list entry) : list string :=
  e ← entries; pair_key (weather_of e) <$> mood_tags e.

(** The keys that the grid reads, row after row. *)
Definition grid_keys (rows cols : list string) : list string :=
  w ← rows; pair_key w <$> cols.

(** An entry of no text with a condition and mood tags. *)
Definition entry_with (c : string) (tags : list string) : entry :=
  {| id := ""; timestamp := ""; date := None;
     weather := {| temperature := None; condition := Str c;
                   condition_raw := Absent; precipitation := false |};
     mood_tags := tags; prompt := ""; text := []; word_count := 0;
     updated_at := None |}.

End CorrelationSpec.

(** ** Keywords of a description *)

Module ClassifierSpec.
Import Config WeatherHandler.

(** The description mentions the keyword, in any letter case. *)
Definition mentions (description keyword : string) : bool :=
  Py.contains keyword (Py.lower description).

(** The description mentions no keyword of a row of the keyword table. *)
Definition silent (description : string) (row : string * list string) : Prop :=
  Forall (λ keyword, mentions description keyword = false) row.2.

End ClassifierSpec.

(** ** The prompts of one call *)

Module PromptTraceSpec.
Import Config WeatherHandler PromptGenerator.

(** The description that [generate_prompts] fills into the templates. *)
Definition weather_desc_of (wd : weather_data) : string :=
  match Py.lookup "partly_cloudy" WEATHER_MOOD_MAP with
  | Some fallback =>
      description
        (Py.get WEATHER_MOOD_MAP (default "partly_cloudy" (condition wd)) fallback)
  | None => ""
  end.

(** A prompt is a template of its own mood, filled in, and is flagged as
    primary exactly when its mood is the primary mood. *)
Definition rendered (weather_desc condition primary_mood : string) (p : prompt) : Prop :=
  is_primary p = bool_decide (mood p = primary_mood) ∧
  ∃ mood_templates template,
    Py.lookup (mood p) PROMPT_TEMPLATES = Some mood_templates ∧
    template ∈ mood_templates ∧
    fill weather_desc condition template = Some (text p).

(** The mood has templates. *)
Definition has_templates (mood : string) : bool :=
  match Py.lookup mood PROMPT_TEMPLATES with
  | Some _ => true
  | None => false
  end.

(** The condition that the generator reads from a sample. *)
Definition condition_of (wd : weather_data) : string :=
  default "partly_cloudy" (condition wd).

End PromptTraceSpec.

(** ** The most frequent key *)

Module MostCommonSpec.
Import CountSpec.

(** [k] is the most frequent key of a list, the first encountered among
    the keys that are as frequent: no key occurs more often, and every key
    met before the first [k] occurs less often. *)
Definition first_most_frequent (keys : list string) (k : string) : Prop :=
  ∃ before after,
    keys = before ++ k :: after ∧
    (∀ k', occurrences k' keys ≤ occurrences k keys)%nat ∧
    (∀ k', k' ∈ before → occurrences k' keys < occurrences k keys)%nat.

(** The keys of a dictionary after counting one more key. *)
Definition see (seen : list string) (k : string) : list string :=
  if decide (k ∈ seen) then seen else seen ++ [k].

End MostCommonSpec.

(** ** Days of entries *)

Module ChartSpec.
Import JournalManager.

(** The entry is dated [d]. *)
Definition on_day (d : Z) (e : entry) : bool :=
  bool_decide (date e = Some d).

(** The heat map of [days] days up to [today] leaves the range of dates:
    its first day is not a date, or it has a day and [today] is the last
    date, after which the loop cannot step. *)
Definition leaves_dates (today days : Z) : Prop :=
  ¬ (Visualizer.date_min ≤ today - days + 1 ≤ Visualizer.date_max)
  ∨ (0 < days ∧ today = Visualizer.date_max).

End ChartSpec.

(** * Properties of the weather classifier *)

Module WeatherHandlerProps.
Import Config WeatherHandler WeatherHandlerSpec.

Lemma sorted_modifiers :
  fst <$> sorted_by_threshold_desc TEMP_MODIFIERS =
  ["very_hot"; "hot"; "warm"; "mild"; "cool"; "cold"; "very_cold"].
Proof. reflexivity. Qed.

Lemma Qle_bool_false (x y : Q) : Qle_bool x y = false → (y < x)%Q.
Proof.
  intros H. apply Qnot_le_lt. intros Hle.
  apply Qle_bool_iff in Hle. congruence.
Qed.

Ltac split_comparisons t :=
  repeat match goal with
  | |- context [Qle_bool ?a t] =>
      let H := fresh "H" in
      destruct (Qle_bool a t) eqn:H;
      [ apply Qle_bool_iff in H | apply Qle_bool_false in H ];
      unfold inject_Z in H; simpl in H
  end.

(** The bands of [classify_temperature]: a category holds from its
    threshold up to the next one, and ['very_cold'] also below zero. *)
Lemma classify_temperature_bands (t : Q) :
  (35 <= t ∧ classify_temperature t = "very_hot")%Q ∨
  (30 <= t < 35 ∧ classify_temperature t = "hot")%Q ∨
  (25 <= t < 30 ∧ classify_temperature t = "warm")%Q ∨
  (20 <= t < 25 ∧ classify_temperature t = "mild")%Q ∨
  (15 <= t < 20 ∧ classify_temperature t = "cool")%Q ∨
  (10 <= t < 15 ∧ classify_temperature t = "cold")%Q ∨
  (t < 10 ∧ classify_temperature t = "very_cold")%Q.
Proof.
  unfold classify_temperature.
  let items := eval vm_compute in (sorted_by_threshold_desc TEMP_MODIFIERS) in
  change (sorted_by_threshold_desc TEMP_MODIFIERS) with items.
  cbn [first_reached threshold snd default].
  split_comparisons t; cbn [default];
    repeat first [ left; (split; [ lra | reflexivity ]) | right ];
    (split; [ lra | reflexivity ]).
Qed.

(** C1, as the code has it: a manual sample of 5 degrees, "overcast", with
    precipitation is classified 'cloudy', then adjusted to 'rainy', and its
    temperature category is 'very_cold' (5 is below the threshold 10 of
    'cold'); for every manual sample the adjustment changes the classified
    condition exactly when precipitation is true and the classified
    condition is 'cloudy'. *)
Theorem manual_sample_overcast (now : string) :
  classify_weather_condition "overcast" = "cloudy" ∧
  condition (get_weather_manual now 5 "overcast" true) = Some "rainy" ∧
  temperature_category (get_weather_manual now 5 "overcast" true) = Some "very_cold" ∧
  ∀ (t : Q) (c : string) (p : bool),
    condition (get_weather_manual now t c p) ≠ Some (classify_weather_condition c)
    ↔ p = true ∧ classify_weather_condition c = "cloudy".
Proof.
  split; [ reflexivity | ].
  split; [ reflexivity | ].
  split; [ reflexivity | ].
  intros t c p. cbn [get_weather_manual condition]. unfold adjust_condition.
  destruct p; cbn [andb].
  - case_bool_decide as Hc.
    + rewrite Hc. split; [ auto | intros _ [=] ].
    + split; [ intros []; reflexivity | intros [_ ?]; contradiction ].
  - split; [ intros []; reflexivity | intros [[=] _] ].
Qed.

(** C1, as stated, fails: the temperature category of that sample is not
    'cold'. *)
Lemma manual_sample_overcast_not_cold :
  ¬ (classify_weather_condition "overcast" = "cloudy" ∧
     condition (get_weather_manual "2024-01-01T00:00:00" 5 "overcast" true)
       = Some "rainy" ∧
     temperature_category (get_weather_manual "2024-01-01T00:00:00" 5 "overcast" true)
       = Some "cold").
Proof. intros (_ & _ & H). vm_compute in H. discriminate H. Qed.

(** C2: [classify_temperature] is monotonic in the thresholds of the
    categories it returns, and below every configured threshold it returns
    'very_cold'. *)
Theorem classify_temperature_monotone :
  (∀ t1 t2 : Q, (t1 <= t2)%Q →
     ∃ th1 th2,
       category_threshold (classify_temperature t1) = Some th1 ∧
       category_threshold (classify_temperature t2) = Some th2 ∧
       th1 ≤ th2) ∧
  (∀ t : Q, below_every_threshold t → classify_temperature t = "very_cold").
Proof.
  split.
  - intros t1 t2 Hle.
    destruct (classify_temperature_bands t1)
      as [[H1 ->]|[[H1 ->]|[[H1 ->]|[[H1 ->]|[[H1 ->]|[[H1 ->]|[H1 ->]]]]]]];
    destruct (classify_temperature_bands t2)
      as [[H2 ->]|[[H2 ->]|[[H2 ->]|[[H2 ->]|[[H2 ->]|[[H2 ->]|[H2 ->]]]]]]];
    first
      [ exfalso; lra
      | eexists _, _; split; [ reflexivity | ]; split; [ reflexivity | ];
        vm_compute; discriminate ].
  - intros t Hbelow.
    assert (t < 10)%Q as Ht.
    { unfold below_every_threshold in Hbelow. rewrite Forall_forall in Hbelow.
      specialize (Hbelow ("cold", {| threshold := 10; moods := ["crisp"; "alert"] |})).
      apply Hbelow. right. left. }
    destruct (classify_temperature_bands t)
      as [[H _]|[[H _]|[[H _]|[[H _]|[[H _]|[[H _]|[_ ->]]]]]]];
      first [ reflexivity | exfalso; lra ].
Qed.

(** C2 at 5 and 12 degrees, and at -1 degree. *)
Lemma classify_temperature_monotone_witness :
  (∃ th1 th2,
     category_threshold (classify_temperature 5) = Some th1 ∧
     category_threshold (classify_temperature 12) = Some th2 ∧
     th1 ≤ th2) ∧
  classify_temperature (-1) = "very_cold".
Proof.
  destruct classify_temperature_monotone as [Hmono Hbelow].
  split.
  - apply Hmono. unfold Qle. simpl. lia.
  - apply Hbelow. unfold below_every_threshold.
    repeat constructor.
Defined.


End WeatherHandlerProps.

(** * Properties of the Python primitives *)

Module PyProps.
Import PySpec.


Lemma lookup_elem_of {V : Type} (k : string) (d : list (string * V)) (v : V) :
  Py.lookup k d = Some v → (k, v) ∈ d.
Proof.
  induction d as [|[k' v'] d IH]; cbn [Py.lookup]; [ discriminate | ].
  destruct (String.eqb k' k) eqn:Hk.
  - apply String.eqb_eq in Hk as ->. intros [= ->]. left.
  - intros H. right. auto.
Qed.

Lemma get_cases {V : Type} (d : list (string * V)) (k : string) (dflt : V) :
  (Py.lookup k d = None ∧ Py.get d k dflt = dflt) ∨ (k, Py.get d k dflt) ∈ d.
Proof.
  unfold Py.get. destruct (Py.lookup k d) as [v|] eqn:Hl; cbn [default].
  - right. by apply lookup_elem_of.
  - left. done.
Qed.

Lemma chars_app (s1 s2 : string) : chars (s1 +:+ s2) = chars s1 ++ chars s2.
Proof.
  induction s1 as [|c s1 IH]; [ done | ].
  change (chars (String c s1 +:+ s2)) with (c :: chars (s1 +:+ s2)).
  by rewrite IH.
Qed.

Lemma chars_inj (s1 s2 : string) : chars s1 = chars s2 → s1 = s2.
Proof.
  revert s2. induction s1 as [|c s1 IH]; intros [|c2 s2]; cbn; try done.
  intros [= -> H]. f_equal. by apply IH.
Qed.

Lemma prefix_chars (s1 s2 : string) :
  String.prefix s1 s2 = true → ∃ rest, chars s2 = chars s1 ++ rest.
Proof.
  revert s2. induction s1 as [|a s1 IH]; intros [|b s2]; cbn.
  - intros _. by exists [].
  - intros _. by eexists.
  - discriminate.
  - destruct (ascii_dec a b) as [->|]; [ | discriminate ].
    intros [rest Hrest]%IH. exists rest. by rewrite Hrest.
Qed.

(** A substring brings all its characters. *)
Lemma contains_chars (needle hay : string) (c : ascii) :
  Py.contains needle hay = true → c ∈ chars needle → c ∈ chars hay.
Proof.
  induction hay as [|h hay IH]; cbn [Py.contains].
  - rewrite orb_false_r. intros [rest Hrest]%prefix_chars Hc.
    rewrite Hrest. apply elem_of_app. by left.
  - intros [Hp|Hrec]%orb_true_iff Hc.
    + apply prefix_chars in Hp as [rest Hrest]. rewrite Hrest.
      apply elem_of_app. by left.
    + cbn. right. by apply IH.
Qed.

Lemma replace_char_chars (old new : ascii) (s : string) :
  chars (Py.replace_char old new s) =
  (λ c, if Ascii.eqb c old then new else c) <$> chars s.
Proof. induction s as [|c s IH]; [ done | ]. cbn. by rewrite IH. Qed.

(** ** [str.format] *)

Lemma render_app (kwargs : list (string * string)) (ps1 ps2 : list Py.piece) :
  Py.render kwargs (ps1 ++ ps2) =
  r1 ← Py.render kwargs ps1; r2 ← Py.render kwargs ps2; Some (r1 +:+ r2).
Proof.
  induction ps1 as [|[c|name] ps1 IH]; cbn [app Py.render].
  - cbn. by destruct (Py.render kwargs ps2).
  - rewrite IH. destruct (Py.render kwargs ps1); [ | done ]. cbn.
    by destruct (Py.render kwargs ps2).
  - destruct (Py.lookup name kwargs) as [v|]; [ | done ]. cbn.
    rewrite IH. destruct (Py.render kwargs ps1) as [r1|]; [ | done ]. cbn.
    destruct (Py.render kwargs ps2) as [r2|]; [ | done ]. cbn.
    f_equal. apply chars_inj. rewrite !chars_app. by rewrite app_assoc.
Qed.

(** Rendering succeeds when every field is a keyword argument, and every
    character of the text is a literal of the template or a character of
    an argument. *)
Lemma render_Forall (P : ascii → Prop) (kwargs : list (string * string))
    (ps : list Py.piece) :
  Forall (piece_brings P kwargs) ps →
  ∃ r, Py.render kwargs ps = Some r ∧ Forall P (chars r).
Proof.
  induction 1 as [|[c|name] ps Hp _ (r & Hr & HP)]; cbn [Py.render].
  - by exists EmptyString.
  - rewrite Hr. exists (String c r). split; [ done | ]. by constructor.
  - destruct Hp as (v & -> & Hv). rewrite Hr. cbn.
    exists (v +:+ r). split; [ done | ]. rewrite chars_app. by apply Forall_app.
Qed.

(** The rendered text ends with the closing literals of the template,
    whatever the arguments. *)
Lemma render_closing (kwargs : list (string * string)) (ps : list Py.piece) (r : string) :
  Py.render kwargs ps = Some r → ∃ x, reverse (chars r) = closing ps ++ x.
Proof.
  unfold closing. revert r.
  induction ps as [|p ps IH] using rev_ind; intros r.
  - intros _. by exists (reverse (chars r)).
  - rewrite render_app, reverse_snoc.
    destruct (Py.render kwargs ps) as [r1|]; [ | done ]. cbn [mbind option_bind].
    destruct p as [c|name]; cbn [Py.render lits_prefix].
    + cbn. intros [= <-]. destruct (IH r1 eq_refl) as [x Hx].
      exists x. rewrite chars_app, reverse_app. cbn. by rewrite Hx.
    + intros _. by eexists.
Qed.

Lemma diverge_app (a b x y : list ascii) : diverge a b = true → a ++ x ≠ b ++ y.
Proof.
  revert b. induction a as [|c a IH]; intros [|d b]; cbn; try done.
  intros [Hne|Hrec]%orb_true_iff [= -> Heq].
  - by rewrite Ascii.eqb_refl in Hne.
  - by apply (IH b).
Qed.

(** ** [random] *)

Lemma swap_head_Permutation {A : Type} (h b : A) (t : list A) (j : nat) :
  t !! j = Some b → b :: <[j := h]> t ≡ₚ h :: t.
Proof.
  revert j. induction t as [|c t IH]; intros [|j]; cbn; try done.
  - intros [= ->]. apply perm_swap.
  - intros Hj. rewrite (perm_swap c b), (IH j Hj). apply perm_swap.
Qed.

Lemma swap_Permutation {A : Type} (i j : nat) (x : list A) : Py.swap i j x ≡ₚ x.
Proof.
  unfold Py.swap.
  destruct (x !! i) as [a|] eqn:Hi; [ | done ].
  destruct (x !! j) as [b|] eqn:Hj; [ | done ].
  revert i j Hi Hj. induction x as [|h t IH]; intros [|i] [|j]; cbn; try done.
  - by intros [= ->] [= ->].
  - intros [= ->] Hj. by apply swap_head_Permutation.
  - intros Hi [= ->]. by apply swap_head_Permutation.
  - intros Hi Hj. constructor. by apply IH.
Qed.

Lemma shuffle_Permutation {A : Type} (x : list A) (g : Py.rng) :
  (Py.shuffle x g).1 ≡ₚ x.
Proof.
  unfold Py.shuffle. generalize (length x - 1)%nat as i.
  intros i. revert x g. induction i as [|i IH]; intros x g; cbn; [ done | ].
  rewrite IH. apply swap_Permutation.
Qed.

Lemma choice_elem_of {A : Type} (dflt : A) (seq : list A) (g : Py.rng) :
  seq ≠ [] → (Py.choice dflt seq g).1 ∈ seq.
Proof.
  intros Hne. unfold Py.choice, Py.randbelow. cbn.
  apply list_elem_of_In, nth_In.
  apply Nat.mod_upper_bound. by destruct seq.
Qed.


End PyProps.

(** * Properties of the mood resolver *)

Module DetermineMoodsProps.
Import Config WeatherHandler PromptGenerator DetermineMoodsSpec.

(** Every row of the weather table is well formed. *)
Lemma mood_map_well_formed :
  Forall (λ kv, well_formed (primary_mood kv.2) (secondary_moods kv.2))
    WEATHER_MOOD_MAP.
Proof.
  unfold well_formed. apply (bool_decide_unpack _). vm_compute. exact I.
Qed.

Lemma merge_mood_well_formed (primary mood : string) (secondary : list string) :
  well_formed primary secondary →
  well_formed primary (merge_mood primary secondary mood).
Proof.
  intros [Hnd Hp]. unfold merge_mood.
  case_bool_decide as Hin; cbn [andb]; [ | by split ].
  case_bool_decide as Hne; [ | by split ].
  split.
  - apply NoDup_app. split; [ done | ]. split.
    + intros x Hx ->%list_elem_of_singleton. contradiction.
    + apply NoDup_singleton.
  - rewrite elem_of_app, list_elem_of_singleton. intros [?|?]; [ done | ].
    by apply Hne.
Qed.

Lemma merge_all_well_formed (primary : string) (temp_moods secondary : list string) :
  well_formed primary secondary →
  well_formed primary (foldl (merge_mood primary) secondary temp_moods).
Proof.
  revert secondary.
  induction temp_moods as [|mood temp_moods IH]; intros secondary Hwf; cbn [foldl].
  - exact Hwf.
  - apply IH. by apply merge_mood_well_formed.
Qed.

(** The row read for a condition is a row of the table. *)
Lemma mood_info_in_table (c : string) (fallback : mood_info) :
  Py.lookup "partly_cloudy" WEATHER_MOOD_MAP = Some fallback →
  ∃ k, (k, Py.get WEATHER_MOOD_MAP c fallback) ∈ WEATHER_MOOD_MAP.
Proof.
  intros Hf. destruct (PyProps.get_cases WEATHER_MOOD_MAP c fallback) as [[_ ->]|Hin].
  - exists "partly_cloudy". by apply PyProps.lookup_elem_of.
  - by exists c.
Qed.

(** [determine_moods] returns for every sample. *)
Lemma determine_moods_returns (wd : weather_data) :
  ∃ primary secondary, determine_moods wd = Some (primary, secondary).
Proof. unfold determine_moods. cbn [Py.lookup WEATHER_MOOD_MAP]. by eexists _, _. Qed.

(** C3: for every weather sample [determine_moods] returns, its secondary
    moods hold no duplicate and do not hold the primary mood, and a
    condition that is not in the table is read as 'partly_cloudy'. *)
Theorem determine_moods_well_formed (wd : weather_data) :
  ∃ primary secondary,
    determine_moods wd = Some (primary, secondary) ∧
    NoDup secondary ∧
    (primary ∉ secondary) ∧
    (Py.lookup (default "partly_cloudy" (condition wd)) WEATHER_MOOD_MAP = None →
     determine_moods wd = determine_moods (with_condition "partly_cloudy" wd)).
Proof.
  unfold determine_moods.
  destruct (Py.lookup "partly_cloudy" WEATHER_MOOD_MAP) as [fallback|] eqn:Hf;
    [ | discriminate Hf ].
  cbn [mbind option_bind].
  eexists _, _. split; [ reflexivity | ].
  destruct (mood_info_in_table (default "partly_cloudy" (condition wd)) fallback Hf)
    as [k Hin].
  pose proof mood_map_well_formed as Hall. rewrite Forall_forall in Hall.
  destruct (merge_all_well_formed _
              (match Py.lookup (default "mild" (temperature_category wd)) TEMP_MODIFIERS with
               | Some temp_info => moods temp_info
               | None => []
               end) _ (Hall _ Hin)) as [Hnd Hp].
  split; [ exact Hnd | ]. split; [ exact Hp | ].
  intros Hnone. cbn [with_condition condition temperature_category].
  change (default "partly_cloudy" (Some "partly_cloudy")) with "partly_cloudy".
  unfold Py.get. rewrite Hnone, Hf. reflexivity.
Qed.


End DetermineMoodsProps.

(** * Properties of the prompt synthesizer *)

Module GeneratePromptsProps.
Import Config WeatherHandler PromptGenerator PySpec PyProps GeneratePromptsSpec.

Lemma templates_ok : forallb template_ok all_templates = true.
Proof. vm_compute. reflexivity. Qed.

Lemma closings_diverge_ok : closings_diverge = true.
Proof. vm_compute. reflexivity. Qed.

Lemma descriptions_plain :
  Forall (λ kv, forallb plain (chars (description kv.2)) = true) WEATHER_MOOD_MAP.
Proof. repeat constructor. Qed.

Lemma plain_allowed (condition : string) (c : ascii) :
  plain c = true → allowed condition c.
Proof.
  unfold plain, allowed. rewrite !andb_true_iff, !negb_true_iff, !Ascii.eqb_neq.
  intros [[? ?] ?]. split; [ done | ]. by intros [?|?].
Qed.

Lemma replaced_allowed (condition : string) :
  Forall (allowed condition) (chars (Py.replace_char "_" " " condition)).
Proof.
  rewrite replace_char_chars. apply Forall_fmap, Forall_forall.
  intros c Hc. unfold allowed. cbn.
  destruct (Ascii.eqb c "_") eqn:Hu.
  - split; [ done | ]. by intros [?|?].
  - apply Ascii.eqb_neq in Hu. split; [ done | ]. by intros _.
Qed.

(** Filling a template of the table succeeds, and the text holds allowed
    characters only. *)
Lemma fill_ok (weather_desc condition t : string) :
  t ∈ all_templates →
  forallb plain (chars weather_desc) = true →
  ∃ r, fill weather_desc condition t = Some r ∧ Forall (allowed condition) (chars r).
Proof.
  intros Ht Hdesc.
  pose proof templates_ok as Hok. rewrite forallb_forall in Hok.
  specialize (Hok t (proj1 (list_elem_of_In _ _) Ht)).
  unfold template_ok in Hok. unfold fill, Py.format.
  destruct (Py.parse None t) as [ps|]; [ | discriminate Hok ].
  cbn [mbind option_bind]. apply render_Forall.
  rewrite forallb_forall in Hok. apply Forall_forall. intros p Hp.
  specialize (Hok p (proj1 (list_elem_of_In _ _) Hp)).
  destruct p as [c|name]; cbn [piece_brings piece_ok] in *.
  - by apply plain_allowed.
  - apply bool_decide_eq_true in Hok.
    apply elem_of_cons in Hok as [->|Hok].
    + eexists. split; [ reflexivity | ].
      rewrite forallb_forall in Hdesc. apply Forall_forall. intros c Hc.
      apply plain_allowed, Hdesc. by apply list_elem_of_In.
    + apply list_elem_of_singleton in Hok as ->.
      eexists. split; [ reflexivity | ]. apply replaced_allowed.
Qed.

(** Two templates of the table never render to the same text. *)
Lemma fill_inj (weather_desc condition t1 t2 r : string) :
  t1 ∈ all_templates → t2 ∈ all_templates →
  fill weather_desc condition t1 = Some r →
  fill weather_desc condition t2 = Some r →
  t1 = t2.
Proof.
  intros H1 H2 Hf1 Hf2.
  pose proof closings_diverge_ok as Hd. unfold closings_diverge in Hd.
  rewrite forallb_forall in Hd.
  specialize (Hd t1 (proj1 (list_elem_of_In _ _) H1)).
  rewrite forallb_forall in Hd.
  specialize (Hd t2 (proj1 (list_elem_of_In _ _) H2)).
  apply orb_true_iff in Hd as [Heq|Hdiv]; [ by apply String.eqb_eq | ].
  exfalso. unfold fill, Py.format, template_pieces in *.
  destruct (Py.parse None t1) as [ps1|]; [ | discriminate Hf1 ].
  destruct (Py.parse None t2) as [ps2|]; [ | discriminate Hf2 ].
  cbn [mbind option_bind default] in *.
  apply render_closing in Hf1 as [x1 Hx1]. apply render_closing in Hf2 as [x2 Hx2].
  cbv [id] in Hdiv. apply (diverge_app _ _ x1 x2 Hdiv). congruence.
Qed.

(** An allowed text holds neither placeholder. *)
Lemma allowed_no_placeholder (condition r needle : string) :
  Forall (allowed condition) (chars r) →
  "_"%char ∈ chars needle →
  Py.contains needle r = false.
Proof.
  intros Hall Hu. destruct (Py.contains needle r) eqn:Hc; [ | done ].
  exfalso. rewrite Forall_forall in Hall.
  by destruct (Hall _ (contains_chars _ _ _ Hc Hu)).
Qed.

Lemma lookup_templates (mood : string) (mood_templates : list string) (t : string) :
  Py.lookup mood PROMPT_TEMPLATES = Some mood_templates →
  t ∈ mood_templates → t ∈ all_templates.
Proof.
  intros Hl%lookup_elem_of Ht. unfold all_templates.
  apply list_elem_of_join. exists mood_templates. split; [ done | ].
  apply list_elem_of_fmap. by exists (mood, mood_templates).
Qed.

Section Loops.

Variables weather_desc condition : string.
Hypothesis desc_plain : forallb plain (chars weather_desc) = true.

(** Drawing from templates of the table that are not used yet keeps the
    invariant and adds one prompt. *)
Lemma draw_inv (mood : string) (primary : bool) (t0 : string)
    (available : list string) (st : state) :
  inv weather_desc condition st →
  (∀ t, t ∈ available → t ∈ all_templates ∧ t ∉ st.1.2) →
  available ≠ [] →
  ∃ st', draw weather_desc condition mood primary t0 available st = Some st' ∧
         inv weather_desc condition st' ∧
         length st'.1.1 = S (length st.1.1).
Proof.
  destruct st as [[prompts used] g]. intros (ts & Hts & Hnd & Hused) Hav Hne.
  unfold draw. pose proof (choice_elem_of t0 available g Hne) as Hin.
  destruct (Py.choice t0 available g) as [template g']. cbn [fst snd] in *.
  destruct (Hav _ Hin) as [Hall Hfresh].
  destruct (fill_ok weather_desc condition template Hall desc_plain) as (r & Hr & _).
  rewrite Hr. cbn [mbind option_bind]. eexists. split; [ reflexivity | ].
  cbn [fst snd]. split.
  - exists (ts ++ [template]). split; [ | split ].
    + apply Forall2_app; [ done | ]. by repeat constructor.
    + apply NoDup_app. split; [ done | ]. split; [ | apply NoDup_singleton ].
      intros t Ht ->%list_elem_of_singleton.
      rewrite Forall_forall in Hused. by destruct (Hused _ Ht).
    + apply Forall_app. split.
      * eapply Forall_impl; [ exact Hused | ]. intros t [Hu Ha].
        split; [ | done ]. apply elem_of_union. by right.
      * apply Forall_singleton. split; [ | done ].
        apply elem_of_union. left. by apply elem_of_singleton.
  - rewrite length_app. cbn. lia.
Qed.

Lemma available_fresh (used : gset string) (mood : string)
    (mood_templates : list string) :
  Py.lookup mood PROMPT_TEMPLATES = Some mood_templates →
  ∀ t, t ∈ available_templates used mood_templates → t ∈ all_templates ∧ t ∉ used.
Proof.
  intros Hl t [Hfresh Ht]%list_elem_of_filter. split; [ | done ].
  by eapply lookup_templates.
Qed.

Lemma mood_loop_inv (n : nat) (primary_mood : string) (all_moods : list string)
    (st : state) :
  inv weather_desc condition st →
  ∃ st', mood_loop (Z.of_nat n) weather_desc condition primary_mood all_moods st
           = Some st' ∧
         inv weather_desc condition st' ∧
         (length st'.1.1 ≤ length st.1.1 `max` n)%nat.
Proof.
  revert st. induction all_moods as [|mood all_moods IH]; intros st Hinv;
    cbn [mood_loop].
  - exists st. split; [ done | ]. split; [ done | lia ].
  - destruct (Z.of_nat (length st.1.1) >=? Z.of_nat n) eqn:Hfull.
    { exists st. split; [ done | ]. split; [ done | lia ]. }
    destruct (Py.lookup mood PROMPT_TEMPLATES) as [mood_templates|] eqn:Hl;
      [ | by apply IH ].
    destruct (available_templates st.1.2 mood_templates) as [|t0 rest] eqn:Hav;
      [ by apply IH | ].
    destruct (draw_inv mood (bool_decide (mood = primary_mood)) t0 (t0 :: rest) st Hinv)
      as (st1 & -> & Hinv1 & Hlen1); [ | done | ].
    { rewrite <- Hav. by eapply available_fresh. }
    cbn [mbind option_bind].
    destruct (IH st1 Hinv1) as (st' & Hst' & Hinv' & Hlen').
    exists st'. split; [ done | ]. split; [ done | ]. lia.
Qed.

Lemma top_up_inv (missing : nat) (primary_mood : string) (st : state) :
  inv weather_desc condition st →
  ∃ st', top_up missing weather_desc condition primary_mood st = Some st' ∧
         inv weather_desc condition st' ∧
         (length st'.1.1 ≤ length st.1.1 + missing)%nat.
Proof.
  revert st. induction missing as [|missing IH]; intros st Hinv; cbn [top_up].
  - exists st. split; [ done | ]. split; [ done | lia ].
  - destruct (Py.lookup primary_mood PROMPT_TEMPLATES) as [primary_templates|] eqn:Hl.
    2: { exists st. split; [ done | ]. split; [ done | lia ]. }
    destruct (available_templates st.1.2 primary_templates) as [|t0 rest] eqn:Hav.
    { exists st. split; [ done | ]. split; [ done | lia ]. }
    destruct (draw_inv primary_mood true t0 (t0 :: rest) st Hinv)
      as (st1 & -> & Hinv1 & Hlen1); [ | done | ].
    { rewrite <- Hav. by eapply available_fresh. }
    cbn [mbind option_bind].
    destruct (IH st1 Hinv1) as (st' & Hst' & Hinv' & Hlen').
    exists st'. split; [ done | ]. split; [ done | ]. lia.
Qed.

(** What the invariant gives for the prompts of a state. *)
Lemma inv_prompts (st : state) :
  inv weather_desc condition st →
  NoDup (text <$> st.1.1) ∧
  Forall (λ p, Forall (allowed condition) (chars (text p))) st.1.1.
Proof.
  intros (ts & Hts & Hnd & Hused). split.
  - revert Hnd Hused.
    induction Hts as [|p t prompts ts Hp Hts IH]; intros Hnd Hused; cbn [fmap list_fmap].
    { constructor. }
    apply NoDup_cons in Hnd as [Ht Hnd]. apply Forall_cons in Hused as [[_ Hall] Hused].
    apply NoDup_cons. split; [ | by apply IH ].
    intros (p' & Heq & Hp')%list_elem_of_fmap.
    apply list_elem_of_lookup in Hp' as [i Hi].
    destruct (Forall2_lookup_l _ _ _ _ _ Hts Hi) as (t' & Ht' & Hfill).
    apply list_elem_of_lookup_2 in Ht'.
    rewrite Forall_forall in Hused. destruct (Hused _ Ht') as [_ Hall'].
    rewrite <- Heq in Hfill.
    by rewrite (fill_inj _ _ _ _ _ Hall Hall' Hp Hfill) in Ht.
  - revert Hused. clear Hnd.
    induction Hts as [|p t prompts ts Hp Hts IH]; intros Hused; constructor.
    + apply Forall_cons in Hused as [[_ Hall] _].
      destruct (fill_ok weather_desc condition t Hall desc_plain) as (r & Hr & Hallowed).
      congruence.
    + apply IH. by apply Forall_cons in Hused as [_ ?].
Qed.

End Loops.

(** With a count that is not positive no prompt is made. *)
Lemma generate_prompts_no_count (wd : weather_data) (z : Z) (g : Py.rng) :
  z ≤ 0 → generate_prompts wd z g = Some [].
Proof.
  intros Hz. unfold generate_prompts.
  cbn [Py.lookup WEATHER_MOOD_MAP String.eqb Ascii.eqb Bool.eqb mbind option_bind].
  destruct (DetermineMoodsProps.determine_moods_returns wd)
    as (primary & secondary & ->).
  cbn [mbind option_bind mood_loop fst snd length].
  replace (Z.of_nat 0 >=? z) with true by (symmetry; apply Z.geb_le; lia).
  cbn [mbind option_bind fst snd length].
  replace (Z.to_nat (z - Z.of_nat 0)) with 0%nat by lia.
  reflexivity.
Qed.

(** C4: for every weather sample and every requested count [n],
    [generate_prompts] returns, and returns at most [n] candidates; no two
    of them have the same rendered text; and no text holds the placeholder
    [{weather_desc}] or [{weather_condition}]: a text holds no underscore
    at all, and a brace only where the condition of the sample has one. *)
Theorem generate_prompts_bounded_distinct_resolved
    (wd : weather_data) (n : nat) (g : Py.rng) :
  ∃ prompts,
    generate_prompts wd (Z.of_nat n) g = Some prompts ∧
    (length prompts ≤ n)%nat ∧
    NoDup (text <$> prompts) ∧
    Forall (λ p,
      Py.contains "{weather_desc}" (text p) = false ∧
      Py.contains "{weather_condition}" (text p) = false ∧
      Forall (allowed (default "partly_cloudy" (condition wd))) (chars (text p)))
      prompts.
Proof.
  unfold generate_prompts.
  set (cond := default "partly_cloudy" (condition wd)).
  destruct (Py.lookup "partly_cloudy" WEATHER_MOOD_MAP) as [fallback|] eqn:Hf;
    [ | discriminate Hf ].
  cbn [mbind option_bind].
  destruct (DetermineMoodsProps.determine_moods_returns wd)
    as (primary & secondary & ->).
  cbn [mbind option_bind].
  set (desc := description (Py.get WEATHER_MOOD_MAP cond fallback)).
  assert (Hdesc : forallb plain (chars desc) = true).
  { destruct (DetermineMoodsProps.mood_info_in_table cond fallback Hf) as [k Hin].
    pose proof descriptions_plain as Hall. rewrite Forall_forall in Hall.
    apply (Hall _ Hin). }
  assert (Hinv0 : inv desc cond ([], ∅, g)).
  { exists []. split; [ constructor | ]. split; constructor. }
  destruct (mood_loop_inv desc cond Hdesc n primary (primary :: secondary) _ Hinv0)
    as (st1 & -> & Hinv1 & Hlen1).
  cbn [mbind option_bind].
  destruct (top_up_inv desc cond Hdesc
              (Z.to_nat (Z.of_nat n - Z.of_nat (length st1.1.1))) primary st1 Hinv1)
    as (st2 & -> & Hinv2 & Hlen2).
  cbn [mbind option_bind].
  eexists. split; [ reflexivity | ].
  pose proof (shuffle_Permutation st2.1.1 st2.2) as Hperm.
  destruct (inv_prompts desc cond Hdesc st2 Hinv2) as [Hnd Hall].
  split; [ rewrite Hperm; cbn [fst snd length] in *; lia | ].
  split; [ by rewrite Hperm | ].
  rewrite Hperm. eapply Forall_impl; [ exact Hall | ].
  intros p Hp. split; [ | split; [ | exact Hp ] ].
  - apply (allowed_no_placeholder cond); [ exact Hp | ].
    apply (bool_decide_unpack _). vm_compute. exact I.
  - apply (allowed_no_placeholder cond); [ exact Hp | ].
    apply (bool_decide_unpack _). vm_compute. exact I.
Qed.


End GeneratePromptsProps.

(** * Properties of the journal store *)

Module JournalStoreProps.
Import JournalManager PySpec PyProps JournalStoreSpec.

Lemma split_go_length (cur : option Py.codepoints) (s : Py.codepoints) :
  length (Py.split_go cur s) =
  (token_starts (bool_decide (cur = None)) s + length (option_list cur))%nat.
Proof.
  revert cur. induction s as [|c s IH]; intros cur; cbn [Py.split_go token_starts].
  - by destruct cur.
  - destruct (Py.is_space c) eqn:Hc.
    + rewrite length_app, IH. rewrite andb_false_r. destruct cur; cbn; lia.
    + rewrite IH. destruct cur; cbn; lia.
Qed.

(** [len(text.split())] is the token count. *)
Lemma split_length (s : Py.codepoints) : length (Py.split s) = token_count s.
Proof. unfold Py.split, token_count. rewrite split_go_length. cbn. lia. Qed.

(** White space beyond ASCII separates words as well: a no-break space
    (U+00A0), an em space (U+2003) and a next line (U+0085) between the
    four words "so", "it", "is" and "ok". *)
Lemma split_unicode_white_space :
  Py.split [115; 111; 160; 105; 116; 8195; 105; 115; 133; 111; 107]%N
  = [[115; 111]; [105; 116]; [105; 115]; [111; 107]]%N.
Proof. reflexivity. Qed.

(** The loop of [update_entry] finds the first entry of that id. *)
Lemma update_first_Some (now entry_id : string) (updated_text : Py.codepoints)
    (entries entries' : list entry) :
  update_first now entry_id updated_text entries = Some entries' →
  ∃ before e rest,
    entries = before ++ e :: rest ∧
    Forall (λ x, id x ≠ entry_id) before ∧
    id e = entry_id ∧
    entries' = before ++ with_text now updated_text e :: rest.
Proof.
  revert entries'. induction entries as [|x entries IH]; intros entries';
    cbn [update_first]; [ discriminate | ].
  destruct (String.eqb (id x) entry_id) eqn:Hx.
  - intros [= <-]. apply String.eqb_eq in Hx.
    exists [], x, entries. split; [ done | ]. split; [ constructor | ]. done.
  - apply String.eqb_neq in Hx.
    destruct (update_first now entry_id updated_text entries) as [l|]; [ | discriminate ].
    cbn. intros [= <-].
    destruct (IH l eq_refl) as (before & e & rest & -> & Hb & He & ->).
    exists (x :: before), e, rest. split; [ done | ].
    split; [ by constructor | ]. done.
Qed.

Lemma update_first_None (now entry_id : string) (updated_text : Py.codepoints)
    (entries : list entry) :
  update_first now entry_id updated_text entries = None →
  Forall (λ x, id x ≠ entry_id) entries.
Proof.
  induction entries as [|x entries IH]; cbn [update_first]; [ constructor | ].
  destruct (String.eqb (id x) entry_id) eqn:Hx; [ discriminate | ].
  apply String.eqb_neq in Hx.
  destruct (update_first now entry_id updated_text entries); [ discriminate | ].
  intros _. constructor; [ done | by apply IH ].
Qed.

(** C8: [update_entry] returns true exactly when an entry with that id is
    stored.  When it returns false the stored list is unchanged.  When it
    returns true, the first entry with that id has its text replaced, its
    word count set to the token count of the new text and its update time
    set; its other fields, and all other entries, are unchanged. *)
Theorem update_entry_frame (now entry_id : string) (updated_text : Py.codepoints)
    (stored : list entry) :
  ((update_entry now entry_id updated_text stored).1 = true
   ↔ ∃ e, e ∈ stored ∧ id e = entry_id) ∧
  ((update_entry now entry_id updated_text stored).1 = false →
   (update_entry now entry_id updated_text stored).2 = stored) ∧
  ((update_entry now entry_id updated_text stored).1 = true →
   ∃ before e e' rest,
     stored = before ++ e :: rest ∧
     (update_entry now entry_id updated_text stored).2 = before ++ e' :: rest ∧
     Forall (λ x, id x ≠ entry_id) before ∧
     id e = entry_id ∧
     text e' = updated_text ∧
     word_count e' = Z.of_nat (token_count updated_text) ∧
     updated_at e' = Some now ∧
     id e' = id e ∧ timestamp e' = timestamp e ∧ date e' = date e ∧
     weather e' = weather e ∧ mood_tags e' = mood_tags e ∧ prompt e' = prompt e).
Proof.
  unfold update_entry.
  destruct (update_first now entry_id updated_text stored) as [entries'|] eqn:Hu;
    cbn [fst snd].
  - apply update_first_Some in Hu as (before & e & rest & -> & Hb & He & ->).
    split; [ | split; [ discriminate | ] ].
    + split; [ intros _ | done ]. exists e. split; [ | done ].
      apply elem_of_app. right. left.
    + intros _. exists before, e, (with_text now updated_text e), rest.
      cbn [with_text text word_count updated_at id timestamp date weather mood_tags prompt].
      rewrite split_length. by repeat split.
  - apply update_first_None in Hu.
    split; [ | split; [ done | discriminate ] ].
    split; [ discriminate | ]. intros (e & He & Hid).
    rewrite Forall_forall in Hu. by destruct (Hu e He).
Qed.

(** C9: with limit 0 the whole list is returned, with no limit too, and
    with a positive limit [n] the first [n] entries, which are all of them
    when there are no more than [n]. *)
Theorem get_all_entries_limit (entries : list entry) :
  get_all_entries (Some 0) entries = entries ∧
  get_all_entries None entries = entries ∧
  ∀ n : positive,
    get_all_entries (Some (Z.pos n)) entries = take (Pos.to_nat n) entries ∧
    ((length entries ≤ Pos.to_nat n)%nat →
     get_all_entries (Some (Z.pos n)) entries = entries).
Proof.
  split; [ reflexivity | ]. split; [ reflexivity | ].
  intros n. unfold get_all_entries, slice_to.
  rewrite bool_decide_eq_true_2 by done.
  change (0 <=? Z.pos n) with true. cbn [Z.to_nat].
  split; [ reflexivity | ]. intros Hlen. by apply take_ge.
Qed.


End JournalStoreProps.

(** * Properties of counting dictionaries *)

Module CountProps.
Import CountSpec.

Lemma lookup_set {V : Type} (k k' : string) (v : V) (d : list (string * V)) :
  Py.lookup k' (Py.set k v d) = if bool_decide (k = k') then Some v else Py.lookup k' d.
Proof.
  induction d as [|[k0 v0] d IH]; cbn [Py.set Py.lookup].
  - case_bool_decide as Hk.
    + by rewrite (proj2 (String.eqb_eq k k') Hk).
    + by rewrite (proj2 (String.eqb_neq k k') Hk).
  - destruct (String.eqb k0 k) eqn:H0; cbn [Py.lookup].
    + apply String.eqb_eq in H0 as ->.
      case_bool_decide as Hk.
      * by rewrite (proj2 (String.eqb_eq k k') Hk).
      * by rewrite (proj2 (String.eqb_neq k k') Hk).
    + rewrite IH. apply String.eqb_neq in H0.
      destruct (String.eqb k0 k') eqn:H1; [ | done ].
      apply String.eqb_eq in H1 as ->. by rewrite bool_decide_eq_false_2 by done.
Qed.

Lemma get_incr (k k' : string) (d : list (string * Z)) :
  Py.get (Py.incr k d) k' 0 = Py.get d k' 0 + (if bool_decide (k = k') then 1 else 0).
Proof.
  unfold Py.incr, Py.get. rewrite lookup_set.
  case_bool_decide as Hk; [ subst k'; cbn | lia ]. done.
Qed.

Lemma get_count_all (keys : list string) (d : list (string * Z)) (k : string) :
  Py.get (count_all d keys) k 0 = Py.get d k 0 + Z.of_nat (occurrences k keys).
Proof.
  unfold count_all, occurrences. revert d.
  induction keys as [|x keys IH]; intros d; cbn [foldl].
  - cbn. lia.
  - rewrite IH, get_incr, filter_cons.
    case_bool_decide as Hx; case_decide; try done; cbn [length]; lia.
Qed.

(** A loop over the items of the lists of a list is a loop over their
    concatenation. *)
Lemma foldl_join {A B C : Type} (f : A → C → A) (g : B → list C) (a : A) (l : list B) :
  foldl (λ acc x, foldl f acc (g x)) a l = foldl f a (mjoin (g <$> l)).
Proof.
  revert a. induction l as [|x l IH]; intros a; cbn [foldl fmap list_fmap mjoin list_join].
  - done.
  - by rewrite foldl_app, IH.
Qed.

Lemma foldl_omap {A B C : Type} (f : A → C → A) (g : B → option C) (a : A) (l : list B) :
  foldl (λ acc x, match g x with Some c => f acc c | None => acc end) a l
  = foldl f a (omap g l).
Proof.
  revert a. induction l as [|x l IH]; intros a; cbn [foldl omap list_omap]; [ done | ].
  rewrite IH. by destruct (g x).
Qed.


End CountProps.

(** * Properties of the statistics *)

Module StatisticsProps.
Import JournalManager PySpec PyProps CountSpec CountProps StatisticsSpec.

Lemma longest_run_unique (S : Z → Prop) (L1 L2 : Z) :
  longest_run S L1 → longest_run S L2 → L1 = L2.
Proof.
  intros [[d1 Hd1] Hmax1] [[d2 Hd2] Hmax2].
  pose proof (Hmax1 _ _ Hd2). pose proof (Hmax2 _ _ Hd1). lia.
Qed.

Lemma longest_run_ext (S1 S2 : Z → Prop) (L : Z) :
  (∀ d, S1 d ↔ S2 d) → longest_run S1 L → longest_run S2 L.
Proof.
  intros Heq [[d Hd] Hmax]. split.
  - exists d. intros j Hj. apply Heq, Hd, Hj.
  - intros d' k Hrun. apply (Hmax d'). intros j Hj. apply Heq, Hrun, Hj.
Qed.

Lemma StronglySorted_le_lt (l : list Z) :
  StronglySorted Z.le l → NoDup l → StronglySorted Z.lt l.
Proof.
  induction 1 as [|x l Hl IH Hx]; intros Hnd; constructor.
  - apply IH. by apply NoDup_cons in Hnd as [_ ?].
  - apply NoDup_cons in Hnd as [Hin _].
    rewrite Forall_forall in Hx. apply Forall_forall. intros y Hy.
    pose proof (Hx y Hy). assert (x ≠ y) by (by intros ->). lia.
Qed.

Lemma sorted_dates_sorted (entries : list entry) :
  StronglySorted Z.lt (sorted_dates entries).
Proof.
  unfold sorted_dates. apply StronglySorted_le_lt.
  - apply StronglySorted_merge_sort; apply _.
  - rewrite merge_sort_Permutation. apply NoDup_elements.
Qed.

Lemma elem_of_sorted_dates (entries : list entry) (d : Z) :
  d ∈ sorted_dates entries ↔ d ∈ date_set entries.
Proof.
  unfold sorted_dates. rewrite merge_sort_Permutation. apply elem_of_elements.
Qed.

(** One round of the loop keeps the invariant. *)
Lemma streak_step (seen : list Z) (prev curr max_streak current_streak : Z) :
  (∀ x, x ∈ seen → x ≤ prev) →
  prev < curr →
  streak_inv seen prev max_streak current_streak →
  streak_inv (seen ++ [curr]) curr
    (if curr - prev =? 1 then Z.max max_streak (current_streak + 1) else max_streak)
    (if curr - prev =? 1 then current_streak + 1 else 1).
Proof.
  intros Hle Hlt (Hcur & Hrun & Hstop & [[d0 Hd0] Hmax]).
  assert (Hin : ∀ x, x ∈ seen ++ [curr] ↔ x ∈ seen ∨ x = curr).
  { intros x. by rewrite elem_of_app, list_elem_of_singleton. }
  (* a run of the new dates that does not end at [curr] is a run of the old *)
  assert (Hold : ∀ d k, 1 ≤ k → run (λ d, d ∈ seen ++ [curr]) d k →
                 d + (k - 1) ≠ curr → k ≤ max_streak).
  { intros d k Hk Hr Hlast. apply (Hmax d). intros j Hj.
    destruct (proj1 (Hin _) (Hr (k - 1) ltac:(lia))) as [Hs|?]; [ | done ].
    destruct (proj1 (Hin _) (Hr j Hj)) as [?|?]; [ done | ].
    pose proof (Hle _ Hs). lia. }
  (* a run of the new dates ends at [curr] at the latest *)
  assert (Hend : ∀ d k, 1 ≤ k → run (λ d, d ∈ seen ++ [curr]) d k → d + (k - 1) ≤ curr).
  { intros d k Hk Hr.
    destruct (proj1 (Hin _) (Hr (k - 1) ltac:(lia))) as [Hs|?]; [ | lia ].
    pose proof (Hle _ Hs). lia. }
  destruct (curr - prev =? 1) eqn:Hstep.
  - apply Z.eqb_eq in Hstep. split; [ lia | ]. split; [ | split ].
    + intros j Hj. apply Hin. destruct (decide (j = current_streak)) as [->|].
      * right. lia.
      * left. replace (curr - (current_streak + 1) + 1 + j)
          with (prev - current_streak + 1 + j) by lia.
        apply Hrun. lia.
    + rewrite Hin. intros [Hs|?]; [ | lia ].
      apply Hstop. by replace (prev - current_streak) with (curr - (current_streak + 1)) by lia.
    + split.
      * destruct (Z.max_spec max_streak (current_streak + 1)) as [[_ ->]|[_ ->]].
        { exists (curr - (current_streak + 1) + 1). intros j Hj. apply Hin.
          destruct (decide (j = current_streak)) as [->|]; [ right; lia | ].
          left. replace (curr - (current_streak + 1) + 1 + j)
            with (prev - current_streak + 1 + j) by lia.
          apply Hrun. lia. }
        { exists d0. intros j Hj. apply Hin. left. by apply Hd0. }
      * intros d k Hr. destruct (decide (k ≤ 0)) as [|Hk]; [ lia | ].
        destruct (decide (d + (k - 1) = curr)) as [Hlast|Hlast].
        2: { pose proof (Hold d k ltac:(lia) Hr Hlast). lia. }
        destruct (decide (k ≤ current_streak + 1)) as [|Hlong]; [ lia | ].
        exfalso. apply Hstop.
        destruct (proj1 (Hin _) (Hr (k - 1 - (current_streak + 1)) ltac:(lia)))
          as [Hs|?]; [ | lia ].
        by replace (prev - current_streak) with (d + (k - 1 - (current_streak + 1))) by lia.
  - apply Z.eqb_neq in Hstep. split; [ lia | ]. split; [ | split ].
    + intros j Hj. apply Hin. right. lia.
    + rewrite Hin. intros [Hs|?]; [ | lia ]. pose proof (Hle _ Hs). lia.
    + split.
      * exists d0. intros j Hj. apply Hin. left. by apply Hd0.
      * intros d k Hr. destruct (decide (k ≤ 0)) as [|Hk]; [ lia | ].
        destruct (decide (d + (k - 1) = curr)) as [Hlast|Hlast].
        2: { by apply (Hold d k ltac:(lia) Hr Hlast). }
        destruct (decide (k ≤ 1)) as [|Hlong]; [ lia | ].
        exfalso.
        destruct (proj1 (Hin _) (Hr (k - 2) ltac:(lia))) as [Hs|?]; [ | lia ].
        pose proof (Hle _ Hs). lia.
Qed.

(** The loop returns the length of the longest run of the dates. *)
Lemma longest_loop_spec (dates seen : list Z) (prev max_streak current_streak : Z) :
  (∀ x, x ∈ seen → x ≤ prev) →
  StronglySorted Z.lt (prev :: dates) →
  streak_inv seen prev max_streak current_streak →
  longest_run (λ d, d ∈ seen ++ dates)
    (longest_loop prev dates max_streak current_streak).
Proof.
  revert seen prev max_streak current_streak.
  induction dates as [|curr dates IH]; intros seen prev mx cur Hle Hsorted Hinv;
    cbn [longest_loop].
  - rewrite app_nil_r. by destruct Hinv as (_ & _ & _ & ?).
  - apply StronglySorted_inv in Hsorted as [Hsorted Hprev].
    assert (prev < curr) as Hlt by (by apply Forall_cons in Hprev as [? _]).
    pose proof (streak_step seen prev curr mx cur Hle Hlt Hinv) as Hstep.
    replace (seen ++ curr :: dates) with ((seen ++ [curr]) ++ dates)
      by (by rewrite <- app_assoc).
    assert (Hle' : ∀ x, x ∈ seen ++ [curr] → x ≤ curr).
    { intros x [Hs| ->%list_elem_of_singleton]%elem_of_app; [ | lia ].
      pose proof (Hle _ Hs). lia. }
    destruct (curr - prev =? 1); by apply IH.
Qed.

Lemma calculate_longest_streak_spec (dates : list Z) :
  StronglySorted Z.lt dates →
  longest_run (λ d, d ∈ dates) (_calculate_longest_streak dates).
Proof.
  destruct dates as [|first dates]; intros Hsorted; cbn [_calculate_longest_streak].
  - split.
    + exists 0. intros j Hj. lia.
    + intros d k Hr. destruct (decide (k ≤ 0)) as [|Hk]; [ done | ].
      by pose proof (Hr 0 ltac:(lia)) as ?%elem_of_nil.
  - apply (longest_loop_spec dates [first] first 1 1); [ | done | ].
    + by intros x ->%list_elem_of_singleton.
    + split; [ lia | ]. split; [ | split ].
      * intros j Hj. apply list_elem_of_singleton. lia.
      * rewrite list_elem_of_singleton. lia.
      * split.
        { exists first. intros j Hj. apply list_elem_of_singleton. lia. }
        { intros d k Hr. destruct (decide (k ≤ 1)) as [|Hk]; [ done | ].
          pose proof (Hr 0 ltac:(lia)) as H0%list_elem_of_singleton.
          pose proof (Hr 1 ltac:(lia)) as H1%list_elem_of_singleton. lia. }
Qed.

(** Without today among the dates the loop of [_calculate_current_streak]
    stops at once. *)
Lemma calculate_current_streak_absent (today : Z) (dates : list Z) :
  today ∉ dates → _calculate_current_streak today dates = 0.
Proof.
  intros Habs. unfold _calculate_current_streak.
  destruct dates as [|first dates]; [ done | ].
  destruct (reverse (first :: dates)) as [|last rest] eqn:Hrev; [ done | ].
  cbn [current_loop].
  destruct (last =? today - 0) eqn:Hlast; [ | done ].
  apply Z.eqb_eq in Hlast. exfalso. apply Habs.
  apply elem_of_reverse. rewrite Hrev.
  assert (today = last) as -> by lia. left.
Qed.

Section Snapshot.

Variable round1_div : Z → Z → Q.
Variable today : Z.

Lemma longest_streak_of_statistics (entries : list entry) :
  ∃ L, Py.lookup "longest_streak" (get_statistics round1_div today entries) = Some (VInt L) ∧
       longest_run (λ d, d ∈ date_set entries) L.
Proof.
  destruct entries as [|e entries].
  - exists 0. split; [ reflexivity | ]. split.
    + exists 0. intros j Hj. lia.
    + intros d k Hr. destruct (decide (k ≤ 0)) as [|Hk]; [ done | ].
      by pose proof (Hr 0 ltac:(lia)) as ?%elem_of_empty.
  - eexists. split; [ reflexivity | ].
    eapply longest_run_ext; [ apply elem_of_sorted_dates | ].
    apply calculate_longest_streak_spec, sorted_dates_sorted.
Qed.

Lemma current_streak_of_statistics_absent (entries : list entry) :
  today ∉ date_set entries →
  Py.lookup "current_streak" (get_statistics round1_div today entries) = Some (VInt 0).
Proof.
  intros Habs. destruct entries as [|e entries]; [ reflexivity | ].
  cbn [get_statistics Py.lookup String.eqb Ascii.eqb Bool.eqb].
  rewrite calculate_current_streak_absent; [ done | ].
  by rewrite elem_of_sorted_dates.
Qed.

(** C5: when the dates of the entries are exactly the three days before
    today, the statistics give a current streak of 0 and a longest streak
    of 3.  For every list of entries the longest streak is the length of
    the longest run of consecutive days among the dates, and the current
    streak is 0 whenever today is not among the dates. *)
Theorem streaks_of_statistics (entries : list entry) :
  (date_set entries = {[ today - 3; today - 2; today - 1 ]} →
   Py.lookup "current_streak" (get_statistics round1_div today entries) = Some (VInt 0) ∧
   Py.lookup "longest_streak" (get_statistics round1_div today entries) = Some (VInt 3)) ∧
  (∃ L, Py.lookup "longest_streak" (get_statistics round1_div today entries) = Some (VInt L) ∧
        longest_run (λ d, d ∈ date_set entries) L) ∧
  (today ∉ date_set entries →
   Py.lookup "current_streak" (get_statistics round1_div today entries) = Some (VInt 0)).
Proof.
  split; [ | split ].
  - intros Hdates. split.
    + apply current_streak_of_statistics_absent. rewrite Hdates.
      rewrite !elem_of_union, !elem_of_singleton. lia.
    + destruct (longest_streak_of_statistics entries) as (L & -> & HL).
      do 2 f_equal. apply (longest_run_unique _ _ _ HL).
      rewrite Hdates. split.
      * exists (today - 3). intros j Hj.
        rewrite !elem_of_union, !elem_of_singleton. lia.
      * intros d k Hr. destruct (decide (k ≤ 3)) as [|Hk]; [ done | ].
        pose proof (Hr 0 ltac:(lia)) as H0. pose proof (Hr 3 ltac:(lia)) as H3.
        rewrite !elem_of_union, !elem_of_singleton in H0, H3. lia.
  - apply longest_streak_of_statistics.
  - apply current_streak_of_statistics_absent.
Qed.

(** C6: the statistics of no entries are the zero snapshot. *)
Theorem statistics_of_no_entries :
  Py.lookup "total_entries" (get_statistics round1_div today []) = Some (VInt 0) ∧
  Py.lookup "total_words" (get_statistics round1_div today []) = Some (VInt 0) ∧
  Py.lookup "avg_words_per_entry" (get_statistics round1_div today []) = Some (VInt 0) ∧
  Py.lookup "most_common_mood" (get_statistics round1_div today []) = Some VNone ∧
  Py.lookup "most_common_weather" (get_statistics round1_div today []) = Some VNone ∧
  Py.lookup "longest_streak" (get_statistics round1_div today []) = Some (VInt 0) ∧
  Py.lookup "current_streak" (get_statistics round1_div today []) = Some (VInt 0).
Proof. cbn [get_statistics]. repeat split. Qed.

(** The mood counts are the numbers of occurrences of the tags. *)
Lemma count_moods_spec (entries : list entry) (mood : string) :
  Py.get (count_moods entries) mood 0
  = Z.of_nat (occurrences mood (mjoin (mood_tags <$> entries))).
Proof.
  unfold count_moods.
  rewrite (foldl_join (λ d mood, Py.incr mood d) mood_tags).
  apply (get_count_all _ []).
Qed.

(** The weather counts are the numbers of entries of the conditions. *)
Lemma count_weather_spec (entries : list entry) (c : string) :
  Py.get (count_weather entries) c 0
  = Z.of_nat (occurrences c (omap (λ e, truthy (condition (weather e))) entries)).
Proof.
  unfold count_weather.
  rewrite (foldl_omap (λ d c, Py.incr c d) (λ e, truthy (condition (weather e)))).
  apply (get_count_all _ []).
Qed.

(** C10: the statistics of a list with an entry hold the two frequency
    maps, those of no entries hold neither key. *)
Theorem statistics_distribution_fields (e : entry) (entries : list entry) :
  (∃ mood_counts weather_counts,
     Py.lookup "mood_distribution" (get_statistics round1_div today (e :: entries))
       = Some (VCounts mood_counts) ∧
     Py.lookup "weather_distribution" (get_statistics round1_div today (e :: entries))
       = Some (VCounts weather_counts) ∧
     (∀ mood, Py.get mood_counts mood 0
              = Z.of_nat (occurrences mood (mjoin (mood_tags <$> e :: entries)))) ∧
     (∀ c, Py.get weather_counts c 0
           = Z.of_nat (occurrences c
               (omap (λ e, truthy (condition (weather e))) (e :: entries))))) ∧
  Py.lookup "mood_distribution" (get_statistics round1_div today []) = None ∧
  Py.lookup "weather_distribution" (get_statistics round1_div today []) = None.
Proof.
  split; [ | split; reflexivity ].
  exists (count_moods (e :: entries)), (count_weather (e :: entries)).
  split; [ reflexivity | ]. split; [ reflexivity | ].
  split; [ apply count_moods_spec | apply count_weather_spec ].
Qed.

End Snapshot.

(** C5 on entries dated on days 100, 101 and 102, seen on day 103. *)
Lemma streaks_of_statistics_witness :
  Py.lookup "current_streak"
    (get_statistics (λ _ _, 0%Q) 103 [entry_on 102; entry_on 101; entry_on 100])
    = Some (VInt 0) ∧
  Py.lookup "longest_streak"
    (get_statistics (λ _ _, 0%Q) 103 [entry_on 102; entry_on 101; entry_on 100])
    = Some (VInt 3).
Proof.
  apply (streaks_of_statistics (λ _ _, 0%Q) 103
           [entry_on 102; entry_on 101; entry_on 100]).
  vm_compute. reflexivity.
Defined.


End StatisticsProps.

(** * Properties of the weather and mood correlation *)

Module CorrelationProps.
Import JournalManager Visualizer PySpec PyProps CountSpec CountProps CorrelationSpec.

Ltac elem_cases H :=
  repeat (apply elem_of_cons in H as [->|H]); [ .. | by apply elem_of_nil in H ].

(** Keys of a known condition are told apart from all other keys. *)
Lemma pair_key_inj (w w' m m' : string) :
  w ∈ CONDITIONS → w' ∈ CONDITIONS ++ PLACEHOLDERS →
  pair_key w m = pair_key w' m' → w = w' ∧ m = m'.
Proof.
  intros Hw Hw'. unfold CONDITIONS in *. cbn in Hw, Hw'.
  elem_cases Hw; elem_cases Hw'; cbv [pair_key String.append];
    intros Heq; first [ discriminate Heq | by injection Heq as -> ].
Qed.

Lemma weather_of_name (e : entry) :
  (∀ c, observed e = Some c → c ∈ CONDITIONS) →
  weather_of e ∈ CONDITIONS ++ PLACEHOLDERS.
Proof.
  unfold observed, weather_of, truthy. intros Hc. apply elem_of_app.
  destruct (condition (weather e)) as [| |s].
  - right. left.
  - right. right. left.
  - case_bool_decide as Hs.
    + subst s. right. right. right. left.
    + left. by apply Hc.
Qed.

Lemma placeholder_not_condition (p : string) :
  p ∈ PLACEHOLDERS → p ∉ CONDITIONS.
Proof.
  intros Hp. unfold PLACEHOLDERS in Hp.
  elem_cases Hp; apply (bool_decide_unpack _); vm_compute; exact I.
Qed.

Lemma weather_of_observed (e : entry) (w : string) :
  w ∈ CONDITIONS → (weather_of e = w ↔ observed e = Some w).
Proof.
  intros Hw. unfold observed, weather_of, truthy.
  destruct (condition (weather e)) as [| |s].
  - split; [ intros <- | done ].
    destruct (placeholder_not_condition "unknown"); [ | done ]. left.
  - split; [ intros <- | done ].
    destruct (placeholder_not_condition "None"); [ | done ]. right. left.
  - case_bool_decide as Hs.
    + subst s. split; [ intros <- | done ].
      destruct (placeholder_not_condition ""); [ | done ]. right. right. left.
    + split; [ by intros -> | by intros [= ->] ].
Qed.

(** The rows are the observed conditions, sorted and without repetition. *)
Lemma weathers_spec (entries : list entry) :
  Sorted String.le (weathers entries) ∧
  NoDup (weathers entries) ∧
  ∀ w, w ∈ weathers entries ↔ ∃ e, e ∈ entries ∧ observed e = Some w.
Proof.
  unfold weathers. split; [ | split ].
  - apply Sorted_merge_sort. apply _.
  - rewrite merge_sort_Permutation. apply NoDup_elements.
  - intros w. rewrite merge_sort_Permutation, elem_of_elements, elem_of_list_to_set.
    apply list_elem_of_omap.
Qed.

(** The columns are the mood tags of the entries, sorted and without
    repetition. *)
Lemma moods_spec (entries : list entry) :
  Sorted String.le (moods entries) ∧
  NoDup (moods entries) ∧
  ∀ m, m ∈ moods entries ↔ ∃ e, e ∈ entries ∧ m ∈ mood_tags e.
Proof.
  unfold moods. split; [ | split ].
  - apply Sorted_merge_sort. apply _.
  - rewrite merge_sort_Permutation. apply NoDup_elements.
  - intros m. rewrite merge_sort_Permutation, elem_of_elements, elem_of_list_to_set.
    rewrite list_elem_of_join. split.
    + intros (l & Hm & (e & -> & He)%list_elem_of_fmap). by exists e.
    + intros (e & He & Hm). exists (mood_tags e). split; [ done | ].
      apply list_elem_of_fmap. by exists e.
Qed.

Lemma foldl_bind {A B C : Type} (f : A → C → A) (g : B → list C) (a : A) (l : list B) :
  foldl (λ acc x, foldl f acc (g x)) a l = foldl f a (l ≫= g).
Proof.
  revert a. induction l as [|x l IH]; intros a; [ done | ].
  rewrite bind_cons, foldl_app. cbn [foldl]. apply IH.
Qed.

(** The dictionary of the loop counts the keys of the entries. *)
Lemma weather_mood_pairs_counted (entries : list entry) (k : string) :
  Py.get (weather_mood_pairs entries) k 0
  = Z.of_nat (occurrences k (counted_keys entries)).
Proof.
  assert (weather_mood_pairs entries = count_all [] (counted_keys entries)) as ->.
  { unfold weather_mood_pairs, counted_keys, count_all.
    rewrite <- foldl_bind.
    generalize (@nil (string * Z)) as d.
    induction entries as [|e entries IH]; intros d; cbn [foldl]; [ done | ].
    by rewrite IH, foldl_fmap. }
  by rewrite get_count_all.
Qed.

Lemma occurrences_app (k : string) (l1 l2 : list string) :
  occurrences k (l1 ++ l2) = (occurrences k l1 + occurrences k l2)%nat.
Proof. unfold occurrences. by rewrite filter_app, length_app. Qed.

Lemma occurrences_pair_key (w m w' : string) (tags : list string) :
  w ∈ CONDITIONS → w' ∈ CONDITIONS ++ PLACEHOLDERS →
  occurrences (pair_key w m) (pair_key w' <$> tags)
  = if decide (w' = w) then occurrences m tags else 0%nat.
Proof.
  intros Hw Hw'. unfold occurrences.
  induction tags as [|t tags IH]; cbn [fmap list_fmap].
  - by case_decide.
  - rewrite !filter_cons.
    destruct (decide (pair_key w' t = pair_key w m)) as [Heq|Hne].
    + symmetry in Heq. apply (pair_key_inj _ _ _ _ Hw Hw') in Heq as [-> ->].
      rewrite decide_True in IH by done. rewrite !decide_True by done.
      cbn [length]. by rewrite IH.
    + rewrite IH. case_decide as Hww; [ | done ]. subst w'.
      rewrite decide_False; [ done | ]. by intros ->.
Qed.

Lemma occurrences_NoDup (m : string) (tags : list string) :
  NoDup tags → occurrences m tags = if decide (m ∈ tags) then 1%nat else 0%nat.
Proof.
  unfold occurrences. induction 1 as [|t tags Ht Hnd IH]; [ done | ].
  rewrite filter_cons. destruct (decide (t = m)) as [->|Hne]; cbn [length]; rewrite IH.
  - rewrite decide_False by done. rewrite decide_True by left. done.
  - case_decide as Hm.
    + rewrite decide_True by (by right). done.
    + rewrite decide_False; [ done | ].
      intros [?|?]%elem_of_cons; [ by subst | done ].
Qed.

(** A cell counts the entries of its condition that carry its mood. *)
Lemma cell_count (entries : list entry) (w m : string) :
  known_conditions entries → distinct_tags entries → w ∈ CONDITIONS →
  occurrences (pair_key w m) (counted_keys entries) = co_occurrences entries w m.
Proof.
  intros Hknown Htags Hw. unfold counted_keys, co_occurrences.
  induction entries as [|e entries IH]; [ done | ].
  apply Forall_cons in Hknown as [He Hknown]. apply Forall_cons in Htags as [Hnd Htags].
  rewrite bind_cons, occurrences_app, IH by done.
  rewrite (occurrences_pair_key _ _ _ _ Hw (weather_of_name e He)).
  rewrite filter_cons, (occurrences_NoDup _ _ Hnd).
  destruct (decide (weather_of e = w)) as [Hwe|Hwe].
  - apply (weather_of_observed e w Hw) in Hwe.
    destruct (decide (m ∈ mood_tags e)) as [Hm|Hm].
    + by rewrite decide_True by done.
    + rewrite decide_False; [ done | ]. by intros [_ ?].
  - rewrite decide_False; [ done | ].
    intros [Hobs _]. by apply (weather_of_observed e w Hw) in Hobs.
Qed.

Lemma filter_elem_of_cons (k0 : string) (ks keys : list string) :
  k0 ∉ ks →
  length (filter (λ x, x ∈ k0 :: ks) keys)
  = (occurrences k0 keys + length (filter (λ x, x ∈ ks) keys))%nat.
Proof.
  intros Hk0. unfold occurrences.
  induction keys as [|x keys IH]; [ done | ].
  rewrite !filter_cons. destruct (decide (x = k0)) as [->|Hne].
  - rewrite decide_True by left. rewrite (decide_False (P := k0 ∈ ks)) by done.
    cbn [length]. by rewrite IH.
  - destruct (decide (x ∈ ks)) as [Hx|Hx].
    + rewrite decide_True by (by right). cbn [length]. rewrite IH. lia.
    + rewrite decide_False; [ done | ].
      intros [?|?]%elem_of_cons; done.
Qed.

(** Summing the counts of distinct keys counts the keys among them. *)
Lemma sum_occurrences (ks keys : list string) :
  NoDup ks →
  sumZ ((λ k, Z.of_nat (occurrences k keys)) <$> ks)
  = Z.of_nat (length (filter (λ x, x ∈ ks) keys)).
Proof.
  induction 1 as [|k0 ks Hk0 Hnd IH]; cbn [fmap list_fmap sumZ foldr].
  - replace (filter (λ x, x ∈ []) keys) with (@nil string); [ done | ].
    induction keys as [|x keys IHk]; [ done | ].
    rewrite filter_cons_False; [ done | ]. apply not_elem_of_nil.
  - fold (sumZ ((λ k, Z.of_nat (occurrences k keys)) <$> ks)).
    rewrite IH, (filter_elem_of_cons _ _ _ Hk0). lia.
Qed.

Lemma elem_of_grid_keys (rows cols : list string) (k : string) :
  k ∈ grid_keys rows cols ↔ ∃ w m, w ∈ rows ∧ m ∈ cols ∧ k = pair_key w m.
Proof.
  unfold grid_keys. rewrite list_elem_of_bind. split.
  - intros (w & (m & -> & Hm)%list_elem_of_fmap & Hw). by exists w, m.
  - intros (w & m & Hw & Hm & ->). exists w. split; [ | done ].
    apply list_elem_of_fmap. by exists m.
Qed.

Lemma grid_keys_NoDup (rows cols : list string) :
  NoDup rows → NoDup cols → (∀ w, w ∈ rows → w ∈ CONDITIONS) →
  NoDup (grid_keys rows cols).
Proof.
  intros Hrows Hcols Hknown. unfold grid_keys.
  induction Hrows as [|w rows Hw Hrows IH]; [ constructor | ].
  rewrite bind_cons. apply NoDup_app. split; [ | split ].
  - apply NoDup_fmap_2; [ | done ]. intros m m' Heq.
    unfold pair_key in Heq.
    by apply (String.app_inj w), (String.app_inj "_") in Heq.
  - intros k (m & -> & Hm)%list_elem_of_fmap Hin.
    apply elem_of_grid_keys in Hin as (w' & m' & Hw' & _ & Heq).
    apply pair_key_inj in Heq as [-> _].
    + done.
    + apply Hknown. left.
    + apply elem_of_app. left. apply Hknown. by right.
  - apply IH. intros w' Hw'. apply Hknown. by right.
Qed.

(** The values of the grid, row after row, are the counts of its keys. *)
Lemma matrix_flat (entries : list entry) :
  mjoin (matrix entries)
  = (λ k, Py.get (weather_mood_pairs entries) k 0)
      <$> grid_keys (weathers entries) (moods entries).
Proof.
  unfold matrix, grid_keys. cbv zeta.
  induction (weathers entries) as [|w rows IH]; [ done | ].
  rewrite bind_cons, fmap_app, <- IH, <- list_fmap_compose. reflexivity.
Qed.

Lemma length_filter_all {A : Type} (P : A → Prop) `{!∀ x, Decision (P x)} (l : list A) :
  Forall P l → length (filter P l) = length l.
Proof.
  induction 1 as [|x l Hx _ IH]; [ done | ].
  rewrite filter_cons_True by done. cbn [length]. by rewrite IH.
Qed.

Lemma length_filter_none {A : Type} (P : A → Prop) `{!∀ x, Decision (P x)} (l : list A) :
  Forall (λ x, ¬ P x) l → length (filter P l) = 0%nat.
Proof.
  induction 1 as [|x l Hx _ IH]; [ done | ].
  by rewrite filter_cons_False by done.
Qed.

(** The keys of the entries that the grid reads are the pairs of the
    entries that have a row. *)
Lemma counted_in_grid (entries sub : list entry) :
  (∀ e, e ∈ sub → e ∈ entries) → known_conditions entries →
  length (filter (λ k, k ∈ grid_keys (weathers entries) (moods entries))
            (counted_keys sub))
  = length (filter (λ e, in_rows entries e) sub ≫= λ e, (λ m, (e, m)) <$> mood_tags e).
Proof.
  destruct (weathers_spec entries) as (_ & _ & Hrows).
  destruct (moods_spec entries) as (_ & _ & Hcols).
  intros Hsub Hknown. unfold known_conditions in Hknown.
  rewrite Forall_forall in Hknown. unfold counted_keys.
  induction sub as [|e sub IH]; [ done | ].
  assert (e ∈ entries) as Hin by (apply Hsub; left).
  rewrite bind_cons, filter_app, length_app, IH;
    [ | intros e' He'; apply Hsub; by right ].
  destruct (in_rows entries e) eqn:Hrow.
  - rewrite filter_cons_True by (by rewrite Hrow).
    unfold in_rows in Hrow. destruct (observed e) as [w|] eqn:Hobs; [ | done ].
    apply bool_decide_eq_true in Hrow.
    rewrite bind_cons, length_app, length_fmap. f_equal.
    transitivity (length (pair_key (weather_of e) <$> mood_tags e));
      [ | apply length_fmap ].
    apply length_filter_all.
    apply Forall_fmap, Forall_forall. intros m Hm. cbn.
    apply elem_of_grid_keys. exists w, m. split; [ done | ].
    split; [ apply Hcols; by exists e | ].
    f_equal. apply weather_of_observed; [ by apply (Hknown e) | done ].
  - rewrite filter_cons_False by (rewrite Hrow; exact (λ x, x)).
    rewrite length_filter_none; [ done | ].
    apply Forall_fmap, Forall_forall. intros m Hm. cbn.
    intros (w & m' & Hw & _ & Heq)%elem_of_grid_keys.
    assert (w ∈ CONDITIONS) as Hwc.
    { apply Hrows in Hw as (e' & He' & Hobs'). by apply (Hknown e'). }
    symmetry in Heq. apply pair_key_inj in Heq as [Hwe _];
      [ | done | apply weather_of_name; by apply Hknown ].
    assert (observed e = Some w) as Hobs by (by apply weather_of_observed).
    unfold in_rows in Hrow. rewrite Hobs in Hrow.
    by apply bool_decide_eq_false in Hrow.
Qed.

(** C7, for the entries that the application stores: when the conditions
    of the entries are among the eight fixed conditions and no entry
    repeats a mood tag, the rows of the grid are the observed conditions
    and the columns the observed mood tags, both sorted and without
    repetition, each cell is the number of entries that have its condition
    and carry its mood, and the cells sum to the number of pairs of an
    entry with a row and one of its mood tags.  The figure of a non-empty
    list shows this grid, and for the two entries of the example it is the
    grid of the specification. *)
Theorem correlation_grid :
  (∀ entries : list entry,
     known_conditions entries → distinct_tags entries →
     (Sorted String.le (weathers entries) ∧ NoDup (weathers entries) ∧
      ∀ w, w ∈ weathers entries ↔ ∃ e, e ∈ entries ∧ observed e = Some w) ∧
     (Sorted String.le (moods entries) ∧ NoDup (moods entries) ∧
      ∀ m, m ∈ moods entries ↔ ∃ e, e ∈ entries ∧ m ∈ mood_tags e) ∧
     matrix entries
       = (λ w, (λ m, Z.of_nat (co_occurrences entries w m)) <$> moods entries)
           <$> weathers entries ∧
     sumZ (mjoin (matrix entries)) = Z.of_nat (length (pairs_in_rows entries))) ∧
  (∀ (e : entry) (entries : list entry),
     create_weather_mood_correlation (e :: entries)
     = Heatmap (moods (e :: entries))
         ((λ w, title (Py.replace_char "_" " " w)) <$> weathers (e :: entries))
         (matrix (e :: entries))) ∧
  (∀ e1 e2 : entry,
     condition (weather e1) = Str "rainy" → mood_tags e1 = ["reflective"; "cozy"] →
     condition (weather e2) = Str "sunny" → mood_tags e2 = ["energetic"] →
     create_weather_mood_correlation [e1; e2]
     = Heatmap ["cozy"; "energetic"; "reflective"] ["Rainy"; "Sunny"]
         [[1; 0; 1]; [0; 1; 0]] ∧
     sumZ (mjoin (matrix [e1; e2])) = 3).
Proof.
  split; [ | split ].
  - intros entries Hknown Htags.
    destruct (weathers_spec entries) as (Hs & Hnd & Hrows).
    destruct (moods_spec entries) as (Hsm & Hndm & Hcols).
    assert (Hrc : ∀ w, w ∈ weathers entries → w ∈ CONDITIONS).
    { intros w (e & He & Hobs)%Hrows.
      unfold known_conditions in Hknown. rewrite Forall_forall in Hknown.
      by apply (Hknown e). }
    split; [ done | ]. split; [ done | ]. split.
    + unfold matrix. cbv zeta. apply Forall_fmap_ext, Forall_forall. intros w Hw.
      apply Forall_fmap_ext, Forall_forall. intros m Hm.
      rewrite weather_mood_pairs_counted. f_equal.
      apply cell_count; [ done | done | by apply Hrc ].
    + rewrite matrix_flat.
      rewrite (proj1 (Forall_fmap_ext _ (λ k, Z.of_nat (occurrences k (counted_keys entries))) _)).
      2: { apply Forall_forall. intros k _. apply weather_mood_pairs_counted. }
      rewrite sum_occurrences by (by apply grid_keys_NoDup).
      f_equal. by apply counted_in_grid.
  - reflexivity.
  - intros [i1 ts1 d1 [t1 c1 r1 p1] tags1 pr1 tx1 wc1 u1]
           [i2 ts2 d2 [t2 c2 r2 p2] tags2 pr2 tx2 wc2 u2].
    cbn [weather condition mood_tags]. intros -> -> -> ->.
    split; vm_compute; reflexivity.
Qed.

(** C7, as stated, fails on entries whose conditions are not the fixed
    ones, where two pairs give one key, and on an entry that repeats a
    mood tag: a cell is then not the number of entries. *)
Lemma correlation_grid_miscounts :
  matrix [entry_with "a" ["b_c"]; entry_with "a_b" ["c"]]
    ≠ (λ w, (λ m, Z.of_nat
               (co_occurrences [entry_with "a" ["b_c"]; entry_with "a_b" ["c"]] w m))
            <$> moods [entry_with "a" ["b_c"]; entry_with "a_b" ["c"]])
        <$> weathers [entry_with "a" ["b_c"]; entry_with "a_b" ["c"]] ∧
  matrix [entry_with "rainy" ["cozy"; "cozy"]]
    ≠ (λ w, (λ m, Z.of_nat (co_occurrences [entry_with "rainy" ["cozy"; "cozy"]] w m))
            <$> moods [entry_with "rainy" ["cozy"; "cozy"]])
        <$> weathers [entry_with "rainy" ["cozy"; "cozy"]].
Proof. split; vm_compute; discriminate. Qed.

(** C7 on the two entries of the example. *)
Lemma correlation_grid_witness :
  matrix [entry_with "rainy" ["reflective"; "cozy"]; entry_with "sunny" ["energetic"]]
  = (λ w, (λ m, Z.of_nat
             (co_occurrences
                [entry_with "rainy" ["reflective"; "cozy"];
                 entry_with "sunny" ["energetic"]] w m))
          <$> moods [entry_with "rainy" ["reflective"; "cozy"];
                     entry_with "sunny" ["energetic"]])
      <$> weathers [entry_with "rainy" ["reflective"; "cozy"];
                    entry_with "sunny" ["energetic"]].
Proof.
  apply (proj1 correlation_grid).
  - constructor; [ | constructor; [ | constructor ] ];
      intros c Hc; vm_compute in Hc; injection Hc as <-;
      apply (bool_decide_unpack _); vm_compute; exact I.
  - constructor; [ | constructor; [ | constructor ] ];
      apply (bool_decide_unpack _); vm_compute; exact I.
Defined.


End CorrelationProps.

(** * More properties of the weather classifier *)

Module ClassifierProps.
Import Config WeatherHandler WeatherHandlerSpec PySpec PyProps CorrelationSpec ClassifierSpec.

Lemma first_keyword_match_None (description : string) (items : list (string * list string)) :
  first_keyword_match description items = None →
  Forall (λ row, Forall (λ kw, Py.contains kw description = false) row.2) items.
Proof.
  induction items as [|[c kws] items IH]; cbn [first_keyword_match]; [ constructor | ].
  destruct (existsb _ kws) eqn:Hex; [ discriminate | ].
  intros H. constructor; [ | auto ].
  cbn [snd]. apply Forall_forall. intros kw Hkw.
  destruct (Py.contains kw description) eqn:Hc; [ | reflexivity ].
  assert (existsb (λ keyword, Py.contains keyword description) kws = true) as Habs.
  { apply existsb_exists. exists kw. split; [ by apply list_elem_of_In | done ]. }
  congruence.
Qed.

Lemma first_keyword_match_Some (description : string)
    (items : list (string * list string)) (c : string) :
  first_keyword_match description items = Some c →
  ∃ before kws after,
    items = before ++ (c, kws) :: after ∧
    Forall (λ row, Forall (λ kw, Py.contains kw description = false) row.2) before ∧
    Exists (λ kw, Py.contains kw description = true) kws.
Proof.
  induction items as [|[c' kws] items IH]; cbn [first_keyword_match]; [ discriminate | ].
  destruct (existsb _ kws) eqn:Hex.
  - intros [= ->]. exists [], kws, items. split; [ reflexivity | ].
    split; [ constructor | ].
    apply existsb_exists in Hex as (kw & Hin & Hc).
    apply Exists_exists. exists kw. split; [ by apply list_elem_of_In | done ].
  - intros H. destruct (IH H) as (before & kws' & after & -> & Hb & He).
    exists ((c', kws) :: before), kws', after. split; [ reflexivity | ].
    split; [ | done ]. constructor; [ | done ].
    assert (first_keyword_match description [(c', kws)] = None) as Hn.
    { cbn [first_keyword_match]. by rewrite Hex. }
    apply first_keyword_match_None in Hn. by inversion Hn.
Qed.

(** [classify_weather_condition] returns the category of the first row of
    the keyword table, in the order of the table, one of whose keywords the
    lower-cased description holds; all rows before it are silent.  When
    every row is silent it returns 'partly_cloudy'. *)
Theorem classify_weather_condition_first_match (description : string) :
  (Forall (silent description) WEATHER_KEYWORDS ∧
   classify_weather_condition description = "partly_cloudy") ∨
  (∃ before keywords after,
     WEATHER_KEYWORDS
       = before ++ (classify_weather_condition description, keywords) :: after ∧
     Forall (silent description) before ∧
     Exists (λ keyword, mentions description keyword = true) keywords).
Proof.
  unfold classify_weather_condition.
  destruct (first_keyword_match (Py.lower description) WEATHER_KEYWORDS) as [c|] eqn:Hm.
  - right. apply first_keyword_match_Some in Hm as (before & kws & after & Heq & Hb & He).
    exists before, kws, after. done.
  - left. apply first_keyword_match_None in Hm. done.
Qed.


Lemma classify_weather_condition_range (description : string) :
  classify_weather_condition description ∈ CONDITIONS.
Proof.
  unfold classify_weather_condition.
  destruct (first_keyword_match (Py.lower description) WEATHER_KEYWORDS) as [c|] eqn:Hm.
  - apply first_keyword_match_Some in Hm as (before & kws & after & Heq & _).
    unfold CONDITIONS. rewrite Heq, fmap_app, fmap_cons.
    apply elem_of_app. right. left.
  - apply (bool_decide_unpack _). vm_compute. exact I.
Qed.

Lemma prefix_intro (s1 s2 : string) (rest : list ascii) :
  chars s2 = chars s1 ++ rest → String.prefix s1 s2 = true.
Proof.
  revert s2. induction s1 as [|a s1 IH]; intros [|b s2]; cbn; try done.
  intros [= -> H]. destruct (ascii_dec a a); [ eauto | done ].
Qed.

Lemma contains_intro (needle hay : string) (pre post : list ascii) :
  chars hay = pre ++ chars needle ++ post → Py.contains needle hay = true.
Proof.
  revert hay. induction pre as [|c pre IH]; intros hay H.
  - destruct hay; cbn [Py.contains]; erewrite prefix_intro by exact H; reflexivity.
  - destruct hay as [|b hay]; [ discriminate H | ].
    cbn [chars] in H. injection H as -> H.
    cbn [Py.contains]. rewrite (IH hay H). apply orb_true_r.
Qed.

Lemma contains_elim (needle hay : string) :
  Py.contains needle hay = true →
  ∃ pre post, chars hay = pre ++ chars needle ++ post.
Proof.
  induction hay as [|b hay IH]; cbn [Py.contains]; intros H.
  - rewrite orb_false_r in H. apply prefix_chars in H as [rest H].
    exists [], rest. done.
  - apply orb_true_iff in H as [H|H].
    + apply prefix_chars in H as [rest H]. exists [], rest. done.
    + destruct (IH H) as (pre & post & Heq).
      exists (b :: pre), post. cbn [chars]. by rewrite Heq.
Qed.

Lemma contains_trans (a b c : string) :
  Py.contains a b = true → Py.contains b c = true → Py.contains a c = true.
Proof.
  intros Hab Hbc.
  apply contains_elim in Hab as (p1 & q1 & H1).
  apply contains_elim in Hbc as (p2 & q2 & H2).
  apply (contains_intro a c (p2 ++ p1) (q1 ++ q2)).
  rewrite H2, H1. by rewrite <- !app_assoc.
Qed.

Lemma first_keyword_match_precedence (description : string)
    (items : list (string * list string)) (i : nat) (c kw : string) (kws : list string) :
  items !! i = Some (c, kws) → kw ∈ kws → Py.contains kw description = true →
  ∃ c', first_keyword_match description items = Some c' ∧
        c' ∈ take (S i) (fst <$> items).
Proof.
  intros Hi Hkw Hc. revert i Hi.
  induction items as [|[c0 k0] items IH]; intros i Hi; [ discriminate Hi | ].
  cbn [first_keyword_match].
  destruct (existsb _ k0) eqn:Hex.
  - exists c0. split; [ reflexivity | ]. left.
  - destruct i as [|i].
    + injection Hi as -> ->.
      assert (existsb (λ keyword, Py.contains keyword description) kws = true) as Habs.
      { apply existsb_exists. exists kw. split; [ by apply list_elem_of_In | done ]. }
      congruence.
    + destruct (IH i Hi) as (c' & Hm & Hc').
      exists c'. split; [ exact Hm | ]. right. exact Hc'.
Qed.

(** Precedence of the keyword table: a description that mentions a keyword
    of the row at index [i] is classified as that row's condition or as the
    condition of an earlier row, never as a later one. *)
Theorem classify_weather_condition_precedence
    (description condition keyword : string) (keywords : list string) (i : nat) :
  WEATHER_KEYWORDS !! i = Some (condition, keywords) →
  keyword ∈ keywords →
  mentions description keyword = true →
  classify_weather_condition description ∈ take (S i) CONDITIONS.
Proof.
  intros Hi Hkw Hm.
  destruct (first_keyword_match_precedence _ _ _ _ _ _ Hi Hkw Hm) as (c' & Hc' & Hel).
  unfold classify_weather_condition. by rewrite Hc'.
Qed.

(** "Thunderstorm with light rain" mentions "thunder", a keyword of the
    fifth row. *)
Lemma classify_weather_condition_precedence_witness :
  classify_weather_condition "Thunderstorm with light rain"
    ∈ take 5 CONDITIONS.
Proof.
  apply (classify_weather_condition_precedence
           "Thunderstorm with light rain" "stormy" "thunder"
           ["storm"; "thunder"; "lightning"; "severe"] 4).
  - reflexivity.
  - apply (bool_decide_unpack _). vm_compute. exact I.
  - reflexivity.
Defined.

(** The keyword "partly sunny" of 'partly_cloudy' never decides: a
    description that mentions it holds "sun", which the first row of the
    table catches, and is classified 'sunny'. *)
Theorem classify_weather_condition_partly_sunny (description : string) :
  mentions description "partly sunny" = true →
  classify_weather_condition description = "sunny".
Proof.
  intros Hm.
  assert (mentions description "sun" = true) as Hsun.
  { unfold mentions in *. apply (contains_trans _ "partly sunny"); [ reflexivity | done ]. }
  unfold classify_weather_condition, mentions in *.
  cbn [WEATHER_KEYWORDS first_keyword_match existsb]. by rewrite Hsun.
Qed.

(** The description "Partly sunny". *)
Lemma classify_weather_condition_partly_sunny_witness :
  classify_weather_condition "Partly sunny" = "sunny".
Proof. apply classify_weather_condition_partly_sunny. reflexivity. Defined.

(** The classifier read on its own results, and on the texts that the
    select box of the entry page passes: every condition name is classified
    as itself, except 'partly_cloudy', which holds "cloudy" and no keyword
    of its own row (these are written with a space) and is classified
    'cloudy'. *)
Theorem classify_weather_condition_of_name :
  (∀ description,
     classify_weather_condition (classify_weather_condition description)
     = if decide (classify_weather_condition description = "partly_cloudy")
       then "cloudy"
       else classify_weather_condition description) ∧
  (∀ label, label ∈ App.condition_options →
     classify_weather_condition (App.condition_text label)
     = if decide (label = "Partly Cloudy") then "cloudy" else App.condition_text label).
Proof.
  split.
  - intros d. pose proof (classify_weather_condition_range d) as H.
    revert H. generalize (classify_weather_condition d). intros c H.
    unfold CONDITIONS in H. cbn in H.
    repeat (apply elem_of_cons in H as [->|H]); [ reflexivity .. | by apply elem_of_nil in H ].
  - intros label H. unfold App.condition_options in H.
    repeat (apply elem_of_cons in H as [->|H]); [ reflexivity .. | by apply elem_of_nil in H ].
Qed.

(** Every manual sample is well formed: its condition is one of the eight
    conditions and has a row in the mood table, its temperature category
    is a key of the temperature table, the raw text and the precipitation
    flag are kept, and it is never 'cloudy' with precipitation. *)
Theorem get_weather_manual_well_formed
    (now : string) (t : Q) (c : string) (p : bool) :
  ∃ k cat,
    condition (get_weather_manual now t c p) = Some k ∧
    k ∈ CONDITIONS ∧
    is_Some (Py.lookup k WEATHER_MOOD_MAP) ∧
    temperature_category (get_weather_manual now t c p) = Some cat ∧
    is_Some (Py.lookup cat TEMP_MODIFIERS) ∧
    condition_raw (get_weather_manual now t c p) = Some c ∧
    precipitation (get_weather_manual now t c p) = p ∧
    ¬ (k = "cloudy" ∧ p = true).
Proof.
  eexists _, _. split; [ reflexivity | ].
  assert (adjust_condition p (classify_weather_condition c) ∈ CONDITIONS) as Hk.
  { unfold adjust_condition. destruct (p && _).
    - apply (bool_decide_unpack _). vm_compute. exact I.
    - apply classify_weather_condition_range. }
  split; [ exact Hk | ].
  split.
  { revert Hk. generalize (adjust_condition p (classify_weather_condition c)).
    intros k Hk. unfold CONDITIONS in Hk. cbn in Hk.
    repeat (apply elem_of_cons in Hk as [->|Hk]);
      [ by eexists .. | by apply elem_of_nil in Hk ]. }
  split; [ reflexivity | ].
  split.
  { destruct (WeatherHandlerProps.classify_temperature_bands t)
      as [[_ ->]|[[_ ->]|[[_ ->]|[[_ ->]|[[_ ->]|[[_ ->]|[_ ->]]]]]]]; by eexists. }
  split; [ reflexivity | ].
  split; [ reflexivity | ].
  unfold adjust_condition. intros [Hk' ->]. cbn [andb] in Hk'.
  case_bool_decide; [ discriminate Hk' | contradiction ].
Qed.

(** [classify_temperature] returns the category with the highest threshold
    that the temperature reaches; when the temperature is below zero no
    threshold is reached and the category is 'very_cold'. *)
Theorem classify_temperature_highest_reached (t : Q) :
  ∃ th,
    category_threshold (classify_temperature t) = Some th ∧
    (∀ c' th', category_threshold c' = Some th' → (inject_Z th' <= t)%Q → th' ≤ th) ∧
    ((inject_Z th <= t)%Q ∨ ((t < 0)%Q ∧ classify_temperature t = "very_cold")).
Proof.
  assert (∀ c' th', category_threshold c' = Some th' →
                    th' ∈ [0; 10; 15; 20; 25; 30; 35]) as Hth.
  { intros c' th'. unfold category_threshold.
    destruct (Py.lookup c' TEMP_MODIFIERS) as [info|] eqn:Hl; [ | discriminate ].
    intros [= <-]. apply lookup_elem_of in Hl. unfold TEMP_MODIFIERS in Hl.
    repeat (apply elem_of_cons in Hl as [[= -> ->]|Hl]);
      [ apply (bool_decide_unpack _); vm_compute; exact I ..
      | by apply elem_of_nil in Hl ]. }
  destruct (WeatherHandlerProps.classify_temperature_bands t)
    as [[H ->]|[[H ->]|[[H ->]|[[H ->]|[[H ->]|[[H ->]|[H ->]]]]]]];
    (eexists; split; [ reflexivity | ]; split;
     [ intros c' th' Hc' Hle; specialize (Hth c' th' Hc');
       repeat (apply elem_of_cons in Hth as [->|Hth]);
       [ unfold inject_Z in Hle; first [ by vm_compute | exfalso; lra ] ..
       | by apply elem_of_nil in Hth ]
     | ]).
  1-6: left; unfold inject_Z; cbn; lra.
  destruct (Qlt_le_dec t 0) as [Hneg|Hpos].
  - right. split; [ exact Hneg | reflexivity ].
  - left. exact Hpos.
Qed.

End ClassifierProps.

(** * Properties of the weather service and its cache *)

Module WeatherApiProps.
Import Config WeatherHandler WeatherHandlerSpec PySpec PyProps CountProps CorrelationSpec
  ClassifierSpec ClassifierProps.

(** The cache behind [get_weather_api].  Without a key the call returns
    [None] and leaves the cache alone.  A failed request returns what the
    cache holds for the city and does not write.  After a successful
    request for a city, a failed request for the same city returns the
    sample of the successful one, and failed requests for other cities
    return what they returned before. *)
Theorem get_weather_api_cache :
  (∀ key now city response c,
     no_key key = true → get_weather_api key now city response c = (None, c)) ∧
  (∀ key now city c,
     get_weather_api key now city None c
     = (if no_key key then None else _get_cached_weather city c, c)) ∧
  (∀ key now now' city data c,
     no_key key = false →
     (get_weather_api key now city (Some data) c).1 = Some (api_sample now city data) ∧
     (get_weather_api key now' city None (get_weather_api key now city (Some data) c).2).1
     = Some (api_sample now city data) ∧
     ∀ city', city' ≠ city →
       (get_weather_api key now' city' None
          (get_weather_api key now city (Some data) c).2).1
       = (get_weather_api key now' city' None c).1).
Proof.
  split; [ | split ].
  - intros key now city response c Hk. unfold get_weather_api. by rewrite Hk.
  - intros key now city c. unfold get_weather_api. by destruct (no_key key).
  - intros key now now' city data c Hk. unfold get_weather_api. rewrite Hk.
    cbn [fst snd]. split; [ reflexivity | ].
    unfold _get_cached_weather, _cache_weather. split.
    + rewrite lookup_set. by rewrite bool_decide_eq_true_2.
    + intros city' Hne. rewrite lookup_set. by rewrite bool_decide_eq_false_2.
Qed.

(** The sample built from an answer of the service: its condition is the
    classified description, one of the eight conditions; its temperature
    category is a key of the temperature table; with the precipitation flag
    set the condition is never 'foggy' or 'windy'.  Unlike a manual sample
    it can be 'cloudy' with precipitation: the adjustment to 'rainy' is
    not applied on this path. *)
Theorem api_sample_well_formed :
  (∀ now city data,
     ∃ k cat,
       condition (api_sample now city data).1 = Some k ∧
       k = classify_weather_condition (weather_description data) ∧
       k ∈ CONDITIONS ∧
       temperature_category (api_sample now city data).1 = Some cat ∧
       is_Some (Py.lookup cat TEMP_MODIFIERS) ∧
       (precipitation (api_sample now city data).1 = true →
        k ∈ ["sunny"; "partly_cloudy"; "cloudy"; "rainy"; "stormy"; "snowy"])) ∧
  (∃ now city data,
     condition (api_sample now city data).1 = Some "cloudy" ∧
     precipitation (api_sample now city data).1 = true).
Proof.
  split.
  - intros now city data. eexists _, _.
    split; [ reflexivity | ]. split; [ reflexivity | ].
    split; [ apply classify_weather_condition_range | ].
    split; [ reflexivity | ].
    split.
    { destruct (WeatherHandlerProps.classify_temperature_bands (main_temp data))
        as [[_ ->]|[[_ ->]|[[_ ->]|[[_ ->]|[[_ ->]|[[_ ->]|[_ ->]]]]]]]; by eexists. }
    cbn [api_sample fst precipitation]. intros Hp.
    apply orb_true_iff in Hp as [Hp|Hp].
    + destruct (first_keyword_match_precedence (Py.lower (weather_description data))
                  WEATHER_KEYWORDS 3 "rainy" "rain"
                  ["rain"; "rainy"; "drizzle"; "shower"; "precipitation"])
        as (k & Hk & Hin); [ reflexivity | left | exact Hp | ].
      unfold classify_weather_condition. rewrite Hk. cbn [default].
      cbn in Hin.
      repeat (apply elem_of_cons in Hin as [->|Hin]);
        [ apply (bool_decide_unpack _); vm_compute; exact I ..
        | by apply elem_of_nil in Hin ].
    + destruct (first_keyword_match_precedence (Py.lower (weather_description data))
                  WEATHER_KEYWORDS 5 "snowy" "snow"
                  ["snow"; "snowy"; "flurries"; "blizzard"])
        as (k & Hk & Hin); [ reflexivity | left | exact Hp | ].
      unfold classify_weather_condition. rewrite Hk. exact Hin.
  - exists "", "", {| main_temp := 0; weather_description := "overcast clouds, rain nearby";
                      main_humidity := 0; wind_speed_of := 0 |}.
    split; reflexivity.
Qed.

End WeatherApiProps.

(** * The moods and the number of the generated prompts *)

Module PromptTraceProps.
Import Config WeatherHandler PromptGenerator PySpec PyProps GeneratePromptsSpec
  GeneratePromptsProps PromptTraceSpec.

Lemma draw_trace (weather_desc condition m : string) (primary : bool) (t0 : string)
    (available : list string) (st st' : state) :
  available ≠ [] →
  draw weather_desc condition m primary t0 available st = Some st' →
  ∃ t r,
    t ∈ available ∧
    fill weather_desc condition t = Some r ∧
    st'.1.1 = st.1.1 ++ [ {| mood := m; text := r; is_primary := primary |} ] ∧
    st'.1.2 = {[ t ]} ∪ st.1.2.
Proof.
  destruct st as [[prompts used] g]. intros Hne. unfold draw.
  pose proof (choice_elem_of t0 available g Hne) as Hin.
  destruct (Py.choice t0 available g) as [template g']. cbn [fst] in Hin.
  destruct (fill weather_desc condition template) as [r|] eqn:Hr; [ | discriminate ].
  cbn [mbind option_bind]. intros [= <-]. exists template, r. done.
Qed.

Lemma size_used_fresh (t : string) (used : gset string) :
  t ∉ used → size ({[ t ]} ∪ used) = S (size used).
Proof.
  intros Hfresh. rewrite size_union by (by apply disjoint_singleton_l).
  by rewrite size_singleton.
Qed.

Lemma mood_loop_trace (num_prompts : Z) (weather_desc condition primary_mood : string)
    (all_moods : list string) (st st' : state) :
  mood_loop num_prompts weather_desc condition primary_mood all_moods st = Some st' →
  ∃ new,
    st'.1.1 = st.1.1 ++ new ∧
    (mood <$> new) `sublist_of` all_moods ∧
    Forall (rendered weather_desc condition primary_mood) new ∧
    size st'.1.2 = (size st.1.2 + length new)%nat.
Proof.
  revert st. induction all_moods as [|m all_moods IH]; intros st; cbn [mood_loop].
  - intros [= <-]. exists []. rewrite app_nil_r. repeat split; [ constructor | constructor | cbn; lia ].
  - destruct (Z.of_nat (length st.1.1) >=? num_prompts).
    { intros [= <-]. exists []. rewrite app_nil_r.
      repeat split; [ apply sublist_nil_l | constructor | cbn; lia ]. }
    assert (∀ st0, mood_loop num_prompts weather_desc condition primary_mood all_moods st0
                   = Some st' →
              ∃ new, st'.1.1 = st0.1.1 ++ new ∧ (mood <$> new) `sublist_of` m :: all_moods ∧
                     Forall (rendered weather_desc condition primary_mood) new ∧
                     size st'.1.2 = (size st0.1.2 + length new)%nat) as Hskip.
    { intros st0 H. destruct (IH st0 H) as (new & ? & ? & ? & ?).
      exists new. repeat split; [ done | by apply sublist_cons | done | done ]. }
    destruct (Py.lookup m PROMPT_TEMPLATES) as [mood_templates|] eqn:Hl; [ | apply Hskip ].
    destruct (available_templates st.1.2 mood_templates) as [|t0 rest] eqn:Hav;
      [ apply Hskip | ].
    destruct (draw weather_desc condition m (bool_decide (m = primary_mood)) t0
                (t0 :: rest) st) as [st1|] eqn:Hd; [ | discriminate ].
    cbn [mbind option_bind]. intros H.
    apply draw_trace in Hd as (t & r & Ht & Hr & Hp1 & Hu1); [ | done ].
    destruct (IH st1 H) as (new & Hp & Hsub & Hall & Hsize).
    exists ({| mood := m; text := r; is_primary := bool_decide (m = primary_mood) |} :: new).
    rewrite <- Hav in Ht. apply list_elem_of_filter in Ht as [Hfresh Ht].
    split; [ rewrite Hp, Hp1, <- app_assoc; reflexivity | ].
    split; [ cbn; by apply sublist_skip | ].
    split.
    + constructor; [ | done ]. split; [ reflexivity | ].
      exists mood_templates, t. done.
    + rewrite Hsize, Hu1, size_used_fresh by done. cbn [length]. lia.
Qed.

Lemma top_up_trace (missing : nat) (weather_desc condition primary_mood : string)
    (st st' : state) :
  top_up missing weather_desc condition primary_mood st = Some st' →
  ∃ new,
    st'.1.1 = st.1.1 ++ new ∧
    Forall (λ p, mood p = primary_mood ∧ rendered weather_desc condition primary_mood p) new ∧
    size st'.1.2 = (size st.1.2 + length new)%nat ∧
    (length new = missing ∨
     ∀ primary_templates t,
       Py.lookup primary_mood PROMPT_TEMPLATES = Some primary_templates →
       t ∈ primary_templates → t ∈ st'.1.2) ∧
    (Py.lookup primary_mood PROMPT_TEMPLATES = None → new = []).
Proof.
  assert (∀ (k : nat) (st : state),
            (0 = k ∨
             ∀ primary_templates t,
               Py.lookup primary_mood PROMPT_TEMPLATES = Some primary_templates →
               t ∈ primary_templates → t ∈ st.1.2)%nat →
            ∃ new : list prompt,
              st.1.1 = st.1.1 ++ new ∧
              Forall (λ p, mood p = primary_mood ∧
                           rendered weather_desc condition primary_mood p) new ∧
              size st.1.2 = (size st.1.2 + length new)%nat ∧
              (length new = k ∨
               ∀ primary_templates t,
                 Py.lookup primary_mood PROMPT_TEMPLATES = Some primary_templates →
                 t ∈ primary_templates → t ∈ st.1.2) ∧
              (Py.lookup primary_mood PROMPT_TEMPLATES = None → new = [])) as Hstop.
  { intros k st0 H. exists []. rewrite app_nil_r.
    split; [ reflexivity | ]. split; [ constructor | ].
    split; [ cbn; lia | ]. split; [ exact H | done ]. }
  revert st. induction missing as [|missing IH]; intros st; cbn [top_up].
  - intros [= <-]. apply Hstop. by left.
  - destruct (Py.lookup primary_mood PROMPT_TEMPLATES) as [primary_templates|] eqn:Hl.
    2: { intros [= <-]. apply Hstop. right. intros ? ? [=]. }
    destruct (available_templates st.1.2 primary_templates) as [|t0 rest] eqn:Hav.
    { intros [= <-]. apply Hstop.
      right. intros ? t [= <-] Ht.
      destruct (decide (t ∈ st.1.2)) as [|Hfresh]; [ done | ].
      assert (t ∈ available_templates st.1.2 primary_templates) as Habs
        by (by apply list_elem_of_filter).
      rewrite Hav in Habs. by apply elem_of_nil in Habs. }
    destruct (draw weather_desc condition primary_mood true t0 (t0 :: rest) st)
      as [st1|] eqn:Hd; [ | discriminate ].
    cbn [mbind option_bind]. intros H.
    apply draw_trace in Hd as (t & r & Ht & Hr & Hp1 & Hu1); [ | done ].
    destruct (IH st1 H) as (new & Hp & Hall & Hsize & Hend & _).
    exists ({| mood := primary_mood; text := r; is_primary := true |} :: new).
    rewrite <- Hav in Ht. apply list_elem_of_filter in Ht as [Hfresh Ht].
    split; [ rewrite Hp, Hp1, <- app_assoc; reflexivity | ].
    split.
    { constructor; [ | done ]. split; [ reflexivity | ]. split.
      - cbn. by rewrite bool_decide_eq_true_2.
      - exists primary_templates, t. done. }
    split; [ rewrite Hsize, Hu1, size_used_fresh by done; cbn [length]; lia | ].
    split; [ | discriminate ].
    destruct Hend as [Hlen|Hall']; [ left; cbn [length]; lia | by right ].
Qed.


Lemma generate_prompts_run (wd : weather_data) (n : nat) (g : Py.rng) :
  ∃ primary secondary st1 st2,
    determine_moods wd = Some (primary, secondary) ∧
    mood_loop (Z.of_nat n) (weather_desc_of wd) (condition_of wd) primary
      (primary :: secondary) ([], ∅, g) = Some st1 ∧
    top_up (Z.to_nat (Z.of_nat n - Z.of_nat (length st1.1.1)))
      (weather_desc_of wd) (condition_of wd) primary st1 = Some st2 ∧
    generate_prompts wd (Z.of_nat n) g = Some (Py.shuffle st2.1.1 st2.2).1 ∧
    (length st1.1.1 ≤ n)%nat ∧ (length st2.1.1 ≤ n)%nat.
Proof.
  unfold generate_prompts, weather_desc_of, condition_of.
  set (cond := default "partly_cloudy" (condition wd)).
  destruct (Py.lookup "partly_cloudy" WEATHER_MOOD_MAP) as [fallback|] eqn:Hf;
    [ | discriminate Hf ].
  cbn [mbind option_bind].
  destruct (DetermineMoodsProps.determine_moods_returns wd)
    as (primary & secondary & ->).
  cbn [mbind option_bind].
  set (desc := description (Py.get WEATHER_MOOD_MAP cond fallback)).
  assert (Hdesc : forallb plain (chars desc) = true).
  { destruct (DetermineMoodsProps.mood_info_in_table cond fallback Hf) as [k Hin].
    pose proof descriptions_plain as Hall. rewrite Forall_forall in Hall.
    apply (Hall _ Hin). }
  assert (Hinv0 : inv desc cond ([], ∅, g)).
  { exists []. split; [ constructor | ]. split; constructor. }
  destruct (mood_loop_inv desc cond Hdesc n primary (primary :: secondary) _ Hinv0)
    as (st1 & Hst1 & Hinv1 & Hlen1).
  destruct (top_up_inv desc cond Hdesc
              (Z.to_nat (Z.of_nat n - Z.of_nat (length st1.1.1))) primary st1 Hinv1)
    as (st2 & Hst2 & Hinv2 & Hlen2).
  exists primary, secondary, st1, st2.
  split; [ reflexivity | ]. split; [ exact Hst1 | ]. split; [ exact Hst2 | ].
  rewrite Hst1. cbn [mbind option_bind]. rewrite Hst2. cbn [mbind option_bind].
  split; [ reflexivity | ]. cbn [fst snd length] in *. lia.
Qed.

Lemma generate_prompts_trace (wd : weather_data) (n : nat) (g : Py.rng) :
  ∃ prompts primary secondary first more,
    generate_prompts wd (Z.of_nat n) g = Some prompts ∧
    determine_moods wd = Some (primary, secondary) ∧
    prompts ≡ₚ first ++ more ∧
    (mood <$> first) `sublist_of` (primary :: secondary) ∧
    Forall (λ p, mood p = primary) more ∧
    Forall (rendered (weather_desc_of wd) (condition_of wd) primary) prompts.
Proof.
  destruct (generate_prompts_run wd n g)
    as (primary & secondary & st1 & st2 & Hm & H1 & H2 & Hg & _).
  apply mood_loop_trace in H1 as (first & Hp1 & Hsub & Hall1 & _).
  apply top_up_trace in H2 as (more & Hp2 & Hall2 & _).
  cbn [fst snd app] in Hp1.
  exists (Py.shuffle st2.1.1 st2.2).1, primary, secondary, first, more.
  split; [ exact Hg | ]. split; [ exact Hm | ].
  assert ((Py.shuffle st2.1.1 st2.2).1 ≡ₚ first ++ more) as Hperm.
  { etrans; [ apply shuffle_Permutation | ]. by rewrite Hp2, Hp1. }
  split; [ exact Hperm | ]. split; [ exact Hsub | ].
  split; [ eapply Forall_impl; [ exact Hall2 | ]; by intros p [? _] | ].
  rewrite Hperm. apply Forall_app. split; [ exact Hall1 | ].
  eapply Forall_impl; [ exact Hall2 | ]. by intros p [_ ?].
Qed.

(** The moods of the generated prompts.  Up to their order, the prompts are
    a first part, whose moods form a sublist of the primary mood followed
    by the secondary moods (one prompt per mood at most, in that order),
    and a second part of prompts of the primary mood.  A prompt is flagged
    as primary exactly when its mood is the primary mood, and its text is
    a template of its own mood, filled in. *)
Theorem generate_prompts_moods (wd : weather_data) (n : nat) (g : Py.rng) :
  ∃ prompts primary secondary first more,
    generate_prompts wd (Z.of_nat n) g = Some prompts ∧
    determine_moods wd = Some (primary, secondary) ∧
    prompts ≡ₚ first ++ more ∧
    (mood <$> first) `sublist_of` (primary :: secondary) ∧
    Forall (λ p, mood p = primary ∧ is_primary p = true) more ∧
    Forall (λ p, is_primary p = true ↔ mood p = primary) prompts ∧
    Forall (rendered (weather_desc_of wd) (condition_of wd) primary) prompts.
Proof.
  destruct (generate_prompts_trace wd n g)
    as (prompts & primary & secondary & first & more & Hg & Hm & Hperm & Hsub & Hmore & Hall).
  exists prompts, primary, secondary, first, more.
  split; [ exact Hg | ]. split; [ exact Hm | ]. split; [ exact Hperm | ].
  split; [ exact Hsub | ].
  assert (Forall (λ p, is_primary p = true ↔ mood p = primary) prompts) as Hflag.
  { eapply Forall_impl; [ exact Hall | ]. intros p [-> _].
    split; [ apply bool_decide_eq_true_1 | apply bool_decide_eq_true_2 ]. }
  split; [ | split; [ exact Hflag | exact Hall ] ].
  rewrite Forall_forall in Hmore, Hflag. apply Forall_forall. intros p Hp.
  split; [ by apply Hmore | ]. apply Hflag; [ | by apply Hmore ].
  rewrite Hperm. apply elem_of_app. by right.
Qed.

Lemma templates_NoDup :
  Forall (λ kv, NoDup kv.2 ∧ length kv.2 = 5%nat) PROMPT_TEMPLATES.
Proof. apply (bool_decide_unpack _). vm_compute. exact I. Qed.

Lemma primary_has_templates (wd : weather_data) (primary : string)
    (secondary : list string) :
  condition_of wd ≠ "foggy" →
  determine_moods wd = Some (primary, secondary) →
  ∃ ts, Py.lookup primary PROMPT_TEMPLATES = Some ts.
Proof.
  unfold determine_moods, condition_of. intros Hc.
  destruct (Py.lookup "partly_cloudy" WEATHER_MOOD_MAP) as [fallback|] eqn:Hf;
    [ | discriminate Hf ].
  cbn [mbind option_bind]. intros [= <- _].
  destruct (get_cases WEATHER_MOOD_MAP (default "partly_cloudy" (condition wd)) fallback)
    as [[_ ->]|Hin].
  - injection Hf as <-. by eexists.
  - revert Hin Hc.
    generalize (Py.get WEATHER_MOOD_MAP (default "partly_cloudy" (condition wd)) fallback).
    generalize (default "partly_cloudy" (condition wd)).
    intros c info Hin Hc. unfold WEATHER_MOOD_MAP in Hin.
    repeat (apply elem_of_cons in Hin as [[= -> ->]|Hin]);
      [ first [ by destruct Hc | eexists; reflexivity ] .. | by apply elem_of_nil in Hin ].
Qed.

Lemma mood_loop_primary_first (n : nat) (weather_desc condition primary : string)
    (secondary ts : list string) (g : Py.rng) (st1 : state) :
  n ≠ 0%nat →
  Py.lookup primary PROMPT_TEMPLATES = Some ts → ts ≠ [] →
  mood_loop (Z.of_nat n) weather_desc condition primary (primary :: secondary) ([], ∅, g)
    = Some st1 →
  Exists (λ p, is_primary p = true) st1.1.1.
Proof.
  intros Hn Hl Hts. cbn [mood_loop fst snd length].
  replace (Z.of_nat 0 >=? Z.of_nat n) with false by (symmetry; rewrite Z.geb_leb; apply Z.leb_gt; lia).
  rewrite Hl.
  destruct (available_templates ∅ ts) as [|t0 rest] eqn:Hav.
  { destruct ts as [|t ts]; [ done | ].
    assert (t ∈ available_templates ∅ (t :: ts)) as Habs.
    { apply list_elem_of_filter. split; [ apply not_elem_of_empty | left ]. }
    rewrite Hav in Habs. by apply elem_of_nil in Habs. }
  destruct (draw weather_desc condition primary (bool_decide (primary = primary)) t0
              (t0 :: rest) ([], ∅, g)) as [st0|] eqn:Hd; [ | discriminate ].
  cbn [mbind option_bind]. intros H.
  apply draw_trace in Hd as (t & r & _ & _ & Hp0 & _); [ | done ].
  apply mood_loop_trace in H as (new & Hp & _).
  rewrite Hp, Hp0. cbn [fst snd app]. apply Exists_cons_hd.
  cbn. by rewrite bool_decide_eq_true_2.
Qed.

(** Unless the condition is 'foggy', a request for at most five prompts is
    met exactly, and if it asks for one prompt or more, some prompt is of
    the primary mood. *)
Theorem generate_prompts_exact_count (wd : weather_data) (n : nat) (g : Py.rng) :
  condition_of wd ≠ "foggy" →
  (n ≤ 5)%nat →
  ∃ prompts,
    generate_prompts wd (Z.of_nat n) g = Some prompts ∧
    length prompts = n ∧
    (n ≠ 0%nat → Exists (λ p, is_primary p = true) prompts).
Proof.
  intros Hc Hn.
  destruct (generate_prompts_run wd n g)
    as (primary & secondary & st1 & st2 & Hm & H1 & H2 & Hg & Hlen1 & Hlen2).
  destruct (primary_has_templates wd primary secondary Hc Hm) as [ts Hl].
  assert (NoDup ts ∧ length ts = 5%nat) as [Hnd Hlen].
  { pose proof templates_NoDup as Hall. rewrite Forall_forall in Hall.
    apply (Hall (primary, ts)). by apply lookup_elem_of. }
  pose proof H1 as H1'.
  apply mood_loop_trace in H1' as (first & Hp1 & _ & _ & Hsize1).
  pose proof H2 as H2'.
  apply top_up_trace in H2' as (more & Hp2 & _ & Hsize2 & Hend & _).
  cbn [fst snd app] in Hp1, Hsize1. rewrite size_empty in Hsize1.
  pose proof (shuffle_Permutation st2.1.1 st2.2) as Hperm.
  eexists. split; [ exact Hg | ]. split.
  - rewrite Hperm.
    assert (length st2.1.1 = (length st1.1.1 + length more)%nat) as Hlen2'
      by (by rewrite Hp2, length_app).
    destruct Hend as [Hmissing|Hall]; [ lia | ].
    assert (size (list_to_set ts : gset string) ≤ size st2.1.2)%nat as Hle.
    { apply subseteq_size. intros t Ht. apply elem_of_list_to_set in Ht. by eapply Hall. }
    rewrite size_list_to_set in Hle by done.
    rewrite Hp1 in Hlen2'. cbn [fst snd] in *. lia.
  - intros Hn0. rewrite Hperm, Hp2. apply Exists_app. left.
    eapply mood_loop_primary_first; [ exact Hn0 | exact Hl | | exact H1 ].
    intros ->. discriminate Hlen.
Qed.

(** Five prompts for a clear sky at 21 degrees. *)
Lemma generate_prompts_exact_count_witness :
  ∃ prompts,
    generate_prompts
      (get_weather_manual "2024-05-01T08:00:00" 21 "clear sky" false) 5 (λ _, 0%nat)
      = Some prompts ∧
    length prompts = 5%nat ∧
    (5 ≠ 0 → Exists (λ p, is_primary p = true) prompts)%nat.
Proof.
  apply (generate_prompts_exact_count
           (get_weather_manual "2024-05-01T08:00:00" 21 "clear sky" false) 5 (λ _, 0%nat)).
  - vm_compute. discriminate.
  - lia.
Defined.


Lemma sublist_filter_r {A : Type} (P : A → bool) (l1 l2 : list A) :
  l1 `sublist_of` l2 → Forall (λ x, P x = true) l1 →
  l1 `sublist_of` filter (λ x, P x) l2.
Proof.
  induction 1 as [|x l1 l2 Hsub IH|x l1 l2 Hsub IH]; intros Hall.
  - constructor.
  - apply Forall_cons in Hall as [Hx Hall].
    rewrite filter_cons_True by (by rewrite Hx). apply sublist_skip. auto.
  - destruct (P x) eqn:Hx.
    + rewrite filter_cons_True by (by rewrite Hx). apply sublist_cons. auto.
    + rewrite filter_cons_False by (rewrite Hx; exact (λ x, x)). auto.
Qed.

Lemma generate_prompts_without_primary_templates
    (wd : weather_data) (n : nat) (g : Py.rng) (primary : string)
    (secondary : list string) :
  determine_moods wd = Some (primary, secondary) →
  Py.lookup primary PROMPT_TEMPLATES = None →
  ∃ prompts,
    generate_prompts wd (Z.of_nat n) g = Some prompts ∧
    (length prompts ≤ length (filter (λ m, has_templates m) secondary))%nat ∧
    Forall (λ p, is_primary p = false) prompts.
Proof.
  intros Hm Hl.
  destruct (generate_prompts_run wd n g)
    as (primary' & secondary' & st1 & st2 & Hm' & H1 & H2 & Hg & _).
  rewrite Hm in Hm'. injection Hm' as <- <-.
  apply mood_loop_trace in H1 as (first & Hp1 & Hsub & Hall1 & _).
  apply top_up_trace in H2 as (more & Hp2 & _ & _ & _ & Hmore).
  rewrite (Hmore Hl), app_nil_r, Hp1 in Hp2. cbn [fst snd app] in Hp2.
  pose proof (shuffle_Permutation st2.1.1 st2.2) as Hperm. rewrite Hp2 in Hperm at 2.
  eexists. split; [ exact Hg | ]. rewrite Hperm. split.
  - apply (sublist_filter_r has_templates) in Hsub.
    + apply sublist_length in Hsub. rewrite length_fmap in Hsub.
      rewrite filter_cons_False in Hsub; [ exact Hsub | ].
      unfold has_templates. rewrite Hl. exact (λ x, x).
    + apply Forall_fmap. eapply Forall_impl; [ exact Hall1 | ].
      intros p (_ & ts & t & Hts & _). cbn. unfold has_templates. by rewrite Hts.
  - eapply Forall_impl; [ exact Hall1 | ].
    intros p (Hflag & ts & t & Hts & _). rewrite Hflag.
    apply bool_decide_eq_false_2. intros Heq. congruence.
Qed.

(** For the condition 'foggy' the primary mood, 'mysterious', has no
    templates: whatever the count asked for, at most two prompts are made
    and none of them is flagged as primary. *)
Theorem generate_prompts_foggy (wd : weather_data) (n : nat) (g : Py.rng) :
  condition wd = Some "foggy" →
  ∃ prompts,
    generate_prompts wd (Z.of_nat n) g = Some prompts ∧
    (length prompts ≤ 2)%nat ∧
    Forall (λ p, is_primary p = false) prompts.
Proof.
  intros Hfoggy.
  destruct (DetermineMoodsProps.determine_moods_returns wd)
    as (primary & secondary & Hm).
  pose proof Hm as Hm'. unfold determine_moods in Hm'. rewrite Hfoggy in Hm'.
  assert (primary = "mysterious" ∧
          (length (filter (λ m, has_templates m) secondary) ≤ 2)%nat) as [-> Hlen].
  { destruct (Py.lookup (default "mild" (temperature_category wd)) TEMP_MODIFIERS)
      as [ti|] eqn:Hti.
    - apply lookup_elem_of in Hti. unfold TEMP_MODIFIERS in Hti.
      repeat (apply elem_of_cons in Hti as [[= _ ->]|Hti]);
        [ vm_compute in Hm'; injection Hm' as <- <-;
          (split; [ reflexivity | vm_compute; lia ]) ..
        | by apply elem_of_nil in Hti ].
    - vm_compute in Hm'. injection Hm' as <- <-. split; [ reflexivity | vm_compute; lia ]. }
  destruct (generate_prompts_without_primary_templates wd n g _ _ Hm)
    as (prompts & Hg & Hle & Hall); [ reflexivity | ].
  exists prompts. split; [ exact Hg | ]. split; [ lia | exact Hall ].
Qed.


(** Five prompts asked for fog at 21 degrees. *)
Lemma generate_prompts_foggy_witness :
  ∃ prompts,
    generate_prompts
      (get_weather_manual "2024-05-01T08:00:00" 21 "Foggy" false) 5 (λ _, 0%nat)
      = Some prompts ∧
    (length prompts ≤ 2)%nat ∧
    Forall (λ p, is_primary p = false) prompts.
Proof.
  apply (generate_prompts_foggy
           (get_weather_manual "2024-05-01T08:00:00" 21 "Foggy" false) 5 (λ _, 0%nat)).
  reflexivity.
Defined.

Lemma lookup_is_Some {V : Type} (k : string) (d : list (string * V)) :
  is_Some (Py.lookup k d) ↔ k ∈ d.*1.
Proof.
  induction d as [|[k' v] d IH]; cbn [Py.lookup fmap list_fmap fst].
  - split; [ by intros [? [=]] | by intros ?%elem_of_nil ].
  - destruct (String.eqb k' k) eqn:Hk.
    + apply String.eqb_eq in Hk as ->. split; [ left | by eexists ].
    + apply String.eqb_neq in Hk. rewrite IH. split; [ by right | ].
      intros [->|H]%elem_of_cons; done.
Qed.

(** [suggest_writing_style] has a tip of its own exactly for the moods that
    have templates, so every generated prompt gets a tip of its own and
    never the default one. *)
Theorem suggest_writing_style_of_prompts :
  (∀ m, suggest_writing_style m ≠ "Write authentically from your current state."
        ↔ is_Some (Py.lookup m PROMPT_TEMPLATES)) ∧
  (∀ wd n g,
     ∃ prompts,
       generate_prompts wd (Z.of_nat n) g = Some prompts ∧
       Forall (λ p, suggest_writing_style (mood p)
                    ≠ "Write authentically from your current state.") prompts).
Proof.
  assert (∀ m, suggest_writing_style m ≠ "Write authentically from your current state."
               ↔ is_Some (Py.lookup m PROMPT_TEMPLATES)) as Hstyle.
  { intros m. rewrite lookup_is_Some.
    change (PROMPT_TEMPLATES.*1) with (styles.*1). rewrite <- lookup_is_Some.
    unfold suggest_writing_style.
    destruct (get_cases styles m "Write authentically from your current state.")
      as [[Hn ->]|Hin].
    - rewrite Hn. split; [ done | by intros [? [=]] ].
    - split.
      + intros _. apply lookup_is_Some, list_elem_of_fmap. by eexists (_, _).
      + intros _. revert Hin.
        generalize (Py.get styles m "Write authentically from your current state.").
        intros v Hin. unfold styles in Hin.
        repeat (apply elem_of_cons in Hin as [[= -> ->]|Hin]);
          [ discriminate .. | by apply elem_of_nil in Hin ]. }
  split; [ exact Hstyle | ].
  intros wd n g.
  destruct (generate_prompts_trace wd n g)
    as (prompts & primary & secondary & first & more & Hg & _ & _ & _ & _ & Hall).
  exists prompts. split; [ exact Hg | ].
  eapply Forall_impl; [ exact Hall | ].
  intros p (_ & ts & t & Hts & _). apply Hstyle. by eexists.
Qed.

End PromptTraceProps.

(** * The mood tags of a saved entry *)

Module MoodTagsProps.
Import Config WeatherHandler PromptGenerator PySpec PyProps DetermineMoodsSpec
  DetermineMoodsProps.

Lemma foldl_merge_mood (primary : string) (temp_moods secondary : list string) :
  ∃ extra,
    foldl (merge_mood primary) secondary temp_moods = secondary ++ extra ∧
    extra `sublist_of` temp_moods.
Proof.
  revert secondary. induction temp_moods as [|m temp_moods IH]; intros secondary;
    cbn [foldl].
  - exists []. by rewrite app_nil_r.
  - destruct (IH (merge_mood primary secondary m)) as (extra & -> & Hsub).
    unfold merge_mood. destruct (_ && _).
    + exists (m :: extra). rewrite <- app_assoc. split; [ reflexivity | ].
      by apply sublist_skip.
    + exists extra. split; [ reflexivity | ]. by apply sublist_cons.
Qed.

Lemma mood_table_shape :
  Forall (λ kv, length (secondary_moods kv.2) = 2%nat) WEATHER_MOOD_MAP ∧
  Forall (λ kv, length (moods kv.2) = 2%nat) TEMP_MODIFIERS.
Proof. split; apply (bool_decide_unpack _); vm_compute; exact I. Qed.

Lemma mood_tags_shape (wd : weather_data) :
  ∃ k info extra,
    (k, info) ∈ WEATHER_MOOD_MAP ∧
    info = Py.get WEATHER_MOOD_MAP (default "partly_cloudy" (condition wd))
             {| primary_mood := "calm"; secondary_moods := ["reflective"; "balanced"];
                description := "mixed and transitional" |} ∧
    determine_moods wd = Some (primary_mood info, secondary_moods info ++ extra) ∧
    (length extra ≤ 2)%nat ∧
    App.mood_tags wd = Some (primary_mood info :: secondary_moods info).
Proof.
  unfold App.mood_tags, determine_moods.
  destruct (Py.lookup "partly_cloudy" WEATHER_MOOD_MAP) as [fallback|] eqn:Hf;
    [ | discriminate Hf ].
  cbn [mbind option_bind].
  destruct (mood_info_in_table (default "partly_cloudy" (condition wd)) fallback Hf)
    as [k Hin].
  injection Hf as <-.
  set (info := Py.get WEATHER_MOOD_MAP _ _) in *.
  set (tm := match Py.lookup _ TEMP_MODIFIERS with Some _ => _ | None => _ end).
  destruct (foldl_merge_mood (primary_mood info) tm (secondary_moods info))
    as (extra & -> & Hsub).
  exists k, info, extra. split; [ exact Hin | ]. split; [ reflexivity | ].
  split; [ reflexivity | ].
  destruct mood_table_shape as [Hsec Htemp].
  rewrite Forall_forall in Hsec. specialize (Hsec _ Hin). cbn [snd] in Hsec.
  split.
  - apply sublist_length in Hsub. etrans; [ exact Hsub | ].
    subst tm. destruct (Py.lookup _ TEMP_MODIFIERS) as [ti|] eqn:Hti; [ | cbn; lia ].
    apply lookup_elem_of in Hti. rewrite Forall_forall in Htemp.
    specialize (Htemp _ Hti). cbn [snd] in Htemp. by rewrite Htemp.
  - do 2 f_equal. rewrite take_app_le by lia. apply take_ge. lia.
Qed.

Lemma mood_tags_distinct (wd : weather_data) :
  ∃ tags, App.mood_tags wd = Some tags ∧ length tags = 3%nat ∧ NoDup tags.
Proof.
  destruct (mood_tags_shape wd) as (k & info & _ & Hin & _ & _ & _ & ->).
  eexists. split; [ reflexivity | ].
  destruct mood_table_shape as [Hsec _].
  rewrite Forall_forall in Hsec. specialize (Hsec _ Hin). cbn [snd] in Hsec.
  pose proof mood_map_well_formed as Hwf. rewrite Forall_forall in Hwf.
  destruct (Hwf _ Hin) as [Hnd Hnotin]. cbn [snd] in *.
  split; [ cbn [length]; lia | ]. by apply NoDup_cons.
Qed.

(** The mood tags that the save button stores, the primary mood and the
    first two secondary moods, are the moods of the row of the condition
    in the mood table: they do not depend on the temperature, and they are
    three distinct moods. *)
Theorem mood_tags_ignore_temperature :
  (∀ wd c info,
     condition wd = Some c → Py.lookup c WEATHER_MOOD_MAP = Some info →
     App.mood_tags wd = Some (primary_mood info :: secondary_moods info)) ∧
  (∀ wd1 wd2, condition wd1 = condition wd2 → App.mood_tags wd1 = App.mood_tags wd2) ∧
  (∀ wd, ∃ tags, App.mood_tags wd = Some tags ∧ length tags = 3%nat ∧ NoDup tags).
Proof.
  split; [ | split ].
  - intros wd c info Hc Hl.
    destruct (mood_tags_shape wd) as (_ & info' & _ & _ & -> & _ & _ & ->).
    rewrite Hc. change (default "partly_cloudy" (Some c)) with c.
    unfold Py.get. by rewrite Hl.
  - intros wd1 wd2 Heq.
    destruct (mood_tags_shape wd1) as (_ & info1 & _ & _ & -> & _ & _ & ->).
    destruct (mood_tags_shape wd2) as (_ & info2 & _ & _ & -> & _ & _ & ->).
    by rewrite Heq.
  - apply mood_tags_distinct.
Qed.

End MoodTagsProps.

(** * Creating, finding, updating and deleting entries *)

Module StoreProps.
Import JournalManager PySpec PyProps JournalStoreSpec JournalStoreProps.

Lemma get_entry_by_id_cons (entry_id : string) (e : entry) (entries : list entry) :
  get_entry_by_id entry_id (e :: entries)
  = if decide (id e = entry_id) then Some e else get_entry_by_id entry_id entries.
Proof.
  unfold get_entry_by_id. cbn [find].
  destruct (String.eqb (id e) entry_id) eqn:Heq.
  - apply String.eqb_eq in Heq. by rewrite decide_True.
  - apply String.eqb_neq in Heq. by rewrite decide_False.
Qed.

(** [create_entry] and the readers: the new entry is the one found under
    its id and the first of the list; entries with another id are found as
    before; the new entry holds the text, its number of tokens, the tags
    and the day, and no update time. *)
Theorem create_entry_round_trip (now now_timestamp : string) (today : Z)
    (weather_data : WeatherHandler.weather_data) (tags : list string)
    (selected_prompt : string) (journal_text : Py.codepoints) (entries : list entry) :
  let created := create_entry now now_timestamp today weather_data tags selected_prompt
                   journal_text entries in
  get_entry_by_id now created.2 = Some created.1 ∧
  get_all_entries (Some 1) created.2 = [created.1] ∧
  get_all_entries None created.2 = created.1 :: entries ∧
  (∀ entry_id, entry_id ≠ now →
     get_entry_by_id entry_id created.2 = get_entry_by_id entry_id entries) ∧
  text created.1 = journal_text ∧
  word_count created.1 = Z.of_nat (token_count journal_text) ∧
  mood_tags created.1 = tags ∧
  date created.1 = Some today ∧
  updated_at created.1 = None.
Proof.
  cbn zeta. unfold create_entry. cbn [fst snd].
  split; [ rewrite get_entry_by_id_cons; by rewrite decide_True | ].
  split; [ reflexivity | ]. split; [ reflexivity | ].
  split; [ intros entry_id Hne; rewrite get_entry_by_id_cons; by rewrite decide_False | ].
  cbn [text word_count mood_tags date updated_at]. rewrite split_length. done.
Qed.

Lemma filter_length_lt {A : Type} (P : A → Prop) `{!∀ x, Decision (P x)} (l : list A) :
  (length (filter P l) < length l)%nat ↔ Exists (λ x, ¬ P x) l.
Proof.
  induction l as [|x l IH].
  - cbn. rewrite Exists_nil. lia.
  - pose proof (length_filter P l) as Hle. rewrite Exists_cons.
    destruct (decide (P x)) as [Hx|Hx].
    + rewrite filter_cons_True by done. cbn [length]. rewrite <- IH. split; [ | intros [?|?] ]; [ right | done | ]; lia.
    + rewrite filter_cons_False by done. cbn [length]. split; [ by left | lia ].
Qed.

Lemma get_entry_by_id_filter (entry_id entry_id' : string) (entries : list entry) :
  get_entry_by_id entry_id' (filter (λ e, id e ≠ entry_id) entries)
  = if decide (entry_id' = entry_id) then None else get_entry_by_id entry_id' entries.
Proof.
  induction entries as [|e entries IH].
  - by destruct (decide _).
  - destruct (decide (id e = entry_id)) as [He|He].
    + rewrite filter_cons_False by (by intros ?). rewrite IH, get_entry_by_id_cons.
      destruct (decide (entry_id' = entry_id)) as [->|Hne]; [ done | ].
      rewrite decide_False by congruence. done.
    + rewrite filter_cons_True by done. rewrite !get_entry_by_id_cons, IH.
      destruct (decide (entry_id' = entry_id)) as [->|Hne].
      * by rewrite decide_False.
      * done.
Qed.

Lemma delete_entry_result (entry_id : string) (stored : list entry) :
  (delete_entry entry_id stored).2 = filter (λ e, id e ≠ entry_id) stored.
Proof.
  unfold delete_entry. cbn zeta. case_bool_decide as Hlt; [ reflexivity | ].
  cbn [snd]. symmetry.
  assert (¬ Exists (λ e, ¬ id e ≠ entry_id) stored) as Hall
    by (by rewrite <- filter_length_lt).
  clear Hlt. induction stored as [|e stored IH]; [ done | ].
  rewrite Exists_cons in Hall.
  rewrite filter_cons_True.
  - f_equal. apply IH. tauto.
  - intros Heq. apply Hall. left. by intros ?.
Qed.

(** [delete_entry] returns [True] exactly when some entry has the id; the
    stored list is then the list without every entry of that id, the other
    entries in their order; the id is no longer found and the other ids are
    found as before; deleting again returns [False] and changes nothing. *)
Theorem delete_entry_spec (entry_id : string) (stored : list entry) :
  ((delete_entry entry_id stored).1 = true ↔ ∃ e, e ∈ stored ∧ id e = entry_id) ∧
  (delete_entry entry_id stored).2 = filter (λ e, id e ≠ entry_id) stored ∧
  get_entry_by_id entry_id (delete_entry entry_id stored).2 = None ∧
  (∀ entry_id', entry_id' ≠ entry_id →
     get_entry_by_id entry_id' (delete_entry entry_id stored).2
     = get_entry_by_id entry_id' stored) ∧
  delete_entry entry_id (delete_entry entry_id stored).2
  = (false, (delete_entry entry_id stored).2).
Proof.
  pose proof (delete_entry_result entry_id stored) as Hres.
  split; [ | split; [ exact Hres | split; [ | split ] ] ].
  - unfold delete_entry. cbn zeta. case_bool_decide as Hlt; cbn [fst].
    + split; [ intros _ | done ].
      apply filter_length_lt, Exists_exists in Hlt as (e & He & Hid).
      exists e. split; [ done | ]. by destruct (decide (id e = entry_id)).
    + split; [ done | ]. intros (e & He & Hid). exfalso. apply Hlt.
      apply filter_length_lt, Exists_exists. exists e. split; [ done | ]. by intros ?.
  - rewrite Hres, get_entry_by_id_filter. by rewrite decide_True.
  - intros entry_id' Hne. rewrite Hres, get_entry_by_id_filter. by rewrite decide_False.
  - rewrite Hres. unfold delete_entry. cbn zeta.
    rewrite bool_decide_eq_false_2; [ reflexivity | ].
    rewrite filter_length_lt, Exists_exists. intros (e & He & Hid).
    apply list_elem_of_filter in He as [Hne _]. done.
Qed.

(** Deleting the entry just created succeeds and also deletes the older
    entries of the same id; when the id is fresh the list is the one before
    the creation. *)
Theorem delete_after_create (now now_timestamp : string) (today : Z)
    (weather_data : WeatherHandler.weather_data) (tags : list string)
    (selected_prompt : string) (journal_text : Py.codepoints) (entries : list entry) :
  delete_entry now
    (create_entry now now_timestamp today weather_data tags selected_prompt journal_text
       entries).2
  = (true, (delete_entry now entries).2) ∧
  (Forall (λ e, id e ≠ now) entries →
   delete_entry now
     (create_entry now now_timestamp today weather_data tags selected_prompt journal_text
        entries).2
   = (true, entries)).
Proof.
  assert (delete_entry now
            (create_entry now now_timestamp today weather_data tags selected_prompt
               journal_text entries).2
          = (true, (delete_entry now entries).2)) as Hdel.
  { rewrite (delete_entry_result now entries).
    unfold create_entry. cbn [snd]. unfold delete_entry. cbn zeta.
    rewrite filter_cons_False by (cbn; intros Hne; by apply Hne).
    rewrite bool_decide_eq_true_2; [ reflexivity | ].
    pose proof (length_filter (λ e, id e ≠ now) entries). cbn [length]. lia. }
  split; [ exact Hdel | ].
  intros Hfresh. rewrite Hdel. f_equal.
  rewrite (delete_entry_result now entries). clear Hdel.
  induction Hfresh as [|e entries He Hfresh IH]; [ done | ].
  rewrite filter_cons_True by done. by rewrite IH.
Qed.

(** [update_entry] and [get_entry_by_id]: the update succeeds exactly when
    the id is found; afterwards the id gives the entry found before with
    its text, word count and update time replaced, every other id gives
    what it gave before, and the ids of the list are unchanged. *)
Theorem update_entry_round_trip (now entry_id : string) (updated_text : Py.codepoints)
    (stored : list entry) :
  (update_entry now entry_id updated_text stored).1
  = bool_decide (is_Some (get_entry_by_id entry_id stored)) ∧
  (∀ entry_id',
     get_entry_by_id entry_id' (update_entry now entry_id updated_text stored).2
     = if decide (entry_id' = entry_id)
       then with_text now updated_text <$> get_entry_by_id entry_id stored
       else get_entry_by_id entry_id' stored) ∧
  id <$> (update_entry now entry_id updated_text stored).2 = id <$> stored.
Proof.
  unfold update_entry.
  induction stored as [|e stored IH]; cbn [update_first].
  { split; [ done | ]. split; [ | done ]. intros entry_id'. by destruct (decide _). }
  destruct (String.eqb (id e) entry_id) eqn:Heq.
  - apply String.eqb_eq in Heq. cbn [fst snd].
    split; [ | split ].
    + rewrite get_entry_by_id_cons, decide_True by done. by rewrite bool_decide_eq_true_2.
    + intros entry_id'. rewrite !get_entry_by_id_cons. cbn [id with_text].
      destruct (decide (entry_id' = entry_id)) as [->|Hne].
      * by rewrite !decide_True.
      * rewrite !decide_False by congruence. done.
    + reflexivity.
  - apply String.eqb_neq in Heq. destruct IH as (IH1 & IH2 & IH3).
    destruct (update_first now entry_id updated_text stored) as [entries|];
      cbn [fmap option_fmap option_map fst snd] in *.
    + split; [ | split ].
      * rewrite get_entry_by_id_cons, decide_False by done. exact IH1.
      * intros entry_id'. rewrite !get_entry_by_id_cons, IH2.
        destruct (decide (entry_id' = entry_id)) as [->|Hne].
        -- by rewrite !decide_False.
        -- done.
      * by rewrite !fmap_cons, IH3.
    + split; [ | split ].
      * rewrite get_entry_by_id_cons, decide_False by done. exact IH1.
      * intros entry_id'. specialize (IH2 entry_id'). rewrite !get_entry_by_id_cons.
        destruct (decide (entry_id' = entry_id)) as [->|Hne].
        -- rewrite decide_False by done. exact IH2.
        -- reflexivity.
      * reflexivity.
Qed.

End StoreProps.

(** * The current streak *)

Module StreakProps.
Import JournalManager PySpec PyProps CountSpec CountProps StatisticsSpec StatisticsProps.

Lemma StronglySorted_reverse_lt (l : list Z) :
  StronglySorted Z.lt l → StronglySorted (flip Z.lt) (reverse l).
Proof.
  intros H. apply Sorted_StronglySorted.
  - intros x y z. unfold flip. lia.
  - apply Sorted_reverse. by apply StronglySorted_Sorted.
Qed.

(** The loop of [_calculate_current_streak] over dates in descending
    order adds the number of days [today - i], [today - i - 1], ... that
    open the list. *)
Lemma current_loop_spec (today : Z) (l : list Z) :
  StronglySorted (flip Z.lt) l →
  ∀ i s, ∃ k,
    0 ≤ k ∧
    current_loop today i l s = s + k ∧
    (∀ j, 0 ≤ j < k → today - i - j ∈ l) ∧
    ((∀ x, x ∈ l → x ≤ today - i) → today - i - k ∉ l).
Proof.
  induction 1 as [|d l Hs IH Hd]; intros i s; cbn [current_loop].
  - exists 0. split; [ lia | ]. split; [ lia | ]. split; [ intros; lia | ].
    intros _. apply not_elem_of_nil.
  - rewrite Forall_forall in Hd. unfold flip in Hd.
    destruct (d =? today - i) eqn:Heq.
    + apply Z.eqb_eq in Heq.
      destruct (IH (i + 1) (s + 1)) as (k & Hk & Hres & Hin & Hout).
      exists (k + 1). split; [ lia | ]. split; [ lia | ]. split.
      * intros j Hj. destruct (decide (j = 0)) as [->|Hj0].
        -- replace (today - i - 0) with d by lia. left.
        -- right. replace (today - i - j) with (today - (i + 1) - (j - 1)) by lia.
           apply Hin. lia.
      * intros Hle. intros [Habs|Habs]%elem_of_cons; [ lia | ].
        revert Habs. replace (today - i - (k + 1)) with (today - (i + 1) - k) by lia.
        apply Hout. intros x Hx. specialize (Hd x Hx). lia.
    + apply Z.eqb_neq in Heq.
      exists 0. split; [ lia | ]. split; [ lia | ]. split; [ intros; lia | ].
      intros Hle. replace (today - i - 0) with (today - i) by lia.
      pose proof (Hle d ltac:(left)).
      intros [Habs|Habs]%elem_of_cons; [ lia | ]. specialize (Hd _ Habs). lia.
Qed.

Lemma calculate_current_streak_spec (today : Z) (dates : list Z) :
  StronglySorted Z.lt dates →
  ∃ k,
    0 ≤ k ∧
    _calculate_current_streak today dates = k ∧
    run (λ d, d ∈ dates) (today - k + 1) k ∧
    ((∀ x, x ∈ dates → x ≤ today) → today - k ∉ dates).
Proof.
  intros Hs. unfold _calculate_current_streak.
  destruct dates as [|first dates].
  { exists 0. split; [ lia | ]. split; [ done | ]. split; [ intros j; lia | ].
    intros _. apply not_elem_of_nil. }
  destruct (current_loop_spec today _ (StronglySorted_reverse_lt _ Hs) 0 0)
    as (k & Hk & Hres & Hin & Hout).
  exists k. split; [ done | ]. split; [ lia | ]. split.
  - intros j Hj. apply elem_of_reverse.
    replace (today - k + 1 + j) with (today - 0 - (k - 1 - j)) by lia.
    apply Hin. lia.
  - intros Hle. rewrite <- elem_of_reverse.
    replace (today - k) with (today - 0 - k) by lia. apply Hout.
    intros x Hx. rewrite elem_of_reverse in Hx. specialize (Hle x Hx). lia.
Qed.

Lemma calculate_current_streak_future (today d : Z) (dates : list Z) :
  StronglySorted Z.lt dates → d ∈ dates → today < d →
  _calculate_current_streak today dates = 0.
Proof.
  intros Hs Hd Hlt. unfold _calculate_current_streak.
  destruct dates as [|first dates]; [ done | ].
  apply StronglySorted_reverse_lt in Hs. rewrite <- elem_of_reverse in Hd.
  destruct (reverse (first :: dates)) as [|h t]; [ done | ].
  cbn [current_loop]. destruct (h =? today - 0) eqn:Heq; [ | done ].
  apply Z.eqb_eq in Heq. exfalso.
  apply StronglySorted_inv in Hs as [_ Hall]. rewrite Forall_forall in Hall.
  apply elem_of_cons in Hd as [->|Hd]; [ lia | ].
  specialize (Hall _ Hd). unfold flip in Hall. lia.
Qed.

Section Streaks.

Variable round1_div : Z → Z → Q.
Variable today : Z.

Lemma current_streak_lookup (entries : list entry) :
  Py.lookup "current_streak" (get_statistics round1_div today entries)
  = Some (VInt (match entries with
                | [] => 0
                | _ => _calculate_current_streak today (sorted_dates entries)
                end)).
Proof. by destruct entries. Qed.

Lemma longest_streak_lookup (entries : list entry) :
  Py.lookup "longest_streak" (get_statistics round1_div today entries)
  = Some (VInt (match entries with
                | [] => 0
                | _ => _calculate_longest_streak (sorted_dates entries)
                end)).
Proof. by destruct entries. Qed.

Lemma current_streak_run (entries : list entry) :
  ∃ k,
    0 ≤ k ∧
    Py.lookup "current_streak" (get_statistics round1_div today entries)
      = Some (VInt k) ∧
    run (λ d, d ∈ date_set entries) (today - k + 1) k ∧
    ((∀ d, d ∈ date_set entries → d ≤ today) → today - k ∉ date_set entries).
Proof.
  rewrite current_streak_lookup. destruct entries as [|e entries].
  { exists 0. split; [ lia | ]. split; [ done | ]. split; [ intros j; lia | ].
    intros _. apply not_elem_of_empty. }
  destruct (calculate_current_streak_spec today _ (sorted_dates_sorted (e :: entries)))
    as (k & Hk & Hres & Hrun & Hout).
  exists k. split; [ done | ]. split; [ by rewrite Hres | ]. split.
  - intros j Hj. apply elem_of_sorted_dates. by apply Hrun.
  - intros Hle. rewrite <- elem_of_sorted_dates. apply Hout.
    intros x Hx. rewrite elem_of_sorted_dates in Hx. by apply Hle.
Qed.

(** When no entry is dated after today, the current streak is the length
    of the run of consecutive days with an entry that ends today: these
    days all have an entry and the day before them has none. *)
Theorem current_streak_of_statistics (entries : list entry) :
  (∀ d, d ∈ date_set entries → d ≤ today) →
  ∃ k,
    0 ≤ k ∧
    Py.lookup "current_streak" (get_statistics round1_div today entries)
      = Some (VInt k) ∧
    run (λ d, d ∈ date_set entries) (today - k + 1) k ∧
    (today - k ∉ date_set entries).
Proof.
  intros Hle. destruct (current_streak_run entries) as (k & Hk & Hres & Hrun & Hout).
  exists k. auto.
Qed.

(** The current streak is never negative and never exceeds the longest
    streak; an entry dated after today makes it zero. *)
Theorem current_streak_bounds (entries : list entry) :
  (∃ c l,
     Py.lookup "current_streak" (get_statistics round1_div today entries)
       = Some (VInt c) ∧
     Py.lookup "longest_streak" (get_statistics round1_div today entries)
       = Some (VInt l) ∧
     0 ≤ c ≤ l) ∧
  ((∃ d, d ∈ date_set entries ∧ today < d) →
   Py.lookup "current_streak" (get_statistics round1_div today entries)
     = Some (VInt 0)).
Proof.
  split.
  - destruct (current_streak_run entries) as (c & Hc & Hres & Hrun & _).
    destruct (longest_streak_of_statistics round1_div today entries)
      as (l & Hl & _ & Hmax).
    exists c, l. split; [ done | ]. split; [ done | ]. split; [ done | ].
    by eapply Hmax.
  - intros (d & Hd & Hlt). rewrite current_streak_lookup.
    destruct entries as [|e entries]; [ done | ].
    do 2 f_equal. eapply calculate_current_streak_future; [ | | exact Hlt ].
    + apply sorted_dates_sorted.
    + by apply elem_of_sorted_dates.
Qed.

End Streaks.

(** Entries on three consecutive days, the last of them today. *)
Lemma current_streak_of_statistics_witness :
  ∃ k,
    0 ≤ k ∧
    Py.lookup "current_streak"
      (get_statistics (λ _ _, 0%Q) 102 [entry_on 102; entry_on 101; entry_on 100])
      = Some (VInt k) ∧
    run (λ d, d ∈ date_set [entry_on 102; entry_on 101; entry_on 100]) (102 - k + 1) k ∧
    (102 - k ∉ date_set [entry_on 102; entry_on 101; entry_on 100]).
Proof.
  apply (current_streak_of_statistics (λ _ _, 0%Q) 102
           [entry_on 102; entry_on 101; entry_on 100]).
  intros d Hd. unfold date_set in Hd. cbn in Hd.
  apply elem_of_union in Hd as [Hd|Hd]; [ apply elem_of_singleton in Hd; lia | ].
  apply elem_of_union in Hd as [Hd|Hd]; [ apply elem_of_singleton in Hd; lia | ].
  apply elem_of_union in Hd as [Hd|Hd]; [ apply elem_of_singleton in Hd; lia | ].
  by apply elem_of_empty in Hd.
Defined.

End StreakProps.

(** * The most common mood and the distributions *)

Module MostCommonProps.
Import JournalManager PySpec PyProps CountSpec CountProps StatisticsSpec StatisticsProps
  CorrelationSpec CorrelationProps MostCommonSpec.

Lemma max_by_value_spec (items pre mid : list (string * Z)) (best : string * Z) :
  Forall (λ kv, kv.2 < best.2) pre →
  Forall (λ kv, kv.2 ≤ best.2) mid →
  ∃ v pre' post',
    pre ++ best :: mid ++ items = pre' ++ (Py.max_by_value best items, v) :: post' ∧
    Forall (λ kv, kv.2 < v) pre' ∧
    Forall (λ kv, kv.2 ≤ v) post'.
Proof.
  revert pre mid best. induction items as [|kv items IH]; intros pre mid best Hpre Hmid;
    cbn [Py.max_by_value].
  - exists best.2, pre, mid. rewrite app_nil_r. by destruct best.
  - destruct (best.2 <? kv.2) eqn:Hlt.
    + apply Z.ltb_lt in Hlt.
      destruct (IH (pre ++ best :: mid) [] kv) as (v & pre' & post' & Heq & H1 & H2).
      * apply Forall_app. split; [ | apply Forall_cons; split ].
        -- eapply Forall_impl; [ exact Hpre | ]. cbn. intros; lia.
        -- done.
        -- eapply Forall_impl; [ exact Hmid | ]. cbn. intros; lia.
      * constructor.
      * exists v, pre', post'. split; [ | done ].
        rewrite <- Heq. cbn [app]. by rewrite <- app_assoc.
    + apply Z.ltb_ge in Hlt.
      destruct (IH pre (mid ++ [kv]) best) as (v & pre' & post' & Heq & H1 & H2).
      * done.
      * apply Forall_app. split; [ done | ]. by apply Forall_singleton.
      * exists v, pre', post'. split; [ | done ].
        rewrite <- Heq. by rewrite <- app_assoc.
Qed.

Lemma keys_set (k : string) (v : Z) (d : list (string * Z)) :
  (Py.set k v d).*1 = see d.*1 k.
Proof.
  unfold see. induction d as [|[k' v'] d IH]; cbn [Py.set].
  - rewrite decide_False by apply not_elem_of_nil. reflexivity.
  - destruct (String.eqb k' k) eqn:Hk.
    + apply String.eqb_eq in Hk as ->. rewrite decide_True by (cbn; left). reflexivity.
    + apply String.eqb_neq in Hk. rewrite fmap_cons, IH. cbn [fmap list_fmap fst].
      destruct (decide (k ∈ d.*1)) as [Hin|Hin].
      * rewrite decide_True by (by right). reflexivity.
      * rewrite decide_False; [ reflexivity | ].
        intros [->|?]%elem_of_cons; done.
Qed.

Lemma keys_count_all (keys : list string) (d : list (string * Z)) :
  (count_all d keys).*1 = foldl see d.*1 keys.
Proof.
  revert d. induction keys as [|k keys IH]; intros d; [ reflexivity | ].
  cbn [foldl]. unfold count_all in *. cbn [foldl]. rewrite IH.
  unfold Py.incr. by rewrite keys_set.
Qed.

Lemma foldl_see (keys seen : list string) :
  ∃ new,
    foldl see seen keys = seen ++ new ∧
    (NoDup seen → NoDup (seen ++ new)) ∧
    (∀ k, k ∈ seen ++ new ↔ k ∈ seen ∨ k ∈ keys).
Proof.
  revert seen. induction keys as [|k keys IH]; intros seen; cbn [foldl].
  - exists []. rewrite app_nil_r. split; [ done | ]. split; [ done | ].
    intros k. rewrite elem_of_nil. tauto.
  - destruct (IH (see seen k)) as (new & Heq & Hnd & Hel). unfold see in *.
    destruct (decide (k ∈ seen)) as [Hin|Hin].
    + exists new. split; [ done | ]. split; [ done | ].
      intros k'. rewrite Hel, elem_of_cons. split; [ tauto | ].
      intros [?|[->|?]]; tauto.
    + exists (k :: new). rewrite <- app_assoc in Heq, Hnd, Hel. cbn [app] in *.
      split; [ done | ]. split.
      * intros Hs. apply Hnd. apply NoDup_app. split; [ done | ].
        split; [ | apply NoDup_singleton ].
        intros x Hx ->%list_elem_of_singleton. done.
      * intros k'. specialize (Hel k').
        rewrite !elem_of_app, !elem_of_cons, elem_of_nil in *. tauto.
Qed.

Lemma lookup_NoDup_keys (d : list (string * Z)) (k : string) (v : Z) :
  NoDup d.*1 → (k, v) ∈ d → Py.lookup k d = Some v.
Proof.
  induction d as [|[k' v'] d IH]; intros Hnd Hin; [ by apply elem_of_nil in Hin | ].
  cbn [fmap list_fmap fst] in Hnd. apply NoDup_cons in Hnd as [Hk' Hnd].
  cbn [Py.lookup]. apply elem_of_cons in Hin as [[= -> ->]|Hin].
  - by rewrite String.eqb_refl.
  - destruct (String.eqb k' k) eqn:Hk.
    + apply String.eqb_eq in Hk as ->. exfalso. apply Hk'.
      apply list_elem_of_fmap. by exists (k, v).
    + by apply IH.
Qed.

Lemma NoDup_split_unique {A : Type} (l a b a' b' : list A) (x : A) :
  NoDup l → l = a ++ x :: b → l = a' ++ x :: b' → a = a'.
Proof.
  intros Hnd -> Heq. revert a' Heq Hnd.
  induction a as [|y a IH]; intros [|y' a'] Heq Hnd; cbn [app] in *.
  - done.
  - injection Heq as <- ->. apply NoDup_cons in Hnd as [Hx _].
    exfalso. apply Hx. apply elem_of_app. right. left.
  - injection Heq as -> <-. apply NoDup_cons in Hnd as [Hx _].
    exfalso. apply Hx. apply elem_of_app. right. left.
  - injection Heq as <- Heq. apply NoDup_cons in Hnd as [_ Hnd].
    f_equal. by apply IH.
Qed.

Lemma count_all_items (keys : list string) :
  NoDup (count_all [] keys).*1 ∧
  (∀ k, k ∈ (count_all [] keys).*1 ↔ k ∈ keys) ∧
  Forall (λ kv, kv.2 = Z.of_nat (occurrences kv.1 keys)) (count_all [] keys).
Proof.
  pose proof (keys_count_all keys []) as Hkeys.
  destruct (foldl_see keys []) as (new & Hnew & Hnd & Hel).
  cbn [app fmap list_fmap] in *. rewrite Hnew in Hkeys.
  specialize (Hnd (NoDup_nil_2)). rewrite Hkeys.
  split; [ exact Hnd | ]. split.
  - intros k. rewrite Hel, elem_of_nil. tauto.
  - apply Forall_forall. intros [k v] Hin. cbn [fst snd].
    pose proof (get_count_all keys [] k) as Hget.
    unfold Py.get in Hget at 1. rewrite (lookup_NoDup_keys _ k v) in Hget.
    + cbn in Hget. lia.
    + by rewrite Hkeys.
    + done.
Qed.

Lemma most_common_first_most_frequent (keys : list string) :
  match most_common (count_all [] keys) with
  | VNone => keys = []
  | VStr k => first_most_frequent keys k
  | _ => False
  end.
Proof.
  pose proof (keys_count_all keys []) as Hkeys.
  destruct (foldl_see keys []) as (new & Hnew & Hnd & Hel).
  cbn [app fmap list_fmap] in *. rewrite Hnew in Hkeys.
  specialize (Hnd (NoDup_nil_2)).
  assert (∀ k v, (k, v) ∈ count_all [] keys → v = Z.of_nat (occurrences k keys)) as Hval.
  { intros k v Hin. pose proof (get_count_all keys [] k) as Hget.
    unfold Py.get in Hget at 1. rewrite (lookup_NoDup_keys _ k v) in Hget.
    - cbn in Hget. lia.
    - by rewrite Hkeys.
    - done. }
  unfold most_common. destruct (count_all [] keys) as [|best items] eqn:Hd.
  - destruct keys as [|k keys]; [ done | ].
    exfalso. cbn in Hkeys. subst new. specialize (Hel k).
    rewrite elem_of_nil in Hel. apply Hel. right. left.
  - destruct (max_by_value_spec items [] [] best) as (v & pre & post & Heq & Hpre & Hpost);
      [ constructor | constructor | ].
    cbn [app] in Heq. set (m := Py.max_by_value best items) in *.
    assert (v = Z.of_nat (occurrences m keys)) as Hv.
    { apply Hval. rewrite Heq. apply elem_of_app. right. left. }
    assert (m ∈ keys) as Hm.
    { specialize (Hel m). rewrite elem_of_nil in Hel.
      destruct Hel as [[[]|?] _]; [ | done ].
      rewrite <- Hkeys, Heq, fmap_app, fmap_cons. apply elem_of_app. right. left. }
    apply list_elem_of_split_l in Hm as (before & after & Hsplit & Hfresh).
    exists before, after. split; [ exact Hsplit | ]. split.
    + intros k'.
      destruct (decide (k' ∈ keys)) as [Hk'|Hk'].
      * assert (k' ∈ new) as Hk'new.
        { apply Hel. by right. }
        rewrite <- Hkeys in Hk'new.
        apply list_elem_of_fmap in Hk'new as ([k'' v'] & -> & Hin).
        cbn [fst]. pose proof (Hval _ _ Hin) as Hv'.
        rewrite Heq in Hin. apply elem_of_app in Hin as [Hin|Hin].
        -- rewrite Forall_forall in Hpre. specialize (Hpre _ Hin). cbn in Hpre. lia.
        -- apply elem_of_cons in Hin as [[= -> ->]|Hin]; [ lia | ].
           rewrite Forall_forall in Hpost. specialize (Hpost _ Hin). cbn in Hpost. lia.
      * assert (occurrences k' keys = 0%nat) as ->; [ | lia ].
        apply length_filter_none, Forall_forall. by intros x Hx ->.
    + intros k' Hk'.
      destruct (foldl_see before []) as (kb & Hkb & _ & Helb). cbn [app] in *.
      assert (∃ rest, new = kb ++ m :: rest) as [rest Hnew'].
      { rewrite <- Hnew, Hsplit, foldl_app, Hkb. cbn [foldl]. unfold see at 2.
        rewrite decide_False.
        2: { intros Hin. apply Helb in Hin as [Hin|Hin]; [ by apply elem_of_nil in Hin | done ]. }
        destruct (foldl_see after (kb ++ [m])) as (new2 & -> & _).
        exists new2. by rewrite <- app_assoc. }
      assert (kb = pre.*1) as ->.
      { eapply (NoDup_split_unique new); [ exact Hnd | exact Hnew' | ].
        by rewrite <- Hkeys, Heq, fmap_app, fmap_cons. }
      assert (k' ∈ pre.*1) as Hin by (apply Helb; by right).
      apply list_elem_of_fmap in Hin as ([k'' v'] & -> & Hin). cbn [fst].
      assert (v' = Z.of_nat (occurrences k'' keys)) as Hv'.
      { apply Hval. rewrite Heq. apply elem_of_app. by left. }
      rewrite Forall_forall in Hpre. specialize (Hpre _ Hin). cbn in Hpre. lia.
Qed.


Section Distributions.

Variable round1_div : Z → Z → Q.
Variable today : Z.

(** The most common mood and the most common weather of the statistics:
    no mood (condition) is counted more often, and every one met before
    its first occurrence is counted less often, so ties go to the one
    encountered first; the value is [None] exactly when nothing was
    counted. *)
Theorem most_common_of_statistics (entries : list entry) :
  match Py.lookup "most_common_mood" (get_statistics round1_div today entries) with
  | Some VNone => mjoin (mood_tags <$> entries) = []
  | Some (VStr m) => first_most_frequent (mjoin (mood_tags <$> entries)) m
  | _ => False
  end ∧
  match Py.lookup "most_common_weather" (get_statistics round1_div today entries) with
  | Some VNone => omap observed entries = []
  | Some (VStr c) => first_most_frequent (omap observed entries) c
  | _ => False
  end.
Proof.
  destruct entries as [|e entries]; [ done | ].
  set (es := e :: entries). split.
  - change (Py.lookup "most_common_mood" (get_statistics round1_div today es))
      with (Some (most_common (count_moods es))).
    unfold count_moods. rewrite (foldl_join (λ d mood, Py.incr mood d) mood_tags).
    apply (most_common_first_most_frequent (mjoin (mood_tags <$> es))).
  - change (Py.lookup "most_common_weather" (get_statistics round1_div today es))
      with (Some (most_common (count_weather es))).
    unfold count_weather.
    rewrite (foldl_omap (λ d c, Py.incr c d) (λ e, truthy (condition (weather e)))).
    apply (most_common_first_most_frequent (omap observed es)).
Qed.

Lemma occurrences_elem_of (k : string) (l : list string) :
  k ∈ l → (1 ≤ occurrences k l)%nat.
Proof.
  intros Hin. unfold occurrences.
  assert (k ∈ filter (λ x, x = k) l) as Hf by (by apply list_elem_of_filter).
  destruct (filter (λ x, x = k) l); [ by apply elem_of_nil in Hf | cbn; lia ].
Qed.

Lemma occurrences_not_elem_of (k : string) (l : list string) :
  k ∉ l → occurrences k l = 0%nat.
Proof.
  intros Hin. apply length_filter_none, Forall_forall. by intros x Hx ->.
Qed.

Lemma entries_by_mood_count (mood : string) (entries : list entry) :
  (length (get_entries_by_mood mood entries)
   ≤ occurrences mood (mjoin (mood_tags <$> entries)))%nat ∧
  (distinct_tags entries →
   occurrences mood (mjoin (mood_tags <$> entries))
   = length (get_entries_by_mood mood entries)).
Proof.
  unfold get_entries_by_mood, distinct_tags.
  induction entries as [|e entries [IH1 IH2]]; [ done | ].
  change (mjoin (mood_tags <$> e :: entries))
    with (mood_tags e ++ mjoin (mood_tags <$> entries)).
  rewrite occurrences_app.
  destruct (decide (mood ∈ mood_tags e)) as [Hin|Hin].
  - rewrite filter_cons_True by done. cbn [length].
    pose proof (occurrences_elem_of _ _ Hin). split; [ lia | ].
    intros [Hnd Hall]%Forall_cons. rewrite (IH2 Hall).
    rewrite occurrences_NoDup by done. by rewrite decide_True.
  - rewrite filter_cons_False by done.
    rewrite (occurrences_not_elem_of _ _ Hin). split; [ lia | ].
    intros [_ Hall]%Forall_cons. by rewrite (IH2 Hall).
Qed.

(** The count of a mood in the mood distribution is at least the number of
    entries that [get_entries_by_mood] returns for it, and equal to it when
    no entry repeats a tag. *)
Theorem mood_distribution_counts_entries (entries : list entry)
    (counts : list (string * Z)) (mood : string) :
  Py.lookup "mood_distribution" (get_statistics round1_div today entries)
    = Some (VCounts counts) →
  Z.of_nat (length (get_entries_by_mood mood entries)) ≤ Py.get counts mood 0 ∧
  (distinct_tags entries →
   Py.get counts mood 0 = Z.of_nat (length (get_entries_by_mood mood entries))).
Proof.
  destruct entries as [|e entries]; [ discriminate | ].
  intros [= <-]. rewrite count_moods_spec.
  destruct (entries_by_mood_count mood (e :: entries)) as [Hle Heq].
  split; [ lia | ]. intros Hd. by rewrite (Heq Hd).
Qed.

(** The statistics after [create_entry]: the number of entries grows by
    one, the number of words by the tokens of the new text, and the count
    of every mood by its occurrences among the new tags. *)
Theorem statistics_after_create_entry (now now_timestamp : string) (day : Z)
    (weather_data : WeatherHandler.weather_data) (tags : list string)
    (selected_prompt : string) (journal_text : Py.codepoints) (entries : list entry) :
  ∃ n w counts,
    Py.lookup "total_entries" (get_statistics round1_div today entries) = Some (VInt n) ∧
    Py.lookup "total_words" (get_statistics round1_div today entries) = Some (VInt w) ∧
    n = Z.of_nat (length entries) ∧
    Py.lookup "total_entries"
      (get_statistics round1_div today
         (create_entry now now_timestamp day weather_data tags selected_prompt
            journal_text entries).2)
      = Some (VInt (n + 1)) ∧
    Py.lookup "total_words"
      (get_statistics round1_div today
         (create_entry now now_timestamp day weather_data tags selected_prompt
            journal_text entries).2)
      = Some (VInt (w + Z.of_nat (JournalStoreSpec.token_count journal_text))) ∧
    Py.lookup "mood_distribution"
      (get_statistics round1_div today
         (create_entry now now_timestamp day weather_data tags selected_prompt
            journal_text entries).2)
      = Some (VCounts counts) ∧
    ∀ mood,
      Py.get counts mood 0
      = Z.of_nat (occurrences mood (mjoin (mood_tags <$> entries)))
        + Z.of_nat (occurrences mood tags).
Proof.
  exists (Z.of_nat (length entries)), (foldr Z.add 0 (word_count <$> entries)).
  eexists.
  split; [ by destruct entries | ]. split; [ by destruct entries | ].
  split; [ reflexivity | ].
  unfold create_entry. cbn [snd].
  split; [ cbn [get_statistics Py.lookup String.eqb Ascii.eqb Bool.eqb length]; do 2 f_equal; lia | ].
  split.
  { cbn [get_statistics Py.lookup String.eqb Ascii.eqb Bool.eqb fmap list_fmap foldr
         word_count].
    rewrite JournalStoreProps.split_length. do 2 f_equal. lia. }
  split; [ reflexivity | ].
  intros mood. rewrite count_moods_spec.
  match goal with
  | |- context [mjoin (mood_tags <$> ?e :: entries)] =>
      change (mjoin (mood_tags <$> e :: entries))
        with (tags ++ mjoin (mood_tags <$> entries))
  end.
  rewrite occurrences_app. lia.
Qed.

End Distributions.

(** Two entries, one of them tagged 'cozy'. *)
Lemma mood_distribution_counts_entries_witness :
  Z.of_nat (length (get_entries_by_mood "cozy"
                      [entry_with "rainy" ["reflective"; "cozy"]; entry_with "sunny" ["energetic"]]))
  ≤ Py.get [("reflective", 1); ("cozy", 1); ("energetic", 1)] "cozy" 0 ∧
  (distinct_tags [entry_with "rainy" ["reflective"; "cozy"]; entry_with "sunny" ["energetic"]] →
   Py.get [("reflective", 1); ("cozy", 1); ("energetic", 1)] "cozy" 0
   = Z.of_nat (length (get_entries_by_mood "cozy"
                         [entry_with "rainy" ["reflective"; "cozy"];
                          entry_with "sunny" ["energetic"]]))).
Proof.
  apply (mood_distribution_counts_entries (λ _ _, 0%Q) 0
           [entry_with "rainy" ["reflective"; "cozy"]; entry_with "sunny" ["energetic"]]).
  reflexivity.
Defined.

End MostCommonProps.

(** * The charts of the moods and of the writing activity *)

Module ChartProps.
Import JournalManager Visualizer PySpec PyProps CountSpec CountProps CorrelationSpec
  CorrelationProps MostCommonSpec MostCommonProps ChartSpec.

(** The pie chart of the moods shows the mood distribution of the
    statistics: the labels are the distinct mood tags, each with the number
    of its occurrences, the values add up to the number of tags, and a mood
    without a colour of its own is grey.  The empty chart is shown exactly
    when no entry has a tag. *)
Theorem mood_distribution_chart_spec (entries : list entry) :
  match create_mood_distribution_chart entries with
  | NoMoods => mjoin (mood_tags <$> entries) = []
  | Pie labels values colors =>
      mjoin (mood_tags <$> entries) ≠ [] ∧
      labels ≠ [] ∧
      NoDup labels ∧
      (∀ m, m ∈ labels ↔ m ∈ mjoin (mood_tags <$> entries)) ∧
      values = (λ m, Z.of_nat (occurrences m (mjoin (mood_tags <$> entries)))) <$> labels ∧
      sumZ values = Z.of_nat (length (mjoin (mood_tags <$> entries))) ∧
      colors = (λ m, Py.get Config.MOOD_COLORS m "#CCCCCC") <$> labels ∧
      labels = (count_moods entries).*1 ∧ values = (count_moods entries).*2
  end.
Proof.
  unfold create_mood_distribution_chart. cbn zeta.
  change (foldl _ [] entries) with (count_moods entries).
  pose proof (StatisticsProps.count_moods_spec entries) as Hspec.
  unfold count_moods in *.
  rewrite (foldl_join (λ d mood, Py.incr mood d) mood_tags) in *.
  set (tags := mjoin (mood_tags <$> entries)) in *.
  destruct (count_all_items tags) as (Hnd & Hel & Hval).
  fold (count_all [] tags) in *.
  destruct (count_all [] tags) as [|kv d] eqn:Hd.
  - destruct tags as [|t tags']; [ done | ].
    exfalso. specialize (Hel t). rewrite elem_of_nil in Hel. apply Hel. left.
  - set (items := kv :: d) in *.
    assert (items.*2 = (λ m, Z.of_nat (occurrences m tags)) <$> items.*1) as Hvalues.
    { rewrite <- list_fmap_compose. apply Forall_fmap_ext.
      eapply Forall_impl; [ exact Hval | ]. by intros [k v]. }
    split.
    { intros Htags. destruct kv as [k v]. specialize (Hel k). rewrite Htags in Hel.
      apply (elem_of_nil k), Hel. left. }
    split; [ done | ].
    split; [ exact Hnd | ]. split; [ exact Hel | ]. split; [ exact Hvalues | ].
    split; [ | done ].
    rewrite Hvalues, sum_occurrences by done.
    f_equal. apply length_filter_all, Forall_forall. intros t Ht. by apply Hel.
Qed.


Lemma filter_bool_cons {A : Type} (f : A → bool) (x : A) (l : list A) :
  filter (λ y, f y) (x :: l)
  = if f x then x :: filter (λ y, f y) l else filter (λ y, f y) l.
Proof.
  destruct (f x) eqn:Hx.
  - rewrite filter_cons_True; [ done | by rewrite Hx ].
  - rewrite filter_cons_False; [ done | rewrite Hx; exact (λ x, x) ].
Qed.

Lemma date_counts_spec (entries : list entry) (d : Z) :
  default 0 (date_counts entries !! d)
  = Z.of_nat (length (filter (λ e, on_day d e) entries)).
Proof.
  unfold date_counts.
  assert (∀ acc : gmap Z Z,
            default 0
              (foldl (λ (date_counts : gmap Z Z) entry,
                        match date entry with
                        | Some entry_date =>
                            <[ entry_date := default 0 (date_counts !! entry_date) + 1 ]>
                              date_counts
                        | None => date_counts
                        end) acc entries !! d)
            = default 0 (acc !! d)
              + Z.of_nat (length (filter (λ e, on_day d e) entries))) as Hgen.
  { induction entries as [|e entries IH]; intros acc; cbn [foldl].
    - cbn. lia.
    - rewrite IH, (filter_bool_cons (on_day d)).
      destruct (on_day d e) eqn:Hon; unfold on_day in Hon.
      + apply bool_decide_eq_true in Hon. rewrite Hon, lookup_insert_eq.
        cbn [default length]. unfold Datatypes.id. lia.
      + apply bool_decide_eq_false in Hon. destruct (date e) as [d'|]; [ | done ].
        rewrite lookup_insert_ne by congruence. done. }
  rewrite Hgen, lookup_empty. cbn. lia.
Qed.

Lemma entries_on_day (d : Z) (entries : list entry) :
  get_entries_by_date_range d d entries = filter (λ e, on_day d e) entries.
Proof.
  unfold get_entries_by_date_range. apply list_filter_iff. intros e.
  unfold in_date_range, on_day. destruct (date e) as [d'|].
  - rewrite !bool_decide_spec. split; [ intros ?; f_equal; lia | intros [= ->]; lia ].
  - rewrite bool_decide_eq_false_2 by done. done.
Qed.

Lemma in_date_range_succ (s e : Z) (x : entry) :
  s ≤ e + 1 →
  in_date_range s (e + 1) x = xorb (in_date_range s e x) (on_day (e + 1) x).
Proof.
  intros Hse. unfold in_date_range, on_day. destruct (date x) as [d|].
  - destruct (decide (d = e + 1)) as [->|Hne].
    + rewrite bool_decide_eq_true_2 by lia.
      rewrite (bool_decide_eq_false_2 (s ≤ e + 1 ≤ e)) by lia.
      by rewrite bool_decide_eq_true_2.
    + rewrite (bool_decide_eq_false_2 (Some d = Some (e + 1))) by congruence.
      rewrite xorb_false_r. apply bool_decide_ext. lia.
  - by rewrite bool_decide_eq_false_2.
Qed.

Lemma entries_in_range_succ (s e : Z) (entries : list entry) :
  s ≤ e + 1 →
  length (get_entries_by_date_range s (e + 1) entries)
  = (length (get_entries_by_date_range s e entries)
     + length (filter (λ x, on_day (e + 1) x) entries))%nat.
Proof.
  intros Hse. unfold get_entries_by_date_range.
  induction entries as [|x entries IH]; [ done | ].
  rewrite (filter_bool_cons (in_date_range s (e + 1))),
    (filter_bool_cons (in_date_range s e)), (filter_bool_cons (on_day (e + 1))).
  rewrite (in_date_range_succ s e x Hse).
  assert (in_date_range s e x && on_day (e + 1) x = false) as Hdisj.
  { unfold in_date_range, on_day. destruct (date x) as [d|]; [ | done ].
    apply andb_false_iff.
    destruct (decide (d = e + 1)) as [->|Hne]; [ left | right ].
    - apply bool_decide_eq_false_2. lia.
    - apply bool_decide_eq_false_2. congruence. }
  destruct (in_date_range s e x), (on_day (e + 1) x); cbn [xorb length] in *;
    first [ discriminate Hdisj | lia ].
Qed.

Lemma entries_in_empty_range (s e : Z) (entries : list entry) :
  e < s → get_entries_by_date_range s e entries = [].
Proof.
  intros Hlt. unfold get_entries_by_date_range.
  induction entries as [|x entries IH]; [ done | ].
  rewrite (filter_bool_cons (in_date_range s e)).
  assert (in_date_range s e x = false) as ->; [ | exact IH ].
  unfold in_date_range. destruct (date x) as [d|]; [ | done ].
  apply bool_decide_eq_false_2. lia.
Qed.

Lemma sum_day_counts (entries : list entry) (s : Z) (n : nat) :
  sumZ ((λ d, Z.of_nat (length (filter (λ e, on_day d e) entries)))
          <$> seqZ s (Z.of_nat n))
  = Z.of_nat (length (get_entries_by_date_range s (s + Z.of_nat n - 1) entries)).
Proof.
  induction n as [|n IH].
  - rewrite entries_in_empty_range by lia. reflexivity.
  - rewrite seqZ_S, fmap_app. unfold sumZ in *. rewrite foldr_app. cbn [fmap list_fmap foldr].
    replace (s + Z.of_nat (S n) - 1) with (s + Z.of_nat n - 1 + 1) by lia.
    rewrite entries_in_range_succ by lia.
    replace (s + Z.of_nat n - 1 + 1) with (s + Z.of_nat n) by lia.
    rewrite Nat2Z.inj_add, <- IH.
    generalize (Z.of_nat (length (filter (λ e, on_day (s + Z.of_nat n) e) entries))).
    generalize ((λ d, Z.of_nat (length (filter (λ e, on_day d e) entries)))
                  <$> seqZ s (Z.of_nat n)).
    intros l z. induction l as [|a l IHl]; cbn [foldr]; lia.
Qed.

Lemma activity_loop_Some (rounds : nat) (date_counts : gmap Z Z) (current_date : Z) :
  date_min ≤ current_date →
  current_date + Z.of_nat rounds ≤ date_max →
  activity_loop rounds date_counts current_date
  = Some (seqZ current_date (Z.of_nat rounds),
          (λ d, default 0 (date_counts !! d)) <$> seqZ current_date (Z.of_nat rounds)).
Proof.
  revert current_date. induction rounds as [|rounds IH]; intros current_date Hmin Hmax.
  - reflexivity.
  - cbn [activity_loop]. unfold timedelta, date_add.
    rewrite bool_decide_eq_true_2 by lia. cbn [mbind option_bind].
    rewrite bool_decide_eq_true_2 by lia. cbn [mbind option_bind].
    rewrite IH by lia. cbn [mbind option_bind].
    rewrite (seqZ_cons current_date (Z.of_nat (S rounds))) by lia.
    replace (Z.pred (Z.of_nat (S rounds))) with (Z.of_nat rounds) by lia.
    reflexivity.
Qed.

Lemma activity_loop_None (rounds : nat) (date_counts : gmap Z Z) (current_date : Z) :
  date_min ≤ current_date →
  (0 < rounds)%nat →
  date_max < current_date + Z.of_nat rounds →
  activity_loop rounds date_counts current_date = None.
Proof.
  revert current_date. induction rounds as [|rounds IH]; intros current_date Hmin Hpos Hmax;
    [ lia | ].
  cbn [activity_loop]. unfold timedelta, date_add.
  rewrite bool_decide_eq_true_2 by lia. cbn [mbind option_bind].
  case_bool_decide as Hnext; [ | reflexivity ]. cbn [mbind option_bind].
  rewrite IH; [ reflexivity | lia | | lia ].
  destruct rounds; [ unfold date_max in *; lia | lia ].
Qed.

Lemma writing_activity_heatmap_result (today : Z) (entries : list entry) (days : Z) :
  date_min ≤ today ≤ date_max →
  create_writing_activity_heatmap today entries days
  = if decide (¬ (date_min ≤ today - days + 1 ≤ date_max)
               ∨ (0 < days ∧ today = date_max))
    then None
    else Some (Activity (seqZ (today - days + 1) days) ["Entries"]
                 [(λ d, default 0 (date_counts entries !! d))
                    <$> seqZ (today - days + 1) days]).
Proof.
  intros Htoday. unfold create_writing_activity_heatmap. cbn zeta.
  unfold timedelta.
  case_bool_decide as Hdelta; cbn [mbind option_bind].
  2: { rewrite decide_True; [ reflexivity | ].
       left. unfold date_min, date_max in *. lia. }
  unfold date_sub, date_add.
  replace (today + - (days - 1)) with (today - days + 1) by lia.
  case_bool_decide as Hstart; cbn [mbind option_bind].
  2: { rewrite decide_True; [ reflexivity | by left ]. }
  replace (today - (today - days + 1) + 1) with days by lia.
  destruct (decide (0 < days ∧ today = date_max)) as [[Hdays Hmax]|Hok].
  - rewrite activity_loop_None by lia. cbn [mbind option_bind].
    rewrite decide_True; [ reflexivity | by right ].
  - rewrite activity_loop_Some by lia. cbn [mbind option_bind].
    rewrite decide_False by (intros [?|?]; done).
    replace (Z.of_nat (Z.to_nat days)) with (Z.max 0 days) by lia.
    assert (seqZ (today - days + 1) (Z.max 0 days) = seqZ (today - days + 1) days) as ->.
    { destruct (decide (0 ≤ days)); [ by rewrite Z.max_r | ].
      rewrite !seqZ_nil by lia. reflexivity. }
    reflexivity.
Qed.

(** The heat map of the writing activity.  The arithmetic on dates raises
    [OverflowError] exactly when the window leaves the range of dates.
    Otherwise the figure shows the last [days] days up to today, each with
    the number of entries of that day, and its counts add up to the number
    of entries that [get_entries_by_date_range] returns for the window. *)
Theorem writing_activity_heatmap_spec (today : Z) (entries : list entry) (days : Z) :
  date_min ≤ today ≤ date_max →
  (create_writing_activity_heatmap today entries days = None
   ↔ leaves_dates today days) ∧
  (∀ figure,
     create_writing_activity_heatmap today entries days = Some figure →
     ∃ counts,
       figure = Activity (seqZ (today - days + 1) days) ["Entries"] [counts] ∧
       length counts = Z.to_nat days ∧
       (∀ i d, seqZ (today - days + 1) days !! i = Some d →
          counts !! i = Some (Z.of_nat (length (get_entries_by_date_range d d entries)))) ∧
       sumZ counts
       = Z.of_nat (length (get_entries_by_date_range (today - days + 1) today entries))).
Proof.
  intros Htoday. rewrite (writing_activity_heatmap_result today entries days Htoday).
  unfold leaves_dates.
  destruct (decide (¬ (date_min ≤ today - days + 1 ≤ date_max)
                    ∨ (0 < days ∧ today = date_max))) as [Hleaves|Hstays].
  { split; [ done | by intros ? [=] ]. }
  split; [ split; [ discriminate | done ] | ].
  intros figure [= <-]. eexists. split; [ reflexivity | ].
  split; [ by rewrite length_fmap, length_seqZ | ].
  split.
  - intros i d Hi. rewrite list_lookup_fmap, Hi. cbn [fmap option_fmap option_map].
    by rewrite date_counts_spec, entries_on_day.
  - erewrite list_fmap_ext; [ | intros ? d _; apply date_counts_spec ].
    destruct (decide (days ≤ 0)) as [Hd|Hd].
    + rewrite seqZ_nil by done. rewrite entries_in_empty_range by lia. reflexivity.
    + assert (days = Z.of_nat (Z.to_nat days)) as Hdays by lia.
      revert Hdays. generalize (Z.to_nat days). intros n ->.
      rewrite sum_day_counts. do 3 f_equal. lia.
Qed.

(** Thirty days up to the first of May 2024, with one entry on that day. *)
Lemma writing_activity_heatmap_spec_witness :
  (create_writing_activity_heatmap 739007 [StatisticsSpec.entry_on 739007] 30 = None
   ↔ leaves_dates 739007 30) ∧
  (∀ figure,
     create_writing_activity_heatmap 739007 [StatisticsSpec.entry_on 739007] 30
       = Some figure →
     ∃ counts,
       figure = Activity (seqZ (739007 - 30 + 1) 30) ["Entries"] [counts] ∧
       length counts = Z.to_nat 30 ∧
       (∀ i d, seqZ (739007 - 30 + 1) 30 !! i = Some d →
          counts !! i
          = Some (Z.of_nat (length (get_entries_by_date_range d d
                                      [StatisticsSpec.entry_on 739007])))) ∧
       sumZ counts
       = Z.of_nat (length (get_entries_by_date_range (739007 - 30 + 1) 739007
                             [StatisticsSpec.entry_on 739007]))).
Proof.
  apply (writing_activity_heatmap_spec 739007 [StatisticsSpec.entry_on 739007] 30).
  unfold date_min, date_max. lia.
Defined.

End ChartProps.

(** * Saving an entry from the entry page *)

Module AppProps.
Import Config WeatherHandler JournalManager PySpec PyProps CorrelationSpec
  ClassifierProps MoodTagsProps StoreProps.

(** Saving an entry for a sample whose condition is one of the eight
    conditions, as every sample of the weather handler is, keeps the stored
    list within the entries for which the correlation grid counts exactly:
    known conditions and no repeated tag. *)
Theorem save_entry_keeps_grid_domain (now now_timestamp : string) (today : Z)
    (current_weather : weather_data) (selected_prompt : string)
    (journal_text : Py.codepoints) (entries : list entry) :
  (∃ k, WeatherHandler.condition current_weather = Some k ∧ k ∈ CONDITIONS) →
  known_conditions entries →
  distinct_tags entries →
  ∃ e,
    App.save_entry now now_timestamp today current_weather selected_prompt journal_text
      entries
      = Some (e, e :: entries) ∧
    known_conditions (e :: entries) ∧
    distinct_tags (e :: entries) ∧
    length (mood_tags e) = 3%nat ∧
    get_entry_by_id now (e :: entries) = Some e.
Proof.
  intros (k & Hk & Hin) Hknown Hdistinct. unfold App.save_entry.
  destruct (mood_tags_distinct current_weather) as (tags & -> & Hlen & Hnd).
  cbn [mbind option_bind]. eexists. split; [ reflexivity | ].
  split; [ | split; [ | split ] ].
  - apply Forall_cons. split; [ | exact Hknown ].
    intros c. unfold observed. cbn [weather JournalManager.condition].
    rewrite Hk. cbn [of_option truthy]. case_bool_decide; [ done | ].
    by intros [= <-].
  - apply Forall_cons. split; [ exact Hnd | exact Hdistinct ].
  - exact Hlen.
  - rewrite get_entry_by_id_cons. by rewrite decide_True.
Qed.

(** The first entry of a journal, saved for light rain at 12 degrees. *)
Lemma save_entry_keeps_grid_domain_witness :
  ∃ e,
    App.save_entry "2024-05-01T08:00:00.000001" "2024-05-01T08:00:00.000002" 739007
      (get_weather_manual "2024-05-01T07:59:00" 12 "light rain" true)
      "What emotions are sitting with you right now?"
      (JournalStoreSpec.of_ascii "Grey morning, warm tea.") []
      = Some (e, [e]) ∧
    known_conditions [e] ∧
    distinct_tags [e] ∧
    length (mood_tags e) = 3%nat ∧
    get_entry_by_id "2024-05-01T08:00:00.000001" [e] = Some e.
Proof.
  apply (save_entry_keeps_grid_domain
           "2024-05-01T08:00:00.000001" "2024-05-01T08:00:00.000002" 739007
           (get_weather_manual "2024-05-01T07:59:00" 12 "light rain" true)
           "What emotions are sitting with you right now?"
           (JournalStoreSpec.of_ascii "Grey morning, warm tea.") []).
  - exists "rainy". split; [ reflexivity | ].
    apply (bool_decide_unpack _). vm_compute. exact I.
  - constructor.
  - constructor.
Defined.

End AppProps.
